(** * pterm: the generic interactive select and multiselect printers

    A shallow embedding of [interactive_generic_select_printer.go] and
    [interactive_generic_multiselect_printer.go].

    Conventions of the embedding.
    - Go [int] values are modelled as [Z].  Every integer the two engines
      compute is a list length, an index into a list, or one of those plus
      or minus [MaxHeight] or one, so no operation leaves the 64-bit range
      for any printer whose [MaxHeight] is itself far from the limits.
    - Go [string] values are modelled as [string] (a sequence of bytes).
    - A run-time panic (index or slice bounds out of range) is the [Panic]
      result of the [res] monad.
    - The styling functions ([Sprintf], [Style.Sprint], the checkmark and
      selector glyphs, the help line) only decorate text.  A rendered frame
      is modelled by the data it displays.
    - The collaborators that live outside the two files (the fuzzy ranking
      library, [sort.Sort], the slice allocator and the library-wide default
      printers) are the fields of the class [Collaborators]. *)

From Stdlib Require Import ZArith List String Ascii Bool Lia.
Open Scope string_scope.
Import ListNotations.
Open Scope list_scope.
Open Scope Z_scope.

(** ** Run-time panics *)

Inductive res (A : Type) : Type :=
| Ok (a : A)
| Panic.
Arguments Ok {A} a.
Arguments Panic {A}.

Definition bind {A B : Type} (m : res A) (k : A -> res B) : res B :=
  match m with
  | Ok a => k a
  | Panic => Panic
  end.

Notation "x <- m ;; k" := (bind m (fun x => k))
  (at level 61, m at next level, right associativity).
Notation "' pat <- m ;; k" := (bind m (fun x => match x with pat => k end))
  (at level 61, pat pattern, m at next level, right associativity).

(** [len s] is Go's [len(s)] on a slice. *)
Definition len {A : Type} (s : list A) : Z := Z.of_nat (List.length s).

(** [index s i] is Go's [s[i]]: it panics outside [0 <= i < len(s)]. *)
Definition index {A : Type} (s : list A) (i : Z) : res A :=
  if i <? 0 then Panic
  else match nth_error s (Z.to_nat i) with
       | Some a => Ok a
       | None => Panic
       end.

(** [checkSlice lo hi cap] is the bounds check of Go's [s[lo:hi]] on a slice
    of capacity [cap]: it panics unless [0 <= lo <= hi <= cap]. *)
Definition checkSlice (lo hi cap : Z) : res unit :=
  if (0 <=? lo) && (lo <=? hi) && (hi <=? cap) then Ok tt else Panic.

(** ** Keys (atomicgo.dev/keyboard/keys) *)

Inductive KeyCode : Type :=
| RuneKey | Space | Backspace | Up | Down | Left | Right
| CtrlP | CtrlN | CtrlC | Enter | Tab
| OtherKey (n : nat).

Definition KeyCode_eq_dec (a b : KeyCode) : {a = b} + {a <> b}.
Proof. decide equality. apply Nat.eq_dec. Defined.

Definition KeyCode_eqb (a b : KeyCode) : bool :=
  if KeyCode_eq_dec a b then true else false.

(** A key event: its code and the text [keyInfo.String()] yields for it. *)
Record Key : Type := mkKey { Code : KeyCode; keyString : string }.

(** What the event source delivers to [keyboard.Listen]: a key, or a
    failure of the source itself. *)
Inductive Event : Type :=
| Pressed (k : Key)
| SourceFailure.

(** What a handler tells [keyboard.Listen]: [(false, nil)], [(true, nil)],
    or [(true, nil)] after [cancel()] was called. *)
Inductive Signal : Type := Continue | Stop | Cancel.

(** ** The fuzzy ranking library (github.com/lithammer/fuzzysearch) *)

Record Rank : Type := mkRank {
  Source : string;
  Target : string;
  Distance : Z;
  OriginalIndex : Z
}.

Class Stringer (T : Type) : Type := String_of : T -> string.

Class Collaborators : Type := {
  (** [fuzzy.RankFindFold(source, targets)]. *)
  RankFindFold : string -> list string -> list Rank;
  (** [sort.Sort] on [fuzzy.Ranks] (ordered by [Distance]). *)
  sortRanks : list Rank -> list Rank;
  (** The capacity beyond its length that a slice built by [n] successive
      one-element [append]s keeps; it depends on the Go allocator. *)
  appendSpare : nat -> nat;
  (** [DefaultInteractiveSelect.MaxHeight]. *)
  DefaultSelectMaxHeight : Z;
  (** [DefaultInteractiveMultiselect.MaxHeight]. *)
  DefaultMultiselectMaxHeight : Z
}.

(** Capacity of [fuzzySearchMatches] as [renderSelectMenu] builds it. *)
Definition capOf `{Collaborators} {A : Type} (s : list A) : Z :=
  len s + Z.of_nat (appendSpare (List.length s)).

(** ** Strings *)

(** A UTF-8 continuation byte, [10xxxxxx]. *)
Definition isContinuation (b : ascii) : bool :=
  let n := N_of_ascii b in (128 <=? n)%N && (n <? 192)%N.

Fixpoint dropContinuation (rev_bytes : list ascii) : list ascii :=
  match rev_bytes with
  | b :: rest => if isContinuation b then dropContinuation rest else rev_bytes
  | [] => []
  end.

(** [string([]rune(s)[:len([]rune(s))-1])]: [s] without its last rune.  The
    query is only ever built from rune strings and spaces, so it is valid
    UTF-8, and its last rune is its last lead byte with the continuation
    bytes that follow it. *)
Definition dropLastRune (s : string) : string :=
  string_of_list_ascii
    (rev (tl (dropContinuation (rev (list_ascii_of_string s))))).

(** [for i := 0; i < n; i++ { s = append(s, i) }] from an empty slice. *)
Definition allIndices (n : nat) : list Z := map Z.of_nat (seq 0 n).

(** ** What the output area is given *)

(** One row of the menu: whether it carries the selector, its checkmark
    (multiselect only) and its text. *)
Record Row : Type := mkRow {
  focused : bool;
  checked : option bool;
  label : string
}.

Inductive Frame : Type :=
| Menu (header : option string) (rows : list Row) (summary : option (list string))
| Finished (query : string) (chosen : list string).

Inductive ShowError : Type :=
| NoOptionsProvided          (* "no options provided" *)
| CouldNotStartArea          (* "could not start area: ..." *)
| SpaceKeyWithFilter         (* "if filter/search is active, keys.Space can not be used ..." *)
| KeyboardListenerFailed.    (* "failed to start keyboard listener: ..." *)

(** How [keyboard.Listen] ends on a finite supply of events.  [Pending]
    stands for a listener that has consumed every event supplied so far and
    is blocked waiting for the next key. *)
Inductive ListenEnd (P : Type) : Type :=
| Stopped (canceled : bool) (p : P) (frames : list Frame)
| ListenError (frames : list Frame)
| ListenPanic
| Pending (p : P) (frames : list Frame).
Arguments Stopped {P}.
Arguments ListenError {P}.
Arguments ListenPanic {P}.
Arguments Pending {P}.

(** [keyboard.Listen(handler)]: one event at a time, each fully processed
    before the next one is read. *)
Fixpoint Listen {P : Type} (handler : Key -> P -> res (Signal * P * list Frame))
    (events : list Event) (p : P) (frames : list Frame) : ListenEnd P :=
  match events with
  | [] => Pending p frames
  | SourceFailure :: _ => ListenError frames
  | Pressed k :: rest =>
      match handler k p with
      | Panic => ListenPanic
      | Ok (Continue, p', fs) => Listen handler rest p' (frames ++ fs)
      | Ok (Stop, p', fs) => Stopped false p' (frames ++ fs)
      | Ok (Cancel, p', fs) => Stopped true p' (frames ++ fs)
      end
  end.

(** The outcome of one [Show] call.  [Returned canceled v p frames] is
    [return v, nil]; [canceled] tells whether [cancel()] was called first, in
    which case the deferred [exit] of [internal.NewCancelationSignal] runs
    the interrupt callback after the return value is computed. *)
Inductive Outcome (R P : Type) : Type :=
| Returned (canceled : bool) (v : R) (p : P) (frames : list Frame)
| Failed (e : ShowError) (frames : list Frame)
| Panicked
| Listening (p : P) (frames : list Frame).
Arguments Returned {R P}.
Arguments Failed {R P}.
Arguments Panicked {R P}.
Arguments Listening {R P}.

(** * The multiselect engine *)

Module Multiselect.

Record Printer (T : Type) : Type := mkPrinter {
  Options : list T;
  MaxHeight : Z;
  Filter : bool;
  ShowSelectedOptions : bool;
  optionsStr : list string;
  selectedOption : Z;
  selectedOptions : list Z;
  fuzzySearchString : string;
  fuzzySearchMatches : list string;
  displayedOptionsStart : Z;
  displayedOptionsEnd : Z;
  KeySelect : KeyCode;
  EnableSelectAll : bool;
  KeyConfirm : KeyCode;
  EnableClearAll : bool
}.
Arguments mkPrinter {T}.
Arguments Options {T}.
Arguments MaxHeight {T}.
Arguments Filter {T}.
Arguments ShowSelectedOptions {T}.
Arguments optionsStr {T}.
Arguments selectedOption {T}.
Arguments selectedOptions {T}.
Arguments fuzzySearchString {T}.
Arguments fuzzySearchMatches {T}.
Arguments displayedOptionsStart {T}.
Arguments displayedOptionsEnd {T}.
Arguments KeySelect {T}.
Arguments EnableSelectAll {T}.
Arguments KeyConfirm {T}.
Arguments EnableClearAll {T}.

Section Engine.
Context {T : Type} `{Stringer T} `{Collaborators}.

(** Field assignments [p.f = v]. *)
Definition setOptions (v : list T) (p : Printer T) : Printer T :=
  mkPrinter v (MaxHeight p) (Filter p) (ShowSelectedOptions p) (optionsStr p)
    (selectedOption p) (selectedOptions p) (fuzzySearchString p)
    (fuzzySearchMatches p) (displayedOptionsStart p) (displayedOptionsEnd p)
    (KeySelect p) (EnableSelectAll p) (KeyConfirm p) (EnableClearAll p).
Definition setMaxHeight (v : Z) (p : Printer T) : Printer T :=
  mkPrinter (Options p) v (Filter p) (ShowSelectedOptions p) (optionsStr p)
    (selectedOption p) (selectedOptions p) (fuzzySearchString p)
    (fuzzySearchMatches p) (displayedOptionsStart p) (displayedOptionsEnd p)
    (KeySelect p) (EnableSelectAll p) (KeyConfirm p) (EnableClearAll p).
Definition setFilter (v : bool) (p : Printer T) : Printer T :=
  mkPrinter (Options p) (MaxHeight p) v (ShowSelectedOptions p) (optionsStr p)
    (selectedOption p) (selectedOptions p) (fuzzySearchString p)
    (fuzzySearchMatches p) (displayedOptionsStart p) (displayedOptionsEnd p)
    (KeySelect p) (EnableSelectAll p) (KeyConfirm p) (EnableClearAll p).
Definition setOptionsStr (v : list string) (p : Printer T) : Printer T :=
  mkPrinter (Options p) (MaxHeight p) (Filter p) (ShowSelectedOptions p) v
    (selectedOption p) (selectedOptions p) (fuzzySearchString p)
    (fuzzySearchMatches p) (displayedOptionsStart p) (displayedOptionsEnd p)
    (KeySelect p) (EnableSelectAll p) (KeyConfirm p) (EnableClearAll p).
Definition setSelectedOption (v : Z) (p : Printer T) : Printer T :=
  mkPrinter (Options p) (MaxHeight p) (Filter p) (ShowSelectedOptions p)
    (optionsStr p) v (selectedOptions p) (fuzzySearchString p)
    (fuzzySearchMatches p) (displayedOptionsStart p) (displayedOptionsEnd p)
    (KeySelect p) (EnableSelectAll p) (KeyConfirm p) (EnableClearAll p).
Definition setSelectedOptions (v : list Z) (p : Printer T) : Printer T :=
  mkPrinter (Options p) (MaxHeight p) (Filter p) (ShowSelectedOptions p)
    (optionsStr p) (selectedOption p) v (fuzzySearchString p)
    (fuzzySearchMatches p) (displayedOptionsStart p) (displayedOptionsEnd p)
    (KeySelect p) (EnableSelectAll p) (KeyConfirm p) (EnableClearAll p).
Definition setFuzzySearchString (v : string) (p : Printer T) : Printer T :=
  mkPrinter (Options p) (MaxHeight p) (Filter p) (ShowSelectedOptions p)
    (optionsStr p) (selectedOption p) (selectedOptions p) v
    (fuzzySearchMatches p) (displayedOptionsStart p) (displayedOptionsEnd p)
    (KeySelect p) (EnableSelectAll p) (KeyConfirm p) (EnableClearAll p).
Definition setFuzzySearchMatches (v : list string) (p : Printer T) : Printer T :=
  mkPrinter (Options p) (MaxHeight p) (Filter p) (ShowSelectedOptions p)
    (optionsStr p) (selectedOption p) (selectedOptions p) (fuzzySearchString p)
    v (displayedOptionsStart p) (displayedOptionsEnd p)
    (KeySelect p) (EnableSelectAll p) (KeyConfirm p) (EnableClearAll p).
Definition setDisplayed (start stop : Z) (p : Printer T) : Printer T :=
  mkPrinter (Options p) (MaxHeight p) (Filter p) (ShowSelectedOptions p)
    (optionsStr p) (selectedOption p) (selectedOptions p) (fuzzySearchString p)
    (fuzzySearchMatches p) start stop
    (KeySelect p) (EnableSelectAll p) (KeyConfirm p) (EnableClearAll p).
Definition setKeySelect (v : KeyCode) (p : Printer T) : Printer T :=
  mkPrinter (Options p) (MaxHeight p) (Filter p) (ShowSelectedOptions p)
    (optionsStr p) (selectedOption p) (selectedOptions p) (fuzzySearchString p)
    (fuzzySearchMatches p) (displayedOptionsStart p) (displayedOptionsEnd p)
    v (EnableSelectAll p) (KeyConfirm p) (EnableClearAll p).
Definition setKeyConfirm (v : KeyCode) (p : Printer T) : Printer T :=
  mkPrinter (Options p) (MaxHeight p) (Filter p) (ShowSelectedOptions p)
    (optionsStr p) (selectedOption p) (selectedOptions p) (fuzzySearchString p)
    (fuzzySearchMatches p) (displayedOptionsStart p) (displayedOptionsEnd p)
    (KeySelect p) (EnableSelectAll p) v (EnableClearAll p).

(** [NewGenericInteractiveMultiselect(options)]. *)
Definition NewGenericInteractiveMultiselect (options : list T) : Printer T :=
  mkPrinter options 5 true false [] 0 [] "" [] 0 0 Enter true Tab true.

(** The [With...] methods copy the printer and set one field. *)
Definition WithOptions (options : list T) (p : Printer T) : Printer T :=
  setOptionsStr (map String_of options) (setOptions options p).
Definition WithMaxHeight (maxHeight : Z) (p : Printer T) : Printer T :=
  setMaxHeight maxHeight p.
Definition WithFilter (b : bool) (p : Printer T) : Printer T := setFilter b p.
Definition WithKeySelect (keySelect : KeyCode) (p : Printer T) : Printer T :=
  setKeySelect keySelect p.
Definition WithKeyConfirm (keyConfirm : KeyCode) (p : Printer T) : Printer T :=
  setKeyConfirm keyConfirm p.

(** [findOptionByText]: the first index holding [text], or [-1]. *)
Fixpoint findFrom (i : Z) (opts : list string) (text : string) : Z :=
  match opts with
  | [] => -1
  | option :: rest => if String.eqb option text then i else findFrom (i + 1) rest text
  end.
Definition findOptionByText (p : Printer T) (text : string) : Z :=
  findFrom 0 (optionsStr p) text.

(** [isSelected]: the loop over [selectedOptions], returning at the first
    index whose text is [optionText]. *)
Fixpoint isSelectedIn (opts : list string) (sel : list Z) (optionText : string)
    : res bool :=
  match sel with
  | [] => Ok false
  | selectedOption :: rest =>
      s <- index opts selectedOption ;;
      if String.eqb s optionText then Ok true
      else isSelectedIn opts rest optionText
  end.
Definition isSelected (p : Printer T) (optionText : string) : res bool :=
  isSelectedIn (optionsStr p) (selectedOptions p) optionText.

(** The removal loop of [selectOption]:
    [append(selectedOptions[:i], selectedOptions[i+1:]...)] at the first [i]
    whose text is [optionText], then [break]. *)
Fixpoint removeFirst (opts : list string) (sel : list Z) (optionText : string)
    : res (list Z) :=
  match sel with
  | [] => Ok []
  | selectedOption :: rest =>
      s <- index opts selectedOption ;;
      if String.eqb s optionText then Ok rest
      else r <- removeFirst opts rest optionText ;; Ok (selectedOption :: r)
  end.

Definition selectOption (optionText : string) (p : Printer T) : res (Printer T) :=
  already <- isSelected p optionText ;;
  if already then
    sel <- removeFirst (optionsStr p) (selectedOptions p) optionText ;;
    Ok (setSelectedOptions sel p)
  else
    Ok (setSelectedOptions (selectedOptions p ++ [findOptionByText p optionText]) p).

(** [getSelectedOptions] and [getSelectedOptionsStr]. *)
Fixpoint collect {A : Type} (from : list A) (sel : list Z) : res (list A) :=
  match sel with
  | [] => Ok []
  | selectedOption :: rest =>
      a <- index from selectedOption ;;
      r <- collect from rest ;;
      Ok (a :: r)
  end.
Definition getSelectedOptions (p : Printer T) : res (list T) :=
  collect (Options p) (selectedOptions p).
Definition getSelectedOptionsStr (p : Printer T) : res (list string) :=
  collect (optionsStr p) (selectedOptions p).

(** The filter stage inside [renderSelectMenu]: rank the candidates against
    the query, sort the ranks unless every candidate matched, keep the
    targets. *)
Definition computeMatches (p : Printer T) : list string :=
  let rankedResults := RankFindFold (fuzzySearchString p) (optionsStr p) in
  let rankedResults :=
    if negb (len rankedResults =? len (Options p)) then sortRanks rankedResults
    else rankedResults in
  map Target rankedResults.

(** The two loops over [indexMapper]: entry [i] is the match when [i] lies
    in the displayed range and the empty string otherwise; empty entries are
    skipped. *)
Fixpoint renderRows (p : Printer T) (i : Z) (matches : list string)
    : res (list Row) :=
  match matches with
  | [] => Ok []
  | m :: rest =>
      let option :=
        if (displayedOptionsStart p <=? i) && (i <? displayedOptionsEnd p)
        then m else "" in
      if String.eqb option "" then renderRows p (i + 1) rest
      else
        mark <- isSelected p option ;;
        rows <- renderRows p (i + 1) rest ;;
        Ok (mkRow (i =? selectedOption p) (Some mark) option :: rows)
  end.

Definition renderSelectMenu (p : Printer T) : res (Printer T * Frame) :=
  let p := setFuzzySearchMatches (computeMatches p) p in
  rows <- renderRows p 0 (fuzzySearchMatches p) ;;
  summary <- (if 0 <? len (selectedOptions p)
              then selected <- getSelectedOptionsStr p ;; Ok (Some selected)
              else Ok None) ;;
  Ok (p, Menu (Some (fuzzySearchString p)) rows summary).

Definition renderFinishedMenu (p : Printer T) : res Frame :=
  chosen <- getSelectedOptions p ;;
  Ok (Finished (fuzzySearchString p) (map String_of chosen)).

(** The event handler [Show] gives to [keyboard.Listen].  [maxHeight] is the
    variable the closure shares with [Show]; every call assigns it before
    reading it.  The slice expressions that fill [displayedOptions], a field
    neither engine reads, are kept as their bounds checks. *)
Definition handleKey (keyInfo : Key) (p : Printer T)
    : res (Signal * Printer T * list Frame) :=
  let key := Code keyInfo in
  let maxHeight :=
    if MaxHeight p >? len (fuzzySearchMatches p)
    then len (fuzzySearchMatches p) else MaxHeight p in
  if KeyCode_eqb key (KeyConfirm p) then
    if len (fuzzySearchMatches p) =? 0 then Ok (Continue, p, [])
    else
      f <- renderFinishedMenu p ;;
      Ok (Stop, p, [f])
  else if KeyCode_eqb key (KeySelect p) then
    p <- (if 0 <? len (fuzzySearchMatches p)
          then
            text <- index (fuzzySearchMatches p) (selectedOption p) ;;
            selectOption text p
          else Ok p) ;;
    '(p, f) <- renderSelectMenu p ;;
    Ok (Continue, p, [f])
  else
    match key with
    | RuneKey =>
        p <- (if Filter p
              then
                let p := setFuzzySearchString
                           (String.append (fuzzySearchString p) (keyString keyInfo)) p in
                let p := setSelectedOption 0 p in
                let p := setDisplayed 0 maxHeight p in
                _ <- checkSlice 0 maxHeight (capOf (fuzzySearchMatches p)) ;;
                Ok p
              else Ok p) ;;
        '(p, f) <- renderSelectMenu p ;;
        Ok (Continue, p, [f])
    | Space =>
        if Filter p
        then
          let p := setFuzzySearchString (String.append (fuzzySearchString p) " ") p in
          let p := setSelectedOption 0 p in
          '(p, f) <- renderSelectMenu p ;;
          Ok (Continue, p, [f])
        else Ok (Continue, p, [])
    | Backspace =>
        let p :=
          if 0 <? Z.of_nat (String.length (fuzzySearchString p))
          then setFuzzySearchString (dropLastRune (fuzzySearchString p)) p
          else p in
        let p :=
          if String.eqb (fuzzySearchString p) ""
          then setFuzzySearchMatches (optionsStr p) p
          else p in
        '(p, _) <- renderSelectMenu p ;;
        let maxHeight :=
          if len (fuzzySearchMatches p) >? MaxHeight p
          then MaxHeight p else len (fuzzySearchMatches p) in
        let p := setSelectedOption 0 p in
        let p := setDisplayed 0 maxHeight p in
        _ <- checkSlice (displayedOptionsStart p) (displayedOptionsEnd p)
               (capOf (fuzzySearchMatches p)) ;;
        '(p, f) <- renderSelectMenu p ;;
        Ok (Continue, p, [f])
    | Left =>
        if EnableClearAll p
        then
          let p := setSelectedOptions [] p in
          '(p, f) <- renderSelectMenu p ;;
          Ok (Continue, p, [f])
        else Ok (Continue, p, [])
    | Right =>
        if EnableSelectAll p
        then
          let p := setSelectedOptions (allIndices (List.length (Options p))) p in
          '(p, f) <- renderSelectMenu p ;;
          Ok (Continue, p, [f])
        else Ok (Continue, p, [])
    | Up | CtrlP =>
        if len (fuzzySearchMatches p) =? 0 then Ok (Continue, p, [])
        else
          p <- (if 0 <? selectedOption p
                then
                  let p := setSelectedOption (selectedOption p - 1) p in
                  if selectedOption p <? displayedOptionsStart p
                  then
                    let p := setDisplayed (displayedOptionsStart p - 1)
                               (displayedOptionsEnd p - 1) p in
                    let p := if displayedOptionsStart p <? 0
                             then setDisplayed 0 maxHeight p else p in
                    _ <- checkSlice (displayedOptionsStart p) (displayedOptionsEnd p)
                           (capOf (fuzzySearchMatches p)) ;;
                    Ok p
                  else Ok p
                else
                  let p := setSelectedOption (len (fuzzySearchMatches p) - 1) p in
                  let p := setDisplayed (len (fuzzySearchMatches p) - maxHeight)
                             (len (fuzzySearchMatches p)) p in
                  _ <- checkSlice (displayedOptionsStart p) (displayedOptionsEnd p)
                         (capOf (fuzzySearchMatches p)) ;;
                  Ok p) ;;
          '(p, f) <- renderSelectMenu p ;;
          Ok (Continue, p, [f])
    | Down | CtrlN =>
        if len (fuzzySearchMatches p) =? 0 then Ok (Continue, p, [])
        else
          _ <- checkSlice 0 maxHeight (capOf (fuzzySearchMatches p)) ;;
          p <- (if selectedOption p <? len (fuzzySearchMatches p) - 1
                then
                  let p := setSelectedOption (selectedOption p + 1) p in
                  if displayedOptionsEnd p <=? selectedOption p
                  then
                    let p := setDisplayed (displayedOptionsStart p + 1)
                               (displayedOptionsEnd p + 1) p in
                    _ <- checkSlice (displayedOptionsStart p) (displayedOptionsEnd p)
                           (capOf (fuzzySearchMatches p)) ;;
                    Ok p
                  else Ok p
                else
                  let p := setSelectedOption 0 p in
                  let p := setDisplayed 0 maxHeight p in
                  _ <- checkSlice (displayedOptionsStart p) (displayedOptionsEnd p)
                         (capOf (fuzzySearchMatches p)) ;;
                  Ok p) ;;
          '(p, f) <- renderSelectMenu p ;;
          Ok (Continue, p, [f])
    | CtrlC => Ok (Cancel, p, [])
    | _ => Ok (Continue, p, [])
    end.

(** [Show].  [areaFails] tells whether [DefaultArea.Start] reports an error;
    [events] is what the key-event source delivers.  The first slice
    expression, [fuzzySearchMatches[:maxHeight]], is taken of a fresh copy of
    [optionsStr] with [maxHeight] already clamped to its length, so only a
    negative [maxHeight] can make it panic. *)
Definition Show (p : Printer T) (areaFails : bool) (events : list Event)
    : Outcome (list T) (Printer T) :=
  let p := setFuzzySearchMatches (optionsStr p) p in
  let p := if MaxHeight p =? 0
           then setMaxHeight DefaultMultiselectMaxHeight p else p in
  let maxHeight := MaxHeight p in
  let maxHeight :=
    if maxHeight >? len (fuzzySearchMatches p)
    then len (fuzzySearchMatches p) else maxHeight in
  if len (Options p) =? 0 then Failed NoOptionsProvided []
  else
    match checkSlice 0 maxHeight (len (fuzzySearchMatches p)) with
    | Panic => Panicked
    | Ok _ =>
        let p := setDisplayed 0 maxHeight p in
        match renderSelectMenu p with
        | Panic => Panicked
        | Ok (p, f0) =>
            if areaFails then Failed CouldNotStartArea []
            else if Filter p
                    && (KeyCode_eqb (KeyConfirm p) Space
                        || KeyCode_eqb (KeySelect p) Space)
            then Failed SpaceKeyWithFilter [f0]
            else
              match renderSelectMenu p with
              | Panic => Panicked
              | Ok (p, f1) =>
                  match Listen handleKey events p [f0; f1] with
                  | ListenPanic => Panicked
                  | ListenError frames => Failed KeyboardListenerFailed frames
                  | Pending p frames => Listening p frames
                  | Stopped canceled p frames =>
                      match getSelectedOptions p with
                      | Panic => Panicked
                      | Ok result => Returned canceled result p frames
                      end
                  end
              end
        end
    end.

(** *** Properties of a session state *)

(** Every chosen index points into the candidate store. *)
Definition validSel (p : Printer T) : Prop :=
  Forall (fun i => 0 <= i < len (optionsStr p)) (selectedOptions p).

(** What holds of the printer between two key events: the height is not
    negative, the chosen indices are valid, and the filtered list is the one
    the last render computed from the current query. *)
Definition Inv (p : Printer T) : Prop :=
  0 <= MaxHeight p /\ validSel p /\ fuzzySearchMatches p = computeMatches p.

(** The viewport contains the focus and fits the filtered list. *)
Definition WindowInv (p : Printer T) : Prop :=
  0 <= displayedOptionsStart p
  /\ displayedOptionsStart p <= selectedOption p
  /\ selectedOption p < displayedOptionsEnd p
  /\ displayedOptionsEnd p <= len (fuzzySearchMatches p)
  /\ displayedOptionsEnd p - displayedOptionsStart p <= MaxHeight p.

(** A key that edits the query: a rune, a space or a backspace that is not
    bound to confirm or select. *)
Definition queryKey (p : Printer T) (k : Key) : bool :=
  match Code k with
  | RuneKey | Space | Backspace =>
      negb (KeyCode_eqb (Code k) (KeyConfirm p))
      && negb (KeyCode_eqb (Code k) (KeySelect p))
  | _ => false
  end.

(** A key that moves the focus and is not bound to confirm or select. *)
Definition navKey (p : Printer T) (k : Key) : bool :=
  match Code k with
  | Up | CtrlP | Down | CtrlN =>
      negb (KeyCode_eqb (Code k) (KeyConfirm p))
      && negb (KeyCode_eqb (Code k) (KeySelect p))
  | _ => false
  end.

(** A key that confirms, selects or moves the focus. *)
Definition guardedKey (p : Printer T) (k : Key) : bool :=
  KeyCode_eqb (Code k) (KeyConfirm p)
  || KeyCode_eqb (Code k) (KeySelect p)
  || match Code k with
     | Up | CtrlP | Down | CtrlN => true
     | _ => false
     end.

(** [selectOption] on each text in turn. *)
Fixpoint toggleEach (texts : list string) (p : Printer T) : res (Printer T) :=
  match texts with
  | [] => Ok p
  | text :: rest => p <- selectOption text p ;; toggleEach rest p
  end.

(** The fields a session never assigns. *)
Definition sameConfig (p q : Printer T) : Prop :=
  Options q = Options p /\ MaxHeight q = MaxHeight p /\ Filter q = Filter p
  /\ optionsStr q = optionsStr p /\ KeySelect q = KeySelect p
  /\ KeyConfirm q = KeyConfirm p /\ EnableSelectAll q = EnableSelectAll p
  /\ EnableClearAll q = EnableClearAll p.

(** The window shows as many rows as the height and the filtered list
    allow. *)
Definition fullWindow (p : Printer T) : Prop :=
  displayedOptionsEnd p - displayedOptionsStart p
  = Z.min (MaxHeight p) (len (fuzzySearchMatches p)).

(** The height [Show] starts from. *)
Definition startHeight (p : Printer T) : Z :=
  if MaxHeight p =? 0 then DefaultMultiselectMaxHeight else MaxHeight p.

End Engine.
End Multiselect.

(** * The single-select engine *)

Module Select.

Record Printer (T : Type) : Type := mkPrinter {
  Options : list T;
  DefaultOption : option T;
  MaxHeight : Z;
  Filter : bool;
  optionsStr : list string;
  defaultOptionStr : string;
  selectedOption : Z;
  result : string;
  fuzzySearchString : string;
  fuzzySearchMatches : list string;
  displayedOptionsStart : Z;
  displayedOptionsEnd : Z
}.
Arguments mkPrinter {T}.
Arguments Options {T}.
Arguments DefaultOption {T}.
Arguments MaxHeight {T}.
Arguments Filter {T}.
Arguments optionsStr {T}.
Arguments defaultOptionStr {T}.
Arguments selectedOption {T}.
Arguments result {T}.
Arguments fuzzySearchString {T}.
Arguments fuzzySearchMatches {T}.
Arguments displayedOptionsStart {T}.
Arguments displayedOptionsEnd {T}.

Section Engine.
Context {T : Type} `{Stringer T} `{Collaborators}.

(** Field assignments [p.f = v]. *)
Definition setOptions (v : list T) (p : Printer T) : Printer T :=
  mkPrinter v (DefaultOption p) (MaxHeight p) (Filter p) (optionsStr p)
    (defaultOptionStr p) (selectedOption p) (result p) (fuzzySearchString p)
    (fuzzySearchMatches p) (displayedOptionsStart p) (displayedOptionsEnd p).
Definition setDefaultOption (v : option T) (s : string) (p : Printer T) : Printer T :=
  mkPrinter (Options p) v (MaxHeight p) (Filter p) (optionsStr p)
    s (selectedOption p) (result p) (fuzzySearchString p)
    (fuzzySearchMatches p) (displayedOptionsStart p) (displayedOptionsEnd p).
Definition setMaxHeight (v : Z) (p : Printer T) : Printer T :=
  mkPrinter (Options p) (DefaultOption p) v (Filter p) (optionsStr p)
    (defaultOptionStr p) (selectedOption p) (result p) (fuzzySearchString p)
    (fuzzySearchMatches p) (displayedOptionsStart p) (displayedOptionsEnd p).
Definition setFilter (v : bool) (p : Printer T) : Printer T :=
  mkPrinter (Options p) (DefaultOption p) (MaxHeight p) v (optionsStr p)
    (defaultOptionStr p) (selectedOption p) (result p) (fuzzySearchString p)
    (fuzzySearchMatches p) (displayedOptionsStart p) (displayedOptionsEnd p).
Definition setOptionsStr (v : list string) (p : Printer T) : Printer T :=
  mkPrinter (Options p) (DefaultOption p) (MaxHeight p) (Filter p) v
    (defaultOptionStr p) (selectedOption p) (result p) (fuzzySearchString p)
    (fuzzySearchMatches p) (displayedOptionsStart p) (displayedOptionsEnd p).
Definition setSelectedOption (v : Z) (p : Printer T) : Printer T :=
  mkPrinter (Options p) (DefaultOption p) (MaxHeight p) (Filter p) (optionsStr p)
    (defaultOptionStr p) v (result p) (fuzzySearchString p)
    (fuzzySearchMatches p) (displayedOptionsStart p) (displayedOptionsEnd p).
Definition setResult (v : string) (p : Printer T) : Printer T :=
  mkPrinter (Options p) (DefaultOption p) (MaxHeight p) (Filter p) (optionsStr p)
    (defaultOptionStr p) (selectedOption p) v (fuzzySearchString p)
    (fuzzySearchMatches p) (displayedOptionsStart p) (displayedOptionsEnd p).
Definition setFuzzySearchString (v : string) (p : Printer T) : Printer T :=
  mkPrinter (Options p) (DefaultOption p) (MaxHeight p) (Filter p) (optionsStr p)
    (defaultOptionStr p) (selectedOption p) (result p) v
    (fuzzySearchMatches p) (displayedOptionsStart p) (displayedOptionsEnd p).
Definition setFuzzySearchMatches (v : list string) (p : Printer T) : Printer T :=
  mkPrinter (Options p) (DefaultOption p) (MaxHeight p) (Filter p) (optionsStr p)
    (defaultOptionStr p) (selectedOption p) (result p) (fuzzySearchString p)
    v (displayedOptionsStart p) (displayedOptionsEnd p).
Definition setDisplayed (start stop : Z) (p : Printer T) : Printer T :=
  mkPrinter (Options p) (DefaultOption p) (MaxHeight p) (Filter p) (optionsStr p)
    (defaultOptionStr p) (selectedOption p) (result p) (fuzzySearchString p)
    (fuzzySearchMatches p) start stop.

(** [NewGenericInteractiveSelect()]. *)
Definition NewGenericInteractiveSelect : Printer T :=
  mkPrinter [] None 5 true [] "" 0 "" "" [] 0 0.

(** The [With...] methods copy the printer and set one field. *)
Definition WithOptions (options : list T) (p : Printer T) : Printer T :=
  setOptionsStr (map String_of options) (setOptions options p).
Definition WithDefaultOption (option : T) (p : Printer T) : Printer T :=
  setDefaultOption (Some option) (String_of option) p.
Definition WithMaxHeight (maxHeight : Z) (p : Printer T) : Printer T :=
  setMaxHeight maxHeight p.
Definition WithFilter (b : bool) (p : Printer T) : Printer T := setFilter b p.

(** The filter stage inside [renderSelectMenu]. *)
Definition computeMatches (p : Printer T) : list string :=
  let rankedResults := RankFindFold (fuzzySearchString p) (optionsStr p) in
  let rankedResults :=
    if negb (len rankedResults =? len (Options p)) then sortRanks rankedResults
    else rankedResults in
  map Target rankedResults.

(** The two loops over [indexMapper]. *)
Fixpoint renderRows (p : Printer T) (i : Z) (matches : list string) : list Row :=
  match matches with
  | [] => []
  | m :: rest =>
      let option :=
        if (displayedOptionsStart p <=? i) && (i <? displayedOptionsEnd p)
        then m else "" in
      if String.eqb option "" then renderRows p (i + 1) rest
      else mkRow (i =? selectedOption p) None option :: renderRows p (i + 1) rest
  end.

Definition renderSelectMenu (p : Printer T) : res (Printer T * Frame) :=
  let p := setFuzzySearchMatches (computeMatches p) p in
  p <- (if negb (len (fuzzySearchMatches p) =? 0)
        then
          r <- index (fuzzySearchMatches p) (selectedOption p) ;;
          Ok (setResult r p)
        else Ok p) ;;
  Ok (p, Menu (if Filter p then Some (fuzzySearchString p) else None)
              (renderRows p 0 (fuzzySearchMatches p)) None).

Definition renderFinishedMenu (p : Printer T) : Frame :=
  Finished (fuzzySearchString p) [result p].

(** The loop of [Show] that looks the default option up: at the first index
    whose text is [defaultOptionStr] it places the focus and the window, then
    breaks.  [optionsStr] comes from [make], so its capacity is its length. *)
Fixpoint placeDefault (maxHeight : Z) (i : Z) (opts : list string)
    (p : Printer T) : res (Printer T) :=
  match opts with
  | [] => Ok p
  | option :: rest =>
      if String.eqb option (defaultOptionStr p)
      then
        let p := setSelectedOption i p in
        let p :=
          if (0 <? i) && (len (Options p) >? maxHeight)
          then
            let stop := Z.min (i - 1 + maxHeight) (len (Options p)) in
            setDisplayed (stop - maxHeight) stop p
          else setDisplayed 0 maxHeight p in
        _ <- checkSlice (displayedOptionsStart p) (displayedOptionsEnd p)
               (len (optionsStr p)) ;;
        Ok p
      else placeDefault maxHeight (i + 1) rest p
  end.

(** The event handler [Show] gives to [keyboard.Listen]. *)
Definition handleKey (keyInfo : Key) (p : Printer T)
    : res (Signal * Printer T * list Frame) :=
  let key := Code keyInfo in
  let maxHeight :=
    if MaxHeight p >? len (fuzzySearchMatches p)
    then len (fuzzySearchMatches p) else MaxHeight p in
  match key with
  | RuneKey =>
      if Filter p
      then
        let p := setFuzzySearchString
                   (String.append (fuzzySearchString p) (keyString keyInfo)) p in
        let p := setSelectedOption 0 p in
        let p := setDisplayed 0 maxHeight p in
        _ <- checkSlice 0 maxHeight (capOf (fuzzySearchMatches p)) ;;
        '(p, f) <- renderSelectMenu p ;;
        Ok (Continue, p, [f])
      else Ok (Continue, p, [])
  | Space =>
      let p := setFuzzySearchString (String.append (fuzzySearchString p) " ") p in
      let p := setSelectedOption 0 p in
      '(p, f) <- renderSelectMenu p ;;
      Ok (Continue, p, [f])
  | Backspace =>
      let p :=
        if 0 <? Z.of_nat (String.length (fuzzySearchString p))
        then setFuzzySearchString (dropLastRune (fuzzySearchString p)) p
        else p in
      let p :=
        if String.eqb (fuzzySearchString p) ""
        then setFuzzySearchMatches (optionsStr p) p
        else p in
      '(p, _) <- renderSelectMenu p ;;
      let maxHeight :=
        if len (fuzzySearchMatches p) >? MaxHeight p
        then MaxHeight p else len (fuzzySearchMatches p) in
      let p := setSelectedOption 0 p in
      let p := setDisplayed 0 maxHeight p in
      _ <- checkSlice (displayedOptionsStart p) (displayedOptionsEnd p)
             (capOf (fuzzySearchMatches p)) ;;
      '(p, f) <- renderSelectMenu p ;;
      Ok (Continue, p, [f])
  | Up | CtrlP =>
      if len (fuzzySearchMatches p) =? 0 then Ok (Continue, p, [])
      else
        p <- (if 0 <? selectedOption p
              then
                let p := setSelectedOption (selectedOption p - 1) p in
                if selectedOption p <? displayedOptionsStart p
                then
                  let p := setDisplayed (displayedOptionsStart p - 1)
                             (displayedOptionsEnd p - 1) p in
                  let p := if displayedOptionsStart p <? 0
                           then setDisplayed 0 maxHeight p else p in
                  _ <- checkSlice (displayedOptionsStart p) (displayedOptionsEnd p)
                         (capOf (fuzzySearchMatches p)) ;;
                  Ok p
                else Ok p
              else
                let p := setSelectedOption (len (fuzzySearchMatches p) - 1) p in
                let p := setDisplayed (len (fuzzySearchMatches p) - maxHeight)
                           (len (fuzzySearchMatches p)) p in
                _ <- checkSlice (displayedOptionsStart p) (displayedOptionsEnd p)
                       (capOf (fuzzySearchMatches p)) ;;
                Ok p) ;;
        '(p, f) <- renderSelectMenu p ;;
        Ok (Continue, p, [f])
  | Down | CtrlN =>
      if len (fuzzySearchMatches p) =? 0 then Ok (Continue, p, [])
      else
        _ <- checkSlice 0 maxHeight (capOf (fuzzySearchMatches p)) ;;
        p <- (if selectedOption p <? len (fuzzySearchMatches p) - 1
              then
                let p := setSelectedOption (selectedOption p + 1) p in
                if displayedOptionsEnd p <=? selectedOption p
                then
                  let p := setDisplayed (displayedOptionsStart p + 1)
                             (displayedOptionsEnd p + 1) p in
                  _ <- checkSlice (displayedOptionsStart p) (displayedOptionsEnd p)
                         (capOf (fuzzySearchMatches p)) ;;
                  Ok p
                else Ok p
              else
                let p := setSelectedOption 0 p in
                let p := setDisplayed 0 maxHeight p in
                _ <- checkSlice (displayedOptionsStart p) (displayedOptionsEnd p)
                       (capOf (fuzzySearchMatches p)) ;;
                Ok p) ;;
        '(p, f) <- renderSelectMenu p ;;
        Ok (Continue, p, [f])
  | CtrlC => Ok (Cancel, p, [])
  | Enter =>
      if len (fuzzySearchMatches p) =? 0 then Ok (Continue, p, [])
      else Ok (Stop, p, [renderFinishedMenu p])
  | _ => Ok (Continue, p, [])
  end.

(** [Show].  [areaFails] tells whether [DefaultArea.Start] reports an error;
    [events] is what the key-event source delivers.  The first slice
    expression, [fuzzySearchMatches[:maxHeight]], is taken of a fresh copy of
    [optionsStr] with [maxHeight] already clamped to its length, so only a
    negative [maxHeight] can make it panic. *)
Definition Show (p : Printer T) (areaFails : bool) (events : list Event)
    : Outcome T (Printer T) :=
  let p := setFuzzySearchMatches (optionsStr p) p in
  let p := if MaxHeight p =? 0
           then setMaxHeight DefaultSelectMaxHeight p else p in
  let maxHeight := MaxHeight p in
  let maxHeight :=
    if maxHeight >? len (fuzzySearchMatches p)
    then len (fuzzySearchMatches p) else maxHeight in
  if len (Options p) =? 0 then Failed NoOptionsProvided []
  else
    match checkSlice 0 maxHeight (len (fuzzySearchMatches p)) with
    | Panic => Panicked
    | Ok _ =>
        let p := setDisplayed 0 maxHeight p in
        match (if negb (String.eqb (defaultOptionStr p) "")
               then placeDefault maxHeight 0 (optionsStr p) p
               else Ok p) with
        | Panic => Panicked
        | Ok p =>
            match renderSelectMenu p with
            | Panic => Panicked
            | Ok (p, f0) =>
                if areaFails then Failed CouldNotStartArea []
                else
                  match renderSelectMenu p with
                  | Panic => Panicked
                  | Ok (p, f1) =>
                      match Listen handleKey events p [f0; f1] with
                      | ListenPanic => Panicked
                      | ListenError frames => Failed KeyboardListenerFailed frames
                      | Pending p frames => Listening p frames
                      | Stopped canceled p frames =>
                          match index (Options p) (selectedOption p) with
                          | Panic => Panicked
                          | Ok t => Returned canceled t p frames
                          end
                      end
                  end
            end
        end
    end.

(** *** Properties of a session state *)

(** The focus is an index of the filtered list [matches] unless that list is
    empty. *)
Definition focusOk (matches : list string) (p : Printer T) : Prop :=
  matches <> [] -> 0 <= selectedOption p < len matches.

(** What holds of the printer between two key events: the height is not
    negative, the filtered list is the one the last render computed from the
    current query, and the focus lies in it. *)
Definition Inv (p : Printer T) : Prop :=
  0 <= MaxHeight p /\ fuzzySearchMatches p = computeMatches p
  /\ focusOk (fuzzySearchMatches p) p.

(** The viewport contains the focus and fits the filtered list. *)
Definition WindowInv (p : Printer T) : Prop :=
  0 <= displayedOptionsStart p
  /\ displayedOptionsStart p <= selectedOption p
  /\ selectedOption p < displayedOptionsEnd p
  /\ displayedOptionsEnd p <= len (fuzzySearchMatches p)
  /\ displayedOptionsEnd p - displayedOptionsStart p <= MaxHeight p.

(** A key that confirms or moves the focus. *)
Definition guardedKey (k : Key) : bool :=
  match Code k with
  | Enter | Up | CtrlP | Down | CtrlN => true
  | _ => false
  end.

(** A key that moves the focus. *)
Definition navKey (k : Key) : bool :=
  match Code k with
  | Up | CtrlP | Down | CtrlN => true
  | _ => false
  end.

(** The fields a session never assigns. *)
Definition sameConfig (p q : Printer T) : Prop :=
  Options q = Options p /\ MaxHeight q = MaxHeight p /\ Filter q = Filter p
  /\ optionsStr q = optionsStr p /\ defaultOptionStr q = defaultOptionStr p.

(** The window shows as many rows as the height and the filtered list
    allow. *)
Definition fullWindow (p : Printer T) : Prop :=
  displayedOptionsEnd p - displayedOptionsStart p
  = Z.min (MaxHeight p) (len (fuzzySearchMatches p)).

(** The height [Show] starts from. *)
Definition startHeight (p : Printer T) : Z :=
  if MaxHeight p =? 0 then DefaultSelectMaxHeight else MaxHeight p.

(** The text of the final menu is the focused entry of the filtered list. *)
Definition resultOk (p : Printer T) : Prop :=
  fuzzySearchMatches p <> [] ->
  index (fuzzySearchMatches p) (selectedOption p) = Ok (result p).

(** The first index of [opts] that holds [text], counted from [i]. *)
Fixpoint firstIndex (i : Z) (opts : list string) (text : string) : option Z :=
  match opts with
  | [] => None
  | option :: rest =>
      if String.eqb option text then Some i else firstIndex (i + 1) rest text
  end.

End Engine.
End Select.

(** * A reference instance of the collaborators *)

Module Reference.

(** ASCII case folding. *)
Definition foldByte (c : ascii) : ascii :=
  let n := N_of_ascii c in
  if (65 <=? n)%N && (n <=? 90)%N then ascii_of_N (n + 32) else c.

Fixpoint foldCase (s : string) : string :=
  match s with
  | EmptyString => EmptyString
  | String c rest => String (foldByte c) (foldCase rest)
  end.

(** What is left of [target] after the first occurrence of [c]. *)
Fixpoint after (c : ascii) (target : string) : option string :=
  match target with
  | EmptyString => None
  | String d rest => if Ascii.eqb c d then Some rest else after c rest
  end.

(** The characters of [source] occur in [target] in the same order. *)
Fixpoint subsequence (source target : string) : bool :=
  match source with
  | EmptyString => true
  | String c rest =>
      match after c target with
      | Some target' => subsequence rest target'
      | None => false
      end
  end.

(** One row of the edit-distance table. *)
Fixpoint levRow (c : ascii) (t : list ascii) (prev : list nat) (diag left : nat)
    : list nat :=
  match t, prev with
  | d :: t', up :: prev' =>
      let cost := if Ascii.eqb c d then 0%nat else 1%nat in
      let v := Nat.min (Nat.min (up + 1) (left + 1)) (diag + cost) in
      v :: levRow c t' prev' up v
  | _, _ => []
  end.

Fixpoint levRows (s t : list ascii) (i : nat) (prev : list nat) : list nat :=
  match s with
  | [] => prev
  | c :: s' => levRows s' t (S i) (levRow c t prev i (S i))
  end.

Definition LevenshteinDistance (s t : string) : nat :=
  let s := list_ascii_of_string s in
  let t := list_ascii_of_string t in
  last (levRows s t 0 (seq 1 (List.length t))) (List.length s).

Fixpoint rankFrom (source : string) (i : Z) (targets : list string) : list Rank :=
  match targets with
  | [] => []
  | target :: rest =>
      if subsequence (foldCase source) (foldCase target)
      then mkRank source target (Z.of_nat (LevenshteinDistance source target)) i
             :: rankFrom source (i + 1) rest
      else rankFrom source (i + 1) rest
  end.

Fixpoint insertRank (r : Rank) (sorted : list Rank) : list Rank :=
  match sorted with
  | [] => [r]
  | r' :: rest =>
      if Distance r' <=? Distance r then r' :: insertRank r rest
      else r :: sorted
  end.

Definition byDistance (ranks : list Rank) : list Rank :=
  fold_left (fun sorted r => insertRank r sorted) ranks [].

(** Modelled from the spec: the fuzzy ranking capability
    [rank(query, candidates) -> ordered subset] and the library-wide default
    printers, which live outside the two source files.  An empty query keeps
    every candidate in its original order; a non-empty query keeps the
    candidates that contain its characters in order, ignoring case, and
    ranks each by its edit distance to the query; sorting orders the ranks by
    distance and keeps ties in their original order.  The default maximum
    height is 5, and a slice carries no capacity beyond its length. *)
#[export] Instance collaborators : Collaborators := {
  RankFindFold source targets := rankFrom source 0 targets;
  sortRanks := byDistance;
  appendSpare _ := 0%nat;
  DefaultSelectMaxHeight := 5;
  DefaultMultiselectMaxHeight := 5
}.

(** Options whose display text is the option itself (a named string type
    whose [String] method returns it). *)
#[export] Instance stringOption : Stringer string := fun s => s.

Definition rune (s : string) : Event := Pressed (mkKey RuneKey s).
Definition press (c : KeyCode) : Event := Pressed (mkKey c "").

Definition greek : list string := ["alpha"; "beta"; "gamma"; "delta"; "epsilon"].

(** Printers over the five candidates, as [WithOptions] builds them. *)
Definition greekMultiselect : Multiselect.Printer string :=
  Multiselect.WithOptions greek (Multiselect.NewGenericInteractiveMultiselect greek).
Definition greekSelect : Select.Printer string :=
  Select.WithOptions greek Select.NewGenericInteractiveSelect.

(** Candidates of which only the first two contain a space. *)
Definition spaced : list string := ["a b c"; "d e f"; "g"; "h"; "i"].

End Reference.


(** ** Notions used to state properties *)

(** One UTF-8 encoded rune: a byte that is not a continuation byte, followed
    by continuation bytes only. *)
Definition isSingleRune (r : string) : bool :=
  match r with
  | EmptyString => false
  | String lead rest =>
      negb (isContinuation lead)
      && forallb isContinuation (list_ascii_of_string rest)
  end.

(** The entries of [l] at the indices [i] with [lo <= i < hi]. *)
Definition visible {A : Type} (lo hi : Z) (l : list A) : list A :=
  firstn (Z.to_nat hi - Z.to_nat lo) (skipn (Z.to_nat lo) l).

(** The rows that are drawn: the non-empty texts. *)
Definition drawn (texts : list string) : list string :=
  filter (fun s => negb (String.eqb s "")) texts.

(** The focus after a move down, and after a move up, in a list of [n]
    entries. *)
Definition focusDown (n focus : Z) : Z :=
  if focus <? n - 1 then focus + 1 else 0.
Definition focusUp (n focus : Z) : Z :=
  if 0 <? focus then focus - 1 else n - 1.

(** * Facts shared by the two engines *)

Lemma bind_ok {A B : Type} (m : res A) (k : A -> res B) (b : B) :
  bind m k = Ok b -> exists a, m = Ok a /\ k a = Ok b.
Proof.
  destruct m as [a|]; simpl; intros E; [exists a; auto | discriminate].
Qed.

Lemma index_ok {A : Type} (s : list A) (i : Z) (a : A) :
  index s i = Ok a -> 0 <= i < len s /\ nth_error s (Z.to_nat i) = Some a.
Proof.
  unfold index, len. destruct (Z.ltb_spec i 0); [discriminate|].
  destruct (nth_error s (Z.to_nat i)) eqn:E; [|discriminate].
  intros [= ->]. split; [|reflexivity].
  assert (Z.to_nat i < List.length s)%nat
    by (apply nth_error_Some; congruence).
  lia.
Qed.

Lemma index_valid {A : Type} (s : list A) (i : Z) :
  0 <= i < len s -> exists a, index s i = Ok a.
Proof.
  unfold index, len. intros Hi.
  destruct (Z.ltb_spec i 0); [lia|].
  destruct (nth_error s (Z.to_nat i)) eqn:E; [eauto|].
  apply nth_error_None in E. lia.
Qed.

Lemma index_In {A : Type} (s : list A) (i : Z) (a : A) :
  index s i = Ok a -> In a s.
Proof.
  intros E. apply index_ok in E as [_ E]. eapply nth_error_In; eauto.
Qed.

Lemma checkSlice_ok (lo hi cap : Z) :
  0 <= lo -> lo <= hi -> hi <= cap -> checkSlice lo hi cap = Ok tt.
Proof.
  intros. unfold checkSlice.
  destruct (Z.leb_spec 0 lo); [|lia].
  destruct (Z.leb_spec lo hi); [|lia].
  destruct (Z.leb_spec hi cap); [reflexivity|lia].
Qed.

Lemma len_nonneg {A : Type} (s : list A) : 0 <= len s.
Proof. unfold len. lia. Qed.

Lemma len_le_capOf `{Collaborators} {A : Type} (s : list A) : len s <= capOf s.
Proof. unfold capOf. lia. Qed.

Lemma len_nil_iff {A : Type} (s : list A) : len s = 0 <-> s = [].
Proof.
  unfold len. destruct s; simpl; split; intros E; try reflexivity;
    try discriminate; lia.
Qed.

Lemma KeyCode_eqb_eq (a b : KeyCode) : KeyCode_eqb a b = true <-> a = b.
Proof.
  unfold KeyCode_eqb. destruct (KeyCode_eq_dec a b); split; intros;
    congruence.
Qed.

Lemma KeyCode_eqb_refl (a : KeyCode) : KeyCode_eqb a a = true.
Proof. apply KeyCode_eqb_eq. reflexivity. Qed.

(** Events are processed one at a time: listening to [e1 ++ e2] is listening
    to [e1] and, if the loop is still running, going on with [e2]. *)
Lemma Listen_app {P : Type} (h : Key -> P -> res (Signal * P * list Frame))
    (e1 e2 : list Event) (p : P) (frames : list Frame) :
  Listen h (e1 ++ e2) p frames =
  match Listen h e1 p frames with
  | Pending p' frames' => Listen h e2 p' frames'
  | other => other
  end.
Proof.
  revert p frames. induction e1 as [|e e1 IH]; intros p frames; simpl.
  - reflexivity.
  - destruct e as [k|]; [|reflexivity].
    destruct (h k p) as [[[sig p'] fs]|]; [|reflexivity].
    destruct sig; auto.
Qed.

(** A property every handled key preserves holds while the loop runs. *)
Lemma Listen_Pending_inv {P : Type}
    (h : Key -> P -> res (Signal * P * list Frame)) (I : P -> Prop) :
  (forall k p sig p' fs, h k p = Ok (sig, p', fs) -> I p -> I p') ->
  forall events p frames p' frames',
    Listen h events p frames = Pending p' frames' -> I p -> I p'.
Proof.
  intros Hstep events.
  induction events as [|e events IH]; intros p frames p' frames'; simpl.
  - intros [= <- _]. auto.
  - destruct e as [k|]; [|discriminate].
    destruct (h k p) as [[[sig q] fs]|] eqn:E; [|discriminate].
    destruct sig; try discriminate.
    intros HL Hp. eapply IH; eauto.
Qed.

Lemma checkSlice_inv (lo hi cap : Z) (u : unit) :
  checkSlice lo hi cap = Ok u -> 0 <= lo /\ lo <= hi /\ hi <= cap.
Proof.
  unfold checkSlice.
  destruct (Z.leb_spec 0 lo); [|discriminate].
  destruct (Z.leb_spec lo hi); [|discriminate].
  destruct (Z.leb_spec hi cap); [|discriminate].
  auto.
Qed.

(** Taking a monadic computation that succeeded apart. *)
Ltac unbind :=
  repeat match goal with
  | H : bind _ _ = Ok _ |- _ =>
      let a := fresh "a" in
      let E := fresh "E" in
      apply bind_ok in H as (a & E & H)
  | H : (let '(_, _) := ?a in _) = Ok _ |- _ => destruct a
  | H : (if ?b then _ else _) = Ok _ |- _ =>
      let C := fresh "C" in destruct b eqn:C
  | H : Ok _ = Ok _ |- _ => inversion H; subst; clear H
  | H : Panic = Ok _ |- _ => discriminate H
  end.

(** Case analysis on the integer tests of a goal. *)
Ltac zcases :=
  repeat match goal with
  | |- context [if ?a <? ?b then _ else _] => destruct (Z.ltb_spec a b)
  | |- context [if ?a <=? ?b then _ else _] => destruct (Z.leb_spec a b)
  | |- context [if ?a >? ?b then _ else _] => destruct (Z.gtb_spec a b)
  | |- context [if ?a =? ?b then _ else _] => destruct (Z.eqb_spec a b)
  end.

(** Arithmetic side conditions about heights, lengths and capacities. *)
Ltac bounds :=
  simpl in *;
  repeat match goal with
  | |- context [len ?l] =>
      lazymatch goal with
      | _ : 0 <= len l |- _ => fail
      | _ => pose proof (len_nonneg l); pose proof (len_le_capOf l)
      end
  end;
  repeat match goal with
  | |- context [?a >? ?b] => destruct (Z.gtb_spec a b)
  | |- context [?a <? ?b] => destruct (Z.ltb_spec a b)
  | |- context [?a <=? ?b] => destruct (Z.leb_spec a b)
  end; try lia.

(** * Facts about the multiselect engine *)

Module MultiselectFacts.
Import Multiselect.

Section Facts.
Context {T : Type} `{Stringer T} `{Collaborators}.

Lemma setFuzzySearchMatches_same (p : Printer T) :
  setFuzzySearchMatches (fuzzySearchMatches p) p = p.
Proof. destruct p; reflexivity. Qed.

Lemma collect_inv {A : Type} (from : list A) (sel : list Z) (r : list A) :
  collect from sel = Ok r -> Forall (fun i => 0 <= i < len from) sel.
Proof.
  revert r. induction sel as [|i sel IH]; intros r E; simpl in E.
  - constructor.
  - unbind. constructor; [eapply index_ok; eauto | eauto].
Qed.

Lemma collect_valid {A : Type} (from : list A) (sel : list Z) :
  Forall (fun i => 0 <= i < len from) sel -> exists r, collect from sel = Ok r.
Proof.
  induction 1 as [|i sel Hi _ [r IH]]; simpl; [eauto|].
  destruct (index_valid from i Hi) as [a ->]. rewrite IH. simpl. eauto.
Qed.

Lemma isSelectedIn_valid (opts : list string) (sel : list Z) (text : string) :
  Forall (fun i => 0 <= i < len opts) sel ->
  exists b, isSelectedIn opts sel text = Ok b.
Proof.
  induction 1 as [|i sel Hi _ [b IH]]; simpl; [eauto|].
  destruct (index_valid opts i Hi) as [s ->]. simpl.
  destruct (String.eqb s text); eauto.
Qed.

Lemma renderRows_valid (p : Printer T) (matches : list string) (i : Z) :
  validSel p -> exists rows, renderRows p i matches = Ok rows.
Proof.
  intros Hv. revert i. induction matches as [|m rest IH]; intros i; simpl.
  - eauto.
  - destruct (String.eqb _ ""); [apply IH|].
    match goal with |- context [isSelected p ?o] =>
      destruct (isSelectedIn_valid (optionsStr p) (selectedOptions p) o Hv)
        as [b Hb]; unfold isSelected; rewrite Hb
    end.
    destruct (IH (i + 1)) as [rows ->]. simpl. eauto.
Qed.

(** What a render does to the printer: it stores the filtered list, and it
    succeeds exactly when the chosen indices are valid. *)
Lemma renderSelectMenu_inv (p p' : Printer T) (f : Frame) :
  renderSelectMenu p = Ok (p', f) ->
  p' = setFuzzySearchMatches (computeMatches p) p /\ validSel p.
Proof.
  unfold renderSelectMenu. intros E. cbv zeta in E. unbind.
  - split; [reflexivity|].
    match goal with
    | E : getSelectedOptionsStr _ = Ok _ |- _ =>
        unfold getSelectedOptionsStr in E; apply collect_inv in E; exact E
    end.
  - split; [reflexivity|].
    simpl in C. apply Z.ltb_ge in C.
    assert (E : selectedOptions p = [])
      by (apply len_nil_iff; pose proof (len_nonneg (selectedOptions p)); lia).
    unfold validSel. rewrite E. constructor.
Qed.

Lemma renderSelectMenu_valid (p : Printer T) :
  validSel p ->
  exists f, renderSelectMenu p = Ok (setFuzzySearchMatches (computeMatches p) p, f).
Proof.
  intros Hv. unfold renderSelectMenu. cbv zeta.
  destruct (renderRows_valid (setFuzzySearchMatches (computeMatches p) p)
              (computeMatches p) 0 Hv) as [rows Hr].
  simpl in *. rewrite Hr. simpl.
  destruct (0 <? len (selectedOptions p)); simpl; [|eauto].
  destruct (collect_valid (optionsStr p) (selectedOptions p) Hv) as [r Hc].
  unfold getSelectedOptionsStr. simpl. rewrite Hc. simpl. eauto.
Qed.

Lemma computeMatches_setMatches (m : list string) (q : Printer T) :
  computeMatches (setFuzzySearchMatches m q) = computeMatches q.
Proof. reflexivity. Qed.

Lemma sameConfig_refl (p : Printer T) : sameConfig p p.
Proof. repeat split. Qed.

(** A handled key either leaves the printer as it is or ends with a render
    of a printer that has the same configuration. *)
Lemma handleKey_shape (k : Key) (p p' : Printer T) (sig : Signal)
    (fs : list Frame) :
  handleKey k p = Ok (sig, p', fs) ->
  p' = p \/
  exists q, p' = setFuzzySearchMatches (computeMatches q) q
            /\ validSel q /\ sameConfig p q.
Proof.
  unfold handleKey. intros E. cbv zeta in E.
  destruct (KeyCode_eqb (Code k) (KeyConfirm p)).
  { unbind; auto. }
  destruct (KeyCode_eqb (Code k) (KeySelect p)).
  { unbind.
    all: match goal with
         | R : renderSelectMenu ?q = Ok _ |- _ =>
             apply renderSelectMenu_inv in R as [-> Hv]
         end.
    all: right; eexists; split; [reflexivity|split; [exact Hv|]].
    - unfold selectOption in *. unbind; repeat split.
    - repeat split. }
  destruct (Code k); unbind; auto.
  all: repeat match goal with
       | R : renderSelectMenu ?q = Ok _ |- _ =>
           apply renderSelectMenu_inv in R as [-> ?]
       end.
  all: right; eexists; split; [reflexivity|split; [assumption|]].
  all: repeat match goal with
       | |- context [if ?b then _ else _] => destruct b
       end; repeat split.
Qed.

Lemma handleKey_sameConfig (k : Key) (p p' : Printer T) (sig : Signal)
    (fs : list Frame) :
  handleKey k p = Ok (sig, p', fs) -> sameConfig p p'.
Proof.
  intros E. apply handleKey_shape in E as [->|(q & -> & _ & Hc)].
  - apply sameConfig_refl.
  - exact Hc.
Qed.

Lemma handleKey_Inv (k : Key) (p p' : Printer T) (sig : Signal)
    (fs : list Frame) :
  handleKey k p = Ok (sig, p', fs) -> Inv p -> Inv p'.
Proof.
  intros E Hp. apply handleKey_shape in E as [->|(q & -> & Hv & Hc)]; [exact Hp|].
  destruct Hp as (Hh & _ & _). destruct Hc as (_ & Hm & _).
  repeat split; simpl; [lia|exact Hv].
Qed.

(** The part of [Show] that follows [keyboard.Listen]. *)
Lemma Show_resume (p ps : Printer T) (areaFails : bool) (frames : list Frame)
    (events : list Event) :
  Show p areaFails [] = Listening ps frames ->
  Show p areaFails events =
  match Listen handleKey events ps frames with
  | ListenPanic => Panicked
  | ListenError fr => Failed KeyboardListenerFailed fr
  | Pending p' fr => Listening p' fr
  | Stopped canceled p' fr =>
      match getSelectedOptions p' with
      | Panic => Panicked
      | Ok result => Returned canceled result p' fr
      end
  end.
Proof.
  unfold Show. cbv zeta.
  destruct (len (Options _) =? 0); [discriminate|].
  destruct (checkSlice _ _ _); [|discriminate].
  destruct (renderSelectMenu _) as [[p1 f0]|]; [|discriminate].
  destruct areaFails; [discriminate|].
  destruct (Filter p1 && _); [discriminate|].
  destruct (renderSelectMenu p1) as [[p2 f1]|]; [|discriminate].
  simpl. intros [= <- <-]. reflexivity.
Qed.

(** A running session started from a state that satisfies [Inv]. *)
Lemma Show_session (p p0 : Printer T) (areaFails : bool)
    (events : list Event) (frames0 : list Frame) :
  Show p areaFails events = Listening p0 frames0 ->
  exists ps frames,
    Show p areaFails [] = Listening ps frames /\ Inv ps
    /\ Listen handleKey events ps frames = Pending p0 frames0.
Proof.
  unfold Show. cbv zeta.
  destruct (len (Options _) =? 0); [discriminate|].
  destruct (checkSlice _ _ _) eqn:Hs; [|discriminate].
  destruct (renderSelectMenu _) as [[p1 f0]|] eqn:R0; [|discriminate].
  destruct areaFails; [discriminate|].
  destruct (Filter p1 && _); [discriminate|].
  destruct (renderSelectMenu p1) as [[p2 f1]|] eqn:R1; [|discriminate].
  intros E. exists p2, [f0; f1]. split; [reflexivity|].
  split.
  - apply checkSlice_inv in Hs as (_ & Hs & _).
    apply renderSelectMenu_inv in R0 as [-> _].
    apply renderSelectMenu_inv in R1 as [-> Hv].
    repeat split; simpl in *; [|exact Hv].
    match type of Hs with
    | context [len ?l] => pose proof (len_nonneg l)
    end.
    destruct (MaxHeight p =? 0); simpl in *;
      match type of Hs with context [if ?b then _ else _] =>
        destruct b eqn:C end; lia.
  - destruct (Listen handleKey events p2 [f0; f1]) as [c q fr|fr| |q fr];
      try discriminate.
    + destruct (getSelectedOptions q); discriminate.
    + congruence.
Qed.

Lemma Show_Inv (p p0 : Printer T) (areaFails : bool) (events : list Event)
    (frames0 : list Frame) :
  Show p areaFails events = Listening p0 frames0 -> Inv p0.
Proof.
  intros E. apply Show_session in E as (ps & frames & _ & Hi & HL).
  eapply (Listen_Pending_inv handleKey Inv); eauto.
  intros. eapply handleKey_Inv; eauto.
Qed.

(** Extending a running session by more events. *)
Lemma Show_extend (p p0 : Printer T) (areaFails : bool)
    (events more : list Event) (frames0 : list Frame) :
  Show p areaFails events = Listening p0 frames0 ->
  Show p areaFails (events ++ more) =
  match Listen handleKey more p0 frames0 with
  | ListenPanic => Panicked
  | ListenError fr => Failed KeyboardListenerFailed fr
  | Pending p' fr => Listening p' fr
  | Stopped canceled p' fr =>
      match getSelectedOptions p' with
      | Panic => Panicked
      | Ok result => Returned canceled result p' fr
      end
  end.
Proof.
  intros E. apply Show_session in E as (ps & frames & Hs & _ & HL).
  rewrite (Show_resume _ _ _ _ (events ++ more) Hs).
  rewrite Listen_app, HL. reflexivity.
Qed.

(** A key that edits the query is handled without a panic, keeps the loop
    running and leaves the selection set as it is. *)
Lemma queryKey_step (k : Key) (p : Printer T) :
  Inv p -> queryKey p k = true ->
  exists p' fs,
    handleKey k p = Ok (Continue, p', fs)
    /\ selectedOptions p' = selectedOptions p.
Proof.
  intros (Hh & Hv & _) Hk. unfold queryKey in Hk. unfold handleKey. cbv zeta.
  destruct (KeyCode_eqb (Code k) (KeyConfirm p)); [destruct (Code k); discriminate|].
  destruct (KeyCode_eqb (Code k) (KeySelect p)); [destruct (Code k); discriminate|].
  destruct (Code k); try discriminate.
  - (* rune *)
    destruct (Filter p).
    + rewrite checkSlice_ok by bounds. simpl.
      match goal with |- context [renderSelectMenu ?q] =>
        destruct (renderSelectMenu_valid q Hv) as [f ->] end.
      simpl. eauto.
    + simpl. destruct (renderSelectMenu_valid p Hv) as [f ->]. simpl. eauto.
  - (* space *)
    destruct (Filter p); [|eauto].
    match goal with |- context [renderSelectMenu ?q] =>
      destruct (renderSelectMenu_valid q Hv) as [f ->] end.
    simpl. eauto.
  - (* backspace *)
    match goal with |- context [bind (renderSelectMenu ?q)] =>
      remember q as q0 eqn:Eq
    end.
    assert (Hq : validSel q0 /\ MaxHeight q0 = MaxHeight p
                 /\ selectedOptions q0 = selectedOptions p).
    { rewrite Eq.
      repeat match goal with
             | |- context [if ?b then _ else _] => destruct b
             end; repeat split; exact Hv. }
    clear Eq. destruct Hq as (Hq & Hm & Hs).
    destruct (renderSelectMenu_valid q0 Hq) as [f0 Hf]. rewrite Hf. simpl.
    rewrite checkSlice_ok by (rewrite ?Hm; bounds). simpl.
    match goal with |- context [renderSelectMenu ?q'] =>
      destruct (renderSelectMenu_valid q' Hq) as [f1 Hf1]; rewrite Hf1 end.
    simpl. eauto.
Qed.

Lemma queryKey_sameConfig (p q : Printer T) (k : Key) :
  sameConfig p q -> queryKey q k = queryKey p k.
Proof.
  intros (_ & _ & _ & _ & Hs & Hc & _). unfold queryKey. rewrite Hs, Hc.
  reflexivity.
Qed.

Lemma sameConfig_trans (p q r : Printer T) :
  sameConfig p q -> sameConfig q r -> sameConfig p r.
Proof.
  unfold sameConfig. intros (? & ? & ? & ? & ? & ? & ? & ?)
    (? & ? & ? & ? & ? & ? & ? & ?). repeat split; congruence.
Qed.

(** Any run of query-editing keys keeps the loop running and the selection
    set unchanged. *)
Lemma queryKeys_run (ks : list Key) :
  forall (p : Printer T) (frames : list Frame),
    Inv p -> Forall (fun k => queryKey p k = true) ks ->
    exists p' frames',
      Listen handleKey (map Pressed ks) p frames = Pending p' frames'
      /\ selectedOptions p' = selectedOptions p /\ sameConfig p p'.
Proof.
  induction ks as [|k ks IH]; intros p frames Hi Hks; simpl.
  - exists p, frames. repeat split.
  - inversion Hks as [|? ? Hk Hrest]; subst.
    destruct (queryKey_step k p Hi Hk) as (p1 & fs & E & Hs).
    rewrite E.
    pose proof (handleKey_sameConfig _ _ _ _ _ E) as Hc.
    destruct (IH p1 (frames ++ fs)) as (p2 & fr2 & HL & Hs2 & Hc2).
    + eapply handleKey_Inv; eauto.
    + eapply Forall_impl; [|exact Hrest].
      intros a Ha. rewrite (queryKey_sameConfig p p1 a Hc). exact Ha.
    + exists p2, fr2. split; [exact HL|]. split; [congruence|].
      eapply sameConfig_trans; eauto.
Qed.

Lemma findFrom_In (opts : list string) (text : string) :
  In text opts ->
  forall j, j <= findFrom j opts text < j + len opts
            /\ nth_error opts (Z.to_nat (findFrom j opts text - j)) = Some text.
Proof.
  unfold len.
  induction opts as [|o opts IH]; intros Hin j; [contradiction|].
  simpl findFrom. destruct (String.eqb_spec o text) as [->|Hne].
  - split; [simpl; lia|]. rewrite Z.sub_diag. reflexivity.
  - destruct Hin as [|Hin]; [contradiction|].
    destruct (IH Hin (j + 1)) as [Hr Hn]. split; [simpl List.length; lia|].
    replace (Z.to_nat (findFrom (j + 1) opts text - j))
      with (S (Z.to_nat (findFrom (j + 1) opts text - (j + 1)))) by lia.
    exact Hn.
Qed.

(** [findOptionByText] finds an index that holds the text it is given. *)
Lemma findOptionByText_index (p : Printer T) (text : string) :
  In text (optionsStr p) ->
  index (optionsStr p) (findOptionByText p text) = Ok text.
Proof.
  intros Hin. destruct (findFrom_In _ _ Hin 0) as [Hr Hn].
  unfold findOptionByText, index. rewrite Z.sub_0_r in Hn.
  destruct (Z.ltb_spec (findFrom 0 (optionsStr p) text) 0); [lia|].
  rewrite Hn. reflexivity.
Qed.

Lemma isSelectedIn_snoc (opts : list string) (sel : list Z) (i : Z)
    (text : string) :
  isSelectedIn opts sel text = Ok false ->
  index opts i = Ok text ->
  isSelectedIn opts (sel ++ [i]) text = Ok true.
Proof.
  intros Hs Hi. induction sel as [|j sel IH]; simpl in *.
  - rewrite Hi. simpl. rewrite String.eqb_refl. reflexivity.
  - destruct (index opts j) as [s|]; [|discriminate]. simpl in *.
    destruct (String.eqb s text); [discriminate|]. auto.
Qed.

(** The select key on a focused entry that is not chosen yet appends the
    entry's candidate-store index to the selection set. *)
Lemma select_step (k : Key) (p : Printer T) (text : string) :
  Inv p ->
  Code k = KeySelect p -> Code k <> KeyConfirm p ->
  index (fuzzySearchMatches p) (selectedOption p) = Ok text ->
  In text (optionsStr p) ->
  isSelected p text = Ok false ->
  exists p' fs,
    handleKey k p = Ok (Continue, p', fs)
    /\ selectedOptions p' = selectedOptions p ++ [findOptionByText p text]
    /\ isSelected p' text = Ok true.
Proof.
  intros (Hh & Hv & _) Hk Hc Hi Hin Hs. unfold handleKey. cbv zeta.
  destruct (KeyCode_eqb (Code k) (KeyConfirm p)) eqn:C1;
    [apply KeyCode_eqb_eq in C1; contradiction|].
  rewrite Hk, KeyCode_eqb_refl.
  pose proof (index_ok _ _ _ Hi) as [Hr _].
  destruct (Z.ltb_spec 0 (len (fuzzySearchMatches p))); [|lia].
  rewrite Hi. simpl. unfold selectOption. rewrite Hs. simpl.
  pose proof (findOptionByText_index p text Hin) as Hf.
  match goal with |- context [renderSelectMenu ?q] =>
    assert (Hq : validSel q)
  end.
  { unfold validSel. simpl. apply Forall_app. split; [exact Hv|].
    constructor; [|constructor]. eapply index_ok; eauto. }
  match goal with |- context [renderSelectMenu ?q] =>
    destruct (renderSelectMenu_valid q Hq) as [f ->]
  end.
  simpl. do 2 eexists. split; [reflexivity|]. split; [reflexivity|].
  unfold isSelected in *. simpl. apply isSelectedIn_snoc; assumption.
Qed.

Lemma isSelected_same (p q : Printer T) (text : string) :
  selectedOptions q = selectedOptions p -> optionsStr q = optionsStr p ->
  isSelected q text = isSelected p text.
Proof. unfold isSelected. intros -> ->. reflexivity. Qed.

(** C5. In the multiselect engine the selection set persists unchanged
    across every query change (a rune, a space or a backspace that reaches
    the query): after any run of such keys in a running session the set and
    the membership test are what they were; and an entry toggled as chosen
    while it was focused is still reported as chosen, by display text against
    its stored candidate-store index, after any such run. *)
Theorem selection_survives_query_changes (p p0 : Printer T) (areaFails : bool)
    (events : list Event) (frames0 : list Frame) (ks : list Key) :
  Show p areaFails events = Listening p0 frames0 ->
  Forall (fun k => queryKey p0 k = true) ks ->
  (exists p1 frames1,
      Show p areaFails (events ++ map Pressed ks) = Listening p1 frames1
      /\ selectedOptions p1 = selectedOptions p0
      /\ forall text, isSelected p1 text = isSelected p0 text)
  /\ (forall sel text,
        Code sel = KeySelect p0 -> Code sel <> KeyConfirm p0 ->
        index (fuzzySearchMatches p0) (selectedOption p0) = Ok text ->
        In text (optionsStr p0) ->
        isSelected p0 text = Ok false ->
        exists p2 frames2,
          Show p areaFails (events ++ Pressed sel :: map Pressed ks)
          = Listening p2 frames2
          /\ selectedOptions p2 = selectedOptions p0 ++ [findOptionByText p0 text]
          /\ isSelected p2 text = Ok true).
Proof.
  intros HS Hks. pose proof (Show_Inv _ _ _ _ _ HS) as Hi. split.
  - destruct (queryKeys_run ks p0 frames0 Hi Hks) as (p1 & fr1 & HL & Hs & Hc).
    exists p1, fr1. rewrite (Show_extend _ _ _ _ _ _ HS), HL.
    split; [reflexivity|]. split; [exact Hs|].
    intros text. apply isSelected_same; [exact Hs|]. apply Hc.
  - intros sel text Hk Hnc Hf Hin Hns.
    destruct (select_step sel p0 text Hi Hk Hnc Hf Hin Hns)
      as (p1 & fs & E & Hs1 & Hsel).
    pose proof (handleKey_Inv _ _ _ _ _ E Hi) as Hi1.
    pose proof (handleKey_sameConfig _ _ _ _ _ E) as Hc1.
    assert (Hks1 : Forall (fun k => queryKey p1 k = true) ks).
    { eapply Forall_impl; [|exact Hks].
      intros a Ha. rewrite (queryKey_sameConfig p0 p1 a Hc1). exact Ha. }
    destruct (queryKeys_run ks p1 (frames0 ++ fs) Hi1 Hks1)
      as (p2 & fr2 & HL & Hs2 & Hc2).
    exists p2, fr2. rewrite (Show_extend _ _ _ _ _ _ HS). simpl.
    rewrite E, HL. split; [reflexivity|]. split; [congruence|].
    rewrite (isSelected_same p1 p2 text Hs2); [exact Hsel|]. apply Hc2.
Qed.

Lemma isSelectedIn_snoc_other (opts : list string) (sel : list Z) (i : Z)
    (text other : string) :
  isSelectedIn opts sel other = Ok false ->
  index opts i = Ok text -> text <> other ->
  isSelectedIn opts (sel ++ [i]) other = Ok false.
Proof.
  intros Hs Hi Hne. induction sel as [|j sel IH]; simpl in *.
  - rewrite Hi. simpl. destruct (String.eqb_spec text other); congruence.
  - destruct (index opts j) as [s|]; [|discriminate]. simpl in *.
    destruct (String.eqb s other); [discriminate|]. auto.
Qed.

(** Toggling texts that are not chosen yet, one after the other, appends
    their candidate-store indices in that order. *)
Lemma toggleEach_fresh (texts : list string) :
  forall p : Printer T,
    NoDup texts ->
    (forall t, In t texts ->
               In t (optionsStr p) /\ isSelected p t = Ok false) ->
    exists p',
      toggleEach texts p = Ok p'
      /\ selectedOptions p'
         = selectedOptions p ++ map (findOptionByText p) texts
      /\ sameConfig p p'.
Proof.
  induction texts as [|t texts IH]; intros p Hnd Hall; simpl.
  - exists p. rewrite app_nil_r. repeat split.
  - inversion Hnd as [|? ? Hnotin Hnd']; subst.
    destruct (Hall t (or_introl eq_refl)) as [Hin Hns].
    unfold selectOption. rewrite Hns. simpl.
    match goal with |- context [toggleEach texts ?q] => set (p1 := q) end.
    destruct (IH p1 Hnd') as (p' & E & Hs & Hc).
    { intros t' Hin'. destruct (Hall t' (or_intror Hin')) as [Hin2 Hns2].
      split; [exact Hin2|]. unfold isSelected, p1. simpl.
      apply isSelectedIn_snoc_other with (text := t).
      - exact Hns2.
      - apply findOptionByText_index. exact Hin.
      - intros ->. contradiction. }
    exists p'. split; [exact E|]. split.
    + rewrite Hs. unfold p1. simpl. rewrite <- app_assoc. reflexivity.
    + eapply sameConfig_trans; [|exact Hc]. unfold p1. repeat split.
Qed.

Lemma collect_Forall2 {A : Type} (from : list A) (sel : list Z) (r : list A) :
  collect from sel = Ok r -> Forall2 (fun i a => index from i = Ok a) sel r.
Proof.
  revert r. induction sel as [|i sel IH]; intros r E; simpl in E; unbind.
  - constructor.
  - constructor; auto.
Qed.

(** With [optionsStr] built by [WithOptions], the Options at the indices
    [findOptionByText] yields carry the texts that were looked up. *)
Lemma collect_found (p : Printer T) (texts : list string) :
  optionsStr p = map String_of (Options p) ->
  (forall t, In t texts -> In t (optionsStr p)) ->
  exists result,
    collect (Options p) (map (findOptionByText p) texts) = Ok result
    /\ map String_of result = texts.
Proof.
  intros Hstr. induction texts as [|t texts IH]; intros Hall; simpl.
  - exists []. split; reflexivity.
  - destruct IH as (r & Hr & Hm); [intros; apply Hall; right; assumption|].
    pose proof (findOptionByText_index p t (Hall t (or_introl eq_refl))) as Hi.
    apply index_ok in Hi as [Hrange Hn].
    rewrite Hstr, nth_error_map in Hn.
    destruct (nth_error (Options p) (Z.to_nat (findOptionByText p t)))
      as [o|] eqn:Ho; [|discriminate].
    simpl in Hn. injection Hn as Hn.
    unfold index at 1. destruct (Z.ltb_spec (findOptionByText p t) 0); [lia|].
    rewrite Ho. simpl. rewrite Hr. simpl.
    exists (o :: r). split; [reflexivity|]. simpl. congruence.
Qed.

(** The confirm key on a non-empty filtered list stops the loop and leaves
    the printer as it is. *)
Lemma confirm_step (k : Key) (p : Printer T) (result : list T) :
  Code k = KeyConfirm p -> fuzzySearchMatches p <> [] ->
  getSelectedOptions p = Ok result ->
  handleKey k p
  = Ok (Stop, p, [Finished (fuzzySearchString p) (map String_of result)]).
Proof.
  intros Hk Hne Hr. unfold handleKey. cbv zeta.
  rewrite Hk, KeyCode_eqb_refl.
  destruct (Z.eqb_spec (len (fuzzySearchMatches p)) 0) as [E|_];
    [apply len_nil_iff in E; contradiction|].
  unfold renderFinishedMenu. rewrite Hr. reflexivity.
Qed.

(** C6. In the multiselect engine the sequence returned on confirmation is
    the original Options at the indices of the selection set, in the order
    the set holds them, and the set holds them in the order they were
    inserted: toggling entries that are not chosen yet, one after the other,
    yields exactly their Options in the order of the toggles, wherever they
    lie in the candidate store. *)
Theorem confirmed_result_in_selection_order (p p0 : Printer T)
    (areaFails : bool) (events : list Event) (frames0 : list Frame) (k : Key) :
  Show p areaFails events = Listening p0 frames0 ->
  Code k = KeyConfirm p0 -> fuzzySearchMatches p0 <> [] ->
  optionsStr p0 = map String_of (Options p0) ->
  (exists result frames,
      Show p areaFails (events ++ [Pressed k])
      = Returned false result p0 frames
      /\ Forall2 (fun i o => index (Options p0) i = Ok o)
           (selectedOptions p0) result)
  /\ (forall texts,
        selectedOptions p0 = [] -> NoDup texts ->
        (forall t, In t texts -> In t (optionsStr p0)) ->
        exists p1 result,
          toggleEach texts p0 = Ok p1
          /\ selectedOptions p1 = map (findOptionByText p0) texts
          /\ getSelectedOptions p1 = Ok result
          /\ map String_of result = texts).
Proof.
  intros HS Hk Hne Hstr. pose proof (Show_Inv _ _ _ _ _ HS) as (_ & Hv & _).
  split.
  - assert (Hlen : len (Options p0) = len (optionsStr p0))
      by (rewrite Hstr; unfold len; rewrite length_map; reflexivity).
    destruct (collect_valid (Options p0) (selectedOptions p0)) as [r Hr].
    { unfold validSel in Hv. rewrite Hlen. exact Hv. }
    exists r. eexists. rewrite (Show_extend _ _ _ _ _ _ HS). simpl.
    rewrite (confirm_step k p0 r Hk Hne Hr).
    unfold getSelectedOptions in *. rewrite Hr. split; [reflexivity|].
    apply collect_Forall2. exact Hr.
  - intros texts Hnil Hnd Hall.
    destruct (toggleEach_fresh texts p0 Hnd) as (p1 & E & Hs & Hc).
    { intros t Ht. split; [auto|]. unfold isSelected. rewrite Hnil.
      reflexivity. }
    destruct (collect_found p0 texts Hstr Hall) as (r & Hr & Hm).
    exists p1, r. split; [exact E|]. rewrite Hnil in Hs. simpl in Hs.
    split; [exact Hs|]. split; [|exact Hm].
    unfold getSelectedOptions. rewrite Hs.
    destruct Hc as (-> & _). exact Hr.
Qed.

(** On an empty filtered list the confirm, select and navigation keys leave
    the printer as it is and keep the loop running. *)
Lemma guarded_noop (k : Key) (p : Printer T) :
  Inv p -> fuzzySearchMatches p = [] -> guardedKey p k = true ->
  exists fs, handleKey k p = Ok (Continue, p, fs).
Proof.
  intros (_ & Hv & Hm) He Hk. unfold guardedKey in Hk. unfold handleKey.
  cbv zeta. rewrite He. simpl.
  destruct (KeyCode_eqb (Code k) (KeyConfirm p)); [eauto|].
  destruct (KeyCode_eqb (Code k) (KeySelect p)).
  - destruct (renderSelectMenu_valid p Hv) as [f ->]. simpl.
    rewrite <- Hm, setFuzzySearchMatches_same. eauto.
  - destruct (Code k); try discriminate; eauto.
Qed.

(** With an empty query the filter stage is the identity, provided the
    ranking library keeps every candidate, in order, for the empty query. *)
Lemma computeMatches_empty (p : Printer T) :
  fuzzySearchString p = "" ->
  map Target (RankFindFold "" (optionsStr p)) = optionsStr p ->
  len (Options p) = len (optionsStr p) ->
  computeMatches p = optionsStr p.
Proof.
  intros Hq Hr Hl. unfold computeMatches. rewrite Hq.
  assert (E : len (RankFindFold "" (optionsStr p)) = len (Options p)).
  { rewrite Hl. rewrite <- Hr at 2. unfold len. rewrite length_map.
    reflexivity. }
  rewrite E, Z.eqb_refl. simpl. exact Hr.
Qed.

(** Backspace on an empty query: the query and the filtered list stay what
    they are, the focus and the window are reset. *)
Lemma backspace_on_empty_query (k : Key) (p : Printer T) :
  Inv p -> fuzzySearchString p = "" ->
  Code k = Backspace -> KeyConfirm p <> Backspace -> KeySelect p <> Backspace ->
  fuzzySearchMatches p = optionsStr p ->
  exists p' fs,
    handleKey k p = Ok (Continue, p', fs)
    /\ fuzzySearchString p' = ""
    /\ fuzzySearchMatches p' = optionsStr p
    /\ selectedOption p' = 0
    /\ displayedOptionsStart p' = 0
    /\ displayedOptionsEnd p' = Z.min (MaxHeight p) (len (optionsStr p))
    /\ selectedOptions p' = selectedOptions p.
Proof.
  intros (Hh & Hv & Hm) Hq Hk Hc Hs Hr. unfold handleKey. cbv zeta.
  rewrite Hm in Hr. rewrite Hk.
  destruct (KeyCode_eqb Backspace (KeyConfirm p)) eqn:C1;
    [apply KeyCode_eqb_eq in C1; congruence|].
  destruct (KeyCode_eqb Backspace (KeySelect p)) eqn:C2;
    [apply KeyCode_eqb_eq in C2; congruence|].
  rewrite Hq. simpl. rewrite Hq. simpl.
  match goal with |- context [bind (renderSelectMenu ?q)] =>
    destruct (renderSelectMenu_valid q Hv) as [f0 Hf]; rewrite Hf;
    assert (Hcm : computeMatches q = optionsStr q) by exact Hr
  end.
  simpl in *. rewrite Hcm.
  rewrite checkSlice_ok by bounds. simpl.
  match goal with |- context [bind (renderSelectMenu ?q)] =>
    destruct (renderSelectMenu_valid q Hv) as [f1 Hf1]; rewrite Hf1;
    assert (Hcm1 : computeMatches q = optionsStr q) by exact Hr
  end.
  simpl in *. rewrite Hcm1. do 2 eexists. split; [reflexivity|]. simpl.
  repeat split; try assumption.
  destruct (Z.gtb_spec (len (optionsStr p)) (MaxHeight p)); lia.
Qed.

(** Navigation keeps the window around the focus and inside the filtered
    list. *)
Lemma nav_keeps_window (k : Key) (p : Printer T) :
  Inv p -> WindowInv p -> navKey p k = true ->
  exists p' fs,
    handleKey k p = Ok (Continue, p', fs)
    /\ WindowInv p' /\ fuzzySearchMatches p' = fuzzySearchMatches p.
Proof.
  intros (Hh & Hv & Hm) (W1 & W2 & W3 & W4 & W5) Hk.
  unfold navKey in Hk. unfold handleKey. cbv zeta.
  destruct (KeyCode_eqb (Code k) (KeyConfirm p)); [destruct (Code k); discriminate|].
  destruct (KeyCode_eqb (Code k) (KeySelect p)); [destruct (Code k); discriminate|].
  pose proof (len_le_capOf (fuzzySearchMatches p)) as Hcap.
  destruct (Code k); try discriminate; clear Hk.
  all: repeat (zcases; simpl in *; try lia;
               repeat (rewrite checkSlice_ok by lia; simpl)).
  all: match goal with |- context [renderSelectMenu ?q] =>
         destruct (renderSelectMenu_valid q Hv) as [f Hf]; rewrite Hf
       end; simpl.
  all: do 2 eexists; split; [reflexivity|].
  all: unfold WindowInv; simpl.
  all: change (computeMatches _) with (computeMatches p); rewrite <- Hm.
  all: repeat split; lia.
Qed.

(** An empty list of options is reported before anything is rendered. *)
Lemma Show_no_options (p : Printer T) (areaFails : bool) (events : list Event) :
  Options p = [] -> Show p areaFails events = Failed NoOptionsProvided [].
Proof.
  intros E. unfold Show. cbv zeta.
  destruct (MaxHeight (setFuzzySearchMatches (optionsStr p) p) =? 0);
    simpl; rewrite E; reflexivity.
Qed.

(** With filtering on and space bound to confirm or select, [Show] never
    reaches [keyboard.Listen]. *)
Lemma Show_space_key_never_listens (p : Printer T) (areaFails : bool)
    (events : list Event) :
  Filter p = true ->
  KeyCode_eqb (KeyConfirm p) Space || KeyCode_eqb (KeySelect p) Space = true ->
  Show p areaFails events = Show p areaFails []
  /\ forall ps frames, Show p areaFails [] <> Listening ps frames.
Proof.
  intros Hf Hk. unfold Show. cbv zeta.
  match goal with |- context [len (Options ?q) =? 0] => set (pn := q) end.
  assert (Hn : Filter pn = true /\ KeyConfirm pn = KeyConfirm p
               /\ KeySelect pn = KeySelect p).
  { unfold pn. destruct (MaxHeight _ =? 0); simpl; auto. }
  destruct Hn as (Hnf & Hnc & Hns).
  destruct (len (Options pn) =? 0); [split; [reflexivity|discriminate]|].
  destruct (checkSlice _ _ _); [|split; [reflexivity|discriminate]].
  destruct (renderSelectMenu _) as [[p1 f0]|] eqn:R;
    [|split; [reflexivity|discriminate]].
  destruct areaFails; [split; [reflexivity|discriminate]|].
  apply renderSelectMenu_inv in R as [-> _]. simpl.
  rewrite Hnf, Hnc, Hns, Hk. simpl. split; [reflexivity|discriminate].
Qed.

(** With, besides, a height that is not negative and valid chosen indices,
    what [Show] returns is an error. *)
Lemma Show_space_key (p : Printer T) (areaFails : bool) (events : list Event) :
  Options p <> [] -> Filter p = true ->
  KeyCode_eqb (KeyConfirm p) Space || KeyCode_eqb (KeySelect p) Space = true ->
  0 <= (if MaxHeight p =? 0 then DefaultMultiselectMaxHeight else MaxHeight p) ->
  validSel p ->
  exists frames,
    Show p areaFails events
    = Failed (if areaFails then CouldNotStartArea else SpaceKeyWithFilter) frames
    /\ (List.length frames <= 1)%nat.
Proof.
  intros Hne Hf Hk Hh Hv. unfold Show. cbv zeta.
  match goal with |- context [len (Options ?q) =? 0] => set (pn := q) end.
  assert (Hn : Filter pn = true /\ KeyConfirm pn = KeyConfirm p
               /\ KeySelect pn = KeySelect p /\ Options pn = Options p
               /\ validSel pn /\ 0 <= MaxHeight pn).
  { unfold pn. simpl. destruct (MaxHeight p =? 0); simpl; auto 10. }
  destruct Hn as (Hnf & Hnc & Hns & Hno & Hnv & Hnh).
  destruct (Z.eqb_spec (len (Options pn)) 0) as [E|_].
  { rewrite Hno in E. apply len_nil_iff in E. contradiction. }
  rewrite checkSlice_ok by bounds.
  match goal with |- context [renderSelectMenu ?q] =>
    destruct (renderSelectMenu_valid q Hnv) as [f0 Hr]; rewrite Hr
  end.
  destruct areaFails; [exists []; split; [reflexivity|simpl; lia]|].
  simpl. rewrite Hnf, Hnc, Hns, Hk. simpl.
  exists [f0]. split; [reflexivity|simpl; lia].
Qed.

(** A height of zero is replaced by the library-wide default. *)
Lemma Show_zero_height (p : Printer T) (areaFails : bool) (events : list Event) :
  Show (WithMaxHeight 0 p) areaFails events
  = Show (WithMaxHeight DefaultMultiselectMaxHeight p) areaFails events.
Proof.
  unfold Show, WithMaxHeight. cbv zeta. simpl.
  destruct (DefaultMultiselectMaxHeight =? 0); reflexivity.
Qed.

(** With filtering disabled no key edits an empty query. *)
Lemma filter_off_keeps_query_empty (k : Key) (p p' : Printer T)
    (sig : Signal) (fs : list Frame) :
  handleKey k p = Ok (sig, p', fs) ->
  Filter p = false -> fuzzySearchString p = "" ->
  fuzzySearchString p' = "".
Proof.
  unfold handleKey. intros E Hf Hq. cbv zeta in E. rewrite Hf, Hq in E.
  simpl in E. rewrite ?Hq in E. simpl in E.
  destruct (KeyCode_eqb (Code k) (KeyConfirm p)).
  { unbind; assumption. }
  destruct (KeyCode_eqb (Code k) (KeySelect p)).
  { unbind.
    all: match goal with
         | R : renderSelectMenu ?q = Ok _ |- _ =>
             apply renderSelectMenu_inv in R as [-> _]
         end; simpl.
    - unfold selectOption in *. unbind; simpl; assumption.
    - assumption. }
  destruct (Code k); unbind; try assumption.
  all: repeat match goal with
       | R : renderSelectMenu ?q = Ok _ |- _ =>
           apply renderSelectMenu_inv in R as [-> _]
       end; simpl; try assumption.
  all: repeat match goal with
       | |- context [if ?b then _ else _] => destruct b
       end; assumption.
Qed.

(** A space that reaches the query resets the focus and leaves the window
    where it was, whatever the ranking library answers. *)
Lemma space_keeps_window (k : Key) (p p' : Printer T) (sig : Signal)
    (fs : list Frame) :
  handleKey k p = Ok (sig, p', fs) ->
  Code k = Space -> KeyConfirm p <> Space -> KeySelect p <> Space ->
  Filter p = true ->
  fuzzySearchString p' = String.append (fuzzySearchString p) " "
  /\ selectedOption p' = 0
  /\ displayedOptionsStart p' = displayedOptionsStart p
  /\ displayedOptionsEnd p' = displayedOptionsEnd p.
Proof.
  unfold handleKey. intros E Hk Hc Hs Hf. cbv zeta in E. rewrite Hk, Hf in E.
  destruct (KeyCode_eqb Space (KeyConfirm p)) eqn:C1;
    [apply KeyCode_eqb_eq in C1; congruence|].
  destruct (KeyCode_eqb Space (KeySelect p)) eqn:C2;
    [apply KeyCode_eqb_eq in C2; congruence|].
  unbind.
  match goal with
  | R : renderSelectMenu ?q = Ok _ |- _ =>
      apply renderSelectMenu_inv in R as [-> _]
  end.
  repeat split.
Qed.

(** A rune that reaches the query sets the end of the window to the height
    clamped to the filtered list of the previous render. *)
Lemma rune_clamps_to_previous_list (k : Key) (p p' : Printer T) (sig : Signal)
    (fs : list Frame) :
  handleKey k p = Ok (sig, p', fs) ->
  Code k = RuneKey -> KeyConfirm p <> RuneKey -> KeySelect p <> RuneKey ->
  Filter p = true ->
  displayedOptionsEnd p'
  = (if MaxHeight p >? len (fuzzySearchMatches p)
     then len (fuzzySearchMatches p) else MaxHeight p)
  /\ fuzzySearchMatches p'
     = computeMatches
         (setFuzzySearchString
            (String.append (fuzzySearchString p) (keyString k)) p).
Proof.
  unfold handleKey. intros E Hk Hc Hs Hf. cbv zeta in E. rewrite Hk, Hf in E.
  destruct (KeyCode_eqb RuneKey (KeyConfirm p)) eqn:C1;
    [apply KeyCode_eqb_eq in C1; congruence|].
  destruct (KeyCode_eqb RuneKey (KeySelect p)) eqn:C2;
    [apply KeyCode_eqb_eq in C2; congruence|].
  unbind.
  match goal with
  | R : renderSelectMenu ?q = Ok _ |- _ =>
      apply renderSelectMenu_inv in R as [-> _]
  end.
  split; reflexivity.
Qed.

End Facts.
End MultiselectFacts.

(** * Facts about the single-select engine *)

Module SelectFacts.
Import Select.

Section Facts.
Context {T : Type} `{Stringer T} `{Collaborators}.

Lemma select_setFuzzySearchMatches_same (p : Printer T) :
  setFuzzySearchMatches (fuzzySearchMatches p) p = p.
Proof. destruct p; reflexivity. Qed.

Lemma setResult_same (p : Printer T) : setResult (result p) p = p.
Proof. destruct p; reflexivity. Qed.

Lemma select_sameConfig_refl (p : Printer T) : sameConfig p p.
Proof. repeat split. Qed.

Lemma select_sameConfig_trans (p q r : Printer T) :
  sameConfig p q -> sameConfig q r -> sameConfig p r.
Proof.
  unfold sameConfig. intros (? & ? & ? & ? & ?) (? & ? & ? & ? & ?).
  repeat split; congruence.
Qed.

(** What a render does to the printer: it stores the filtered list and the
    text under the focus, and it succeeds exactly when the focus lies in the
    filtered list or that list is empty. *)
Lemma select_renderSelectMenu_inv (p p' : Printer T) (f : Frame) :
  renderSelectMenu p = Ok (p', f) ->
  exists r,
    p' = setResult r (setFuzzySearchMatches (computeMatches p) p)
    /\ focusOk (computeMatches p) p.
Proof.
  unfold renderSelectMenu. intros E. cbv zeta in E. unbind.
  - simpl in *. eexists. split; [reflexivity|]. intros _.
    eapply index_ok; eauto.
  - simpl in *. exists (result p). split.
    + destruct p; reflexivity.
    + intros Hne. apply Bool.negb_false_iff in C. apply Z.eqb_eq in C.
      apply len_nil_iff in C. contradiction.
Qed.

Lemma select_renderSelectMenu_valid (p : Printer T) :
  focusOk (computeMatches p) p ->
  exists r f,
    renderSelectMenu p
    = Ok (setResult r (setFuzzySearchMatches (computeMatches p) p), f).
Proof.
  intros Hf. unfold renderSelectMenu. cbv zeta. simpl.
  destruct (Z.eqb_spec (len (computeMatches p)) 0) as [E|E]; simpl.
  - exists (result p). eexists.
    change (result p)
      with (result (setFuzzySearchMatches (computeMatches p) p)).
    rewrite setResult_same. reflexivity.
  - destruct (index_valid (computeMatches p) (selectedOption p)) as [r Hr].
    { apply Hf. intros E'. apply E. rewrite E'. reflexivity. }
    rewrite Hr. simpl. eauto.
Qed.

(** A handled key either leaves the printer as it is or ends with a render
    of a printer that has the same configuration. *)
Lemma select_handleKey_shape (k : Key) (p p' : Printer T) (sig : Signal)
    (fs : list Frame) :
  handleKey k p = Ok (sig, p', fs) ->
  p' = p \/
  exists q r, p' = setResult r (setFuzzySearchMatches (computeMatches q) q)
              /\ focusOk (computeMatches q) q /\ sameConfig p q.
Proof.
  unfold handleKey. intros E. cbv zeta in E.
  destruct (Code k); unbind; auto.
  all: repeat match goal with
       | R : renderSelectMenu ?q = Ok _ |- _ =>
           apply select_renderSelectMenu_inv in R as (? & -> & ?)
       end.
  all: right; do 2 eexists; split; [reflexivity|split; [assumption|]].
  all: repeat match goal with
       | |- context [if ?b then _ else _] => destruct b
       end; repeat split.
Qed.

Lemma select_handleKey_sameConfig (k : Key) (p p' : Printer T) (sig : Signal)
    (fs : list Frame) :
  handleKey k p = Ok (sig, p', fs) -> sameConfig p p'.
Proof.
  intros E. apply select_handleKey_shape in E as [->|(q & r & -> & _ & Hc)].
  - apply select_sameConfig_refl.
  - exact Hc.
Qed.

Lemma select_handleKey_Inv (k : Key) (p p' : Printer T) (sig : Signal)
    (fs : list Frame) :
  handleKey k p = Ok (sig, p', fs) -> Inv p -> Inv p'.
Proof.
  intros E Hp.
  apply select_handleKey_shape in E as [->|(q & r & -> & Hf & Hc)]; [exact Hp|].
  destruct Hp as (Hh & _ & _). destruct Hc as (_ & Hm & _).
  repeat split; simpl; try lia; apply Hf; assumption.
Qed.

Lemma placeDefault_sameConfig (maxHeight : Z) (opts : list string) :
  forall (i : Z) (p p' : Printer T),
    placeDefault maxHeight i opts p = Ok p' -> sameConfig p p'.
Proof.
  induction opts as [|o opts IH]; intros i p p' E; simpl in E.
  - unbind. apply select_sameConfig_refl.
  - destruct (String.eqb o (defaultOptionStr p)); [|eauto].
    cbv zeta in E. unbind.
    destruct ((0 <? i) && (len (Options p) >? maxHeight)); repeat split.
Qed.

(** The part of [Show] that follows [keyboard.Listen]. *)
Lemma select_Show_resume (p ps : Printer T) (areaFails : bool) (frames : list Frame)
    (events : list Event) :
  Show p areaFails [] = Listening ps frames ->
  Show p areaFails events =
  match Listen handleKey events ps frames with
  | ListenPanic => Panicked
  | ListenError fr => Failed KeyboardListenerFailed fr
  | Pending p' fr => Listening p' fr
  | Stopped canceled p' fr =>
      match index (Options p') (selectedOption p') with
      | Panic => Panicked
      | Ok t => Returned canceled t p' fr
      end
  end.
Proof.
  unfold Show. cbv zeta.
  destruct (len (Options _) =? 0); [discriminate|].
  destruct (checkSlice _ _ _); [|discriminate].
  match goal with |- context [if negb ?b then ?x else ?y] =>
    destruct (if negb b then x else y) as [pd|]; [|discriminate]
  end.
  destruct (renderSelectMenu pd) as [[p1 f0]|]; [|discriminate].
  destruct areaFails; [discriminate|].
  destruct (renderSelectMenu p1) as [[p2 f1]|]; [|discriminate].
  simpl. intros [= <- <-]. reflexivity.
Qed.

(** A running session started from a state that satisfies [Inv]. *)
Lemma select_Show_session (p p0 : Printer T) (areaFails : bool)
    (events : list Event) (frames0 : list Frame) :
  Show p areaFails events = Listening p0 frames0 ->
  exists ps frames,
    Show p areaFails [] = Listening ps frames /\ Inv ps
    /\ Listen handleKey events ps frames = Pending p0 frames0.
Proof.
  unfold Show. cbv zeta.
  match goal with |- context [len (Options ?q) =? 0] => set (pn := q) end.
  destruct (len (Options pn) =? 0); [discriminate|].
  destruct (checkSlice _ _ _) eqn:Hs; [|discriminate].
  match goal with |- context [if negb ?b then ?x else ?y] =>
    destruct (if negb b then x else y) as [pd|] eqn:Hd; [|discriminate]
  end.
  destruct (renderSelectMenu pd) as [[p1 f0]|] eqn:R0; [|discriminate].
  destruct areaFails; [discriminate|].
  destruct (renderSelectMenu p1) as [[p2 f1]|] eqn:R1; [|discriminate].
  intros E. exists p2, [f0; f1]. split; [reflexivity|].
  split.
  - apply checkSlice_inv in Hs as (_ & Hs & _).
    assert (Hc : MaxHeight pd = MaxHeight pn).
    { destruct (negb _) in Hd.
      - apply placeDefault_sameConfig in Hd as (_ & -> & _). reflexivity.
      - injection Hd as <-. reflexivity. }
    apply select_renderSelectMenu_inv in R0 as (r0 & -> & _).
    apply select_renderSelectMenu_inv in R1 as (r1 & -> & Hf).
    repeat split; simpl in *; [|apply Hf; assumption..].
    rewrite Hc. pose proof (len_nonneg (fuzzySearchMatches pn)).
    destruct (MaxHeight pn >? len (fuzzySearchMatches pn)) eqn:C; [|lia].
    apply Z.gtb_lt in C. lia.
  - destruct (Listen handleKey events p2 [f0; f1]) as [c q fr|fr| |q fr];
      try discriminate.
    + destruct (index (Options q) (selectedOption q)); discriminate.
    + congruence.
Qed.

Lemma select_Show_Inv (p p0 : Printer T) (areaFails : bool) (events : list Event)
    (frames0 : list Frame) :
  Show p areaFails events = Listening p0 frames0 -> Inv p0.
Proof.
  intros E. apply select_Show_session in E as (ps & frames & _ & Hi & HL).
  eapply (Listen_Pending_inv handleKey Inv); eauto.
  intros. eapply select_handleKey_Inv; eauto.
Qed.

(** Extending a running session by more events. *)
Lemma select_Show_extend (p p0 : Printer T) (areaFails : bool)
    (events more : list Event) (frames0 : list Frame) :
  Show p areaFails events = Listening p0 frames0 ->
  Show p areaFails (events ++ more) =
  match Listen handleKey more p0 frames0 with
  | ListenPanic => Panicked
  | ListenError fr => Failed KeyboardListenerFailed fr
  | Pending p' fr => Listening p' fr
  | Stopped canceled p' fr =>
      match index (Options p') (selectedOption p') with
      | Panic => Panicked
      | Ok t => Returned canceled t p' fr
      end
  end.
Proof.
  intros E. apply select_Show_session in E as (ps & frames & Hs & _ & HL).
  rewrite (select_Show_resume _ _ _ _ (events ++ more) Hs).
  rewrite Listen_app, HL. reflexivity.
Qed.

(** On an empty filtered list the confirm and navigation keys leave the
    printer as it is and keep the loop running. *)
Lemma select_guarded_noop (k : Key) (p : Printer T) :
  fuzzySearchMatches p = [] -> guardedKey k = true ->
  handleKey k p = Ok (Continue, p, []).
Proof.
  intros He Hk. unfold guardedKey in Hk. unfold handleKey. cbv zeta.
  rewrite He. simpl. destruct (Code k); try discriminate; reflexivity.
Qed.

(** With an empty query the filter stage is the identity, provided the
    ranking library keeps every candidate, in order, for the empty query. *)
Lemma select_computeMatches_empty (p : Printer T) :
  fuzzySearchString p = "" ->
  map Target (RankFindFold "" (optionsStr p)) = optionsStr p ->
  len (Options p) = len (optionsStr p) ->
  computeMatches p = optionsStr p.
Proof.
  intros Hq Hr Hl. unfold computeMatches. rewrite Hq.
  assert (E : len (RankFindFold "" (optionsStr p)) = len (Options p)).
  { rewrite Hl. rewrite <- Hr at 2. unfold len. rewrite length_map.
    reflexivity. }
  rewrite E, Z.eqb_refl. simpl. exact Hr.
Qed.

(** Backspace on an empty query: the query and the filtered list stay what
    they are, the focus and the window are reset. *)
Lemma select_backspace_on_empty_query (k : Key) (p : Printer T) :
  Inv p -> fuzzySearchString p = "" -> Code k = Backspace ->
  fuzzySearchMatches p = optionsStr p ->
  exists p' fs,
    handleKey k p = Ok (Continue, p', fs)
    /\ fuzzySearchString p' = ""
    /\ fuzzySearchMatches p' = optionsStr p
    /\ selectedOption p' = 0
    /\ displayedOptionsStart p' = 0
    /\ displayedOptionsEnd p' = Z.min (MaxHeight p) (len (optionsStr p)).
Proof.
  intros (Hh & Hm & Hf) Hq Hk Hr. unfold handleKey. cbv zeta.
  rewrite Hk, Hq. simpl. rewrite Hq. simpl.
  assert (Hcm : computeMatches p = optionsStr p) by congruence.
  match goal with |- context [bind (renderSelectMenu ?q)] =>
    assert (Hcq : computeMatches q = optionsStr p)
      by (change (computeMatches q) with (computeMatches p); exact Hcm);
    destruct (select_renderSelectMenu_valid q) as (r0 & f0 & Hf0)
  end.
  { rewrite Hcq. rewrite Hm, Hcm in Hf. exact Hf. }
  rewrite Hf0. simpl. rewrite Hcq.
  rewrite checkSlice_ok by bounds. simpl.
  match goal with |- context [bind (renderSelectMenu ?q)] =>
    assert (Hcq1 : computeMatches q = optionsStr p)
      by (change (computeMatches q) with (computeMatches p); exact Hcm);
    destruct (select_renderSelectMenu_valid q) as (r1 & f1 & Hf1)
  end.
  { rewrite Hcq1. intros Hne. simpl.
    pose proof (len_nonneg (optionsStr p)).
    assert (len (optionsStr p) <> 0) by (rewrite len_nil_iff; exact Hne).
    lia. }
  rewrite Hf1. simpl. rewrite Hcq1. do 2 eexists. split; [reflexivity|].
  simpl. repeat split; try assumption.
  destruct (Z.gtb_spec (len (optionsStr p)) (MaxHeight p)); lia.
Qed.

(** Navigation keeps the window around the focus and inside the filtered
    list. *)
Lemma select_nav_keeps_window (k : Key) (p : Printer T) :
  Inv p -> WindowInv p -> navKey k = true ->
  exists p' fs,
    handleKey k p = Ok (Continue, p', fs)
    /\ WindowInv p' /\ fuzzySearchMatches p' = fuzzySearchMatches p.
Proof.
  intros (Hh & Hm & _) (W1 & W2 & W3 & W4 & W5) Hk.
  unfold navKey in Hk. unfold handleKey. cbv zeta.
  pose proof (len_le_capOf (fuzzySearchMatches p)) as Hcap.
  destruct (Code k); try discriminate; clear Hk.
  all: repeat (zcases; simpl in *; try lia;
               repeat (rewrite checkSlice_ok by lia; simpl)).
  all: match goal with |- context [renderSelectMenu ?q] =>
         destruct (select_renderSelectMenu_valid q) as (r & f & Hf);
           [change (computeMatches q) with (computeMatches p);
            rewrite <- Hm; intros _; simpl; lia
           |rewrite Hf]
       end; simpl.
  all: do 2 eexists; split; [reflexivity|].
  all: unfold WindowInv; simpl.
  all: change (computeMatches _) with (computeMatches p); rewrite <- Hm.
  all: repeat split; lia.
Qed.

(** An empty list of options is reported before anything is rendered. *)
Lemma select_Show_no_options (p : Printer T) (areaFails : bool) (events : list Event) :
  Options p = [] -> Show p areaFails events = Failed NoOptionsProvided [].
Proof.
  intros E. unfold Show. cbv zeta.
  destruct (MaxHeight (setFuzzySearchMatches (optionsStr p) p) =? 0);
    simpl; rewrite E; reflexivity.
Qed.

(** A height of zero is replaced by the library-wide default. *)
Lemma select_Show_zero_height (p : Printer T) (areaFails : bool) (events : list Event) :
  Show (WithMaxHeight 0 p) areaFails events
  = Show (WithMaxHeight DefaultSelectMaxHeight p) areaFails events.
Proof.
  unfold Show, WithMaxHeight. cbv zeta. simpl.
  destruct (DefaultSelectMaxHeight =? 0); reflexivity.
Qed.

(** A space is appended to the query whether filtering is enabled or not;
    it resets the focus and leaves the window where it was. *)
Lemma select_space_appends_regardless (k : Key) (p p' : Printer T)
    (sig : Signal) (fs : list Frame) :
  handleKey k p = Ok (sig, p', fs) -> Code k = Space ->
  fuzzySearchString p' = String.append (fuzzySearchString p) " "
  /\ selectedOption p' = 0
  /\ displayedOptionsStart p' = displayedOptionsStart p
  /\ displayedOptionsEnd p' = displayedOptionsEnd p.
Proof.
  unfold handleKey. intros E Hk. cbv zeta in E. rewrite Hk in E. unbind.
  match goal with
  | R : renderSelectMenu ?q = Ok _ |- _ =>
      apply select_renderSelectMenu_inv in R as (? & -> & _)
  end.
  repeat split.
Qed.

(** When the loop stops, what [Show] returns is the Option at the focus
    index taken in the unfiltered list of Options. *)
Lemma select_Show_returns_Options_at_focus (p p0 p1 : Printer T)
    (areaFails canceled : bool) (events : list Event) (k : Key)
    (frames0 frames1 : list Frame) (v : T) :
  Show p areaFails events = Listening p0 frames0 ->
  Show p areaFails (events ++ [Pressed k]) = Returned canceled v p1 frames1 ->
  index (Options p1) (selectedOption p1) = Ok v.
Proof.
  intros HS. rewrite (select_Show_extend _ _ _ _ _ _ HS). simpl.
  destruct (handleKey k p0) as [[[sig q] fs]|]; [|discriminate].
  destruct sig; try discriminate.
  - destruct (index (Options q) (selectedOption q)) eqn:E; [|discriminate].
    intros [= <- <- <- <-]. exact E.
  - destruct (index (Options q) (selectedOption q)) eqn:E; [|discriminate].
    intros [= <- <- <- <-]. exact E.
Qed.

End Facts.
End SelectFacts.

(** * Properties that span both engines *)

Section BothEngines.
Context {T : Type} `{Stringer T} `{Collaborators}.

(** The "no options provided" error is returned for an empty [Options] only:
    every other way out of [Show] is another error, a panic, a result or a
    running loop. *)
Lemma Show_no_options_only (p : Multiselect.Printer T) (areaFails : bool)
    (events : list Event) (frames : list Frame) :
  Multiselect.Show p areaFails events = Failed NoOptionsProvided frames ->
  Multiselect.Options p = [].
Proof.
  unfold Multiselect.Show. cbv zeta.
  match goal with |- context [len (Multiselect.Options ?q) =? 0] =>
    set (pn := q)
  end.
  assert (Ho : Multiselect.Options pn = Multiselect.Options p)
    by (unfold pn; destruct (Multiselect.MaxHeight _ =? 0); reflexivity).
  clearbody pn.
  destruct (Z.eqb_spec (len (Multiselect.Options pn)) 0) as [E|_].
  - intros _. rewrite <- Ho. apply len_nil_iff. exact E.
  - destruct (checkSlice _ _ _); [|discriminate].
    destruct (Multiselect.renderSelectMenu _) as [[p1 f0]|]; [|discriminate].
    destruct areaFails; [discriminate|].
    destruct (Multiselect.Filter p1 && _); [discriminate|].
    destruct (Multiselect.renderSelectMenu p1) as [[p2 f1]|]; [|discriminate].
    destruct (Listen _ _ _ _) as [c q fr|fr| |q fr]; try discriminate.
    destruct (Multiselect.getSelectedOptions q); discriminate.
Qed.

Lemma select_Show_no_options_only (p : Select.Printer T) (areaFails : bool)
    (events : list Event) (frames : list Frame) :
  Select.Show p areaFails events = Failed NoOptionsProvided frames ->
  Select.Options p = [].
Proof.
  unfold Select.Show. cbv zeta.
  match goal with |- context [len (Select.Options ?q) =? 0] =>
    set (pn := q)
  end.
  assert (Ho : Select.Options pn = Select.Options p)
    by (unfold pn; destruct (Select.MaxHeight _ =? 0); reflexivity).
  clearbody pn.
  destruct (Z.eqb_spec (len (Select.Options pn)) 0) as [E|_].
  - intros _. rewrite <- Ho. apply len_nil_iff. exact E.
  - destruct (checkSlice _ _ _); [|discriminate].
    match goal with |- context [if negb ?b then ?x else ?y] =>
      destruct (if negb b then x else y) as [pd|]; [|discriminate]
    end.
    destruct (Select.renderSelectMenu pd) as [[p1 f0]|]; [|discriminate].
    destruct areaFails; [discriminate|].
    destruct (Select.renderSelectMenu p1) as [[p2 f1]|]; [|discriminate].
    destruct (Listen _ _ _ _) as [c q fr|fr| |q fr]; try discriminate.
    destruct (index _ _); discriminate.
Qed.

(** C7, as amended.  An empty [Options] list makes [Show] return the
    "no options provided" error before anything is rendered, in both engines
    and whatever the rest of the printer holds; and that error is returned
    for an empty [Options] list only: the check reads [Options], not the
    candidate store of display texts [optionsStr], so a printer whose
    candidate store is empty while [Options] is not never gets it.  With
    filtering on and space bound to the select or confirm key, the
    multiselect [Show] never reaches the key-event loop; and it returns an
    error (the area error if the area cannot start, the key error otherwise,
    after at most one render) whenever the height it starts from is not
    negative and the chosen indices it starts from point into the candidate
    store. *)
Theorem configuration_errors_end_Show_before_loop :
  (forall (p : Select.Printer T) areaFails events,
      Select.Options p = [] ->
      Select.Show p areaFails events = Failed NoOptionsProvided [])
  /\ (forall (p : Multiselect.Printer T) areaFails events,
        Multiselect.Options p = [] ->
        Multiselect.Show p areaFails events = Failed NoOptionsProvided [])
  /\ (forall (p : Select.Printer T) areaFails events frames,
        Select.Show p areaFails events = Failed NoOptionsProvided frames ->
        Select.Options p = [])
  /\ (forall (p : Multiselect.Printer T) areaFails events frames,
        Multiselect.Show p areaFails events = Failed NoOptionsProvided frames ->
        Multiselect.Options p = [])
  /\ (forall (p : Multiselect.Printer T) areaFails events,
        Multiselect.Filter p = true ->
        KeyCode_eqb (Multiselect.KeyConfirm p) Space
        || KeyCode_eqb (Multiselect.KeySelect p) Space = true ->
        (Multiselect.Show p areaFails events = Multiselect.Show p areaFails []
         /\ forall ps frames,
             Multiselect.Show p areaFails [] <> Listening ps frames)
        /\ (Multiselect.Options p <> [] ->
            0 <= (if Multiselect.MaxHeight p =? 0
                  then DefaultMultiselectMaxHeight
                  else Multiselect.MaxHeight p) ->
            Multiselect.validSel p ->
            exists frames,
              Multiselect.Show p areaFails events
              = Failed (if areaFails then CouldNotStartArea
                        else SpaceKeyWithFilter) frames
              /\ (List.length frames <= 1)%nat)).
Proof.
  split; [|split; [|split; [|split]]].
  - intros. apply SelectFacts.select_Show_no_options. assumption.
  - intros. apply MultiselectFacts.Show_no_options. assumption.
  - intros p areaFails events frames E.
    eapply select_Show_no_options_only; eauto.
  - intros p areaFails events frames E.
    eapply Show_no_options_only; eauto.
  - intros p areaFails events Hf Hk. split.
    + apply MultiselectFacts.Show_space_key_never_listens; assumption.
    + intros. apply MultiselectFacts.Show_space_key; assumption.
Qed.

(** C8.  In both engines, when the filtered list of a running session is
    empty, the confirm key, the select key and the navigation keys (up, down
    and their control-key twins) are silent no-ops: the printer, hence the
    query, the focus, the window and the selection, is left as it is, and the
    loop goes on waiting for the next key. *)
Theorem empty_filtered_list_keys_are_noops :
  (forall (p p0 : Select.Printer T) areaFails events frames0 k,
      Select.Show p areaFails events = Listening p0 frames0 ->
      Select.fuzzySearchMatches p0 = [] ->
      Select.guardedKey k = true ->
      Select.Show p areaFails (events ++ [Pressed k]) = Listening p0 frames0)
  /\ (forall (p p0 : Multiselect.Printer T) areaFails events frames0 k,
        Multiselect.Show p areaFails events = Listening p0 frames0 ->
        Multiselect.fuzzySearchMatches p0 = [] ->
        Multiselect.guardedKey p0 k = true ->
        exists frames1,
          Multiselect.Show p areaFails (events ++ [Pressed k])
          = Listening p0 frames1).
Proof.
  split.
  - intros p p0 areaFails events frames0 k HS He Hk.
    rewrite (SelectFacts.select_Show_extend _ _ _ _ _ _ HS). simpl.
    rewrite (SelectFacts.select_guarded_noop k p0 He Hk), app_nil_r. reflexivity.
  - intros p p0 areaFails events frames0 k HS He Hk.
    pose proof (MultiselectFacts.Show_Inv _ _ _ _ _ HS) as Hi.
    destruct (MultiselectFacts.guarded_noop k p0 Hi He Hk) as [fs E].
    rewrite (MultiselectFacts.Show_extend _ _ _ _ _ _ HS). simpl.
    rewrite E. eauto.
Qed.

(** C9, as amended.  Both constructors set the maximum height to 5, and a
    printer whose height is exactly 0 when [Show] is called is shown with the
    library-wide default height in its place. *)
Theorem zero_height_falls_back_to_default :
  Select.MaxHeight (@Select.NewGenericInteractiveSelect T) = 5
  /\ (forall options : list T,
        Multiselect.MaxHeight
          (Multiselect.NewGenericInteractiveMultiselect options) = 5)
  /\ (forall (p : Select.Printer T) areaFails events,
        Select.Show (Select.WithMaxHeight 0 p) areaFails events
        = Select.Show (Select.WithMaxHeight DefaultSelectMaxHeight p)
            areaFails events)
  /\ (forall (p : Multiselect.Printer T) areaFails events,
        Multiselect.Show (Multiselect.WithMaxHeight 0 p) areaFails events
        = Multiselect.Show
            (Multiselect.WithMaxHeight DefaultMultiselectMaxHeight p)
            areaFails events).
Proof.
  split; [reflexivity|]. split; [reflexivity|]. split.
  - apply SelectFacts.select_Show_zero_height.
  - apply MultiselectFacts.Show_zero_height.
Qed.

(** C10.  In both engines a backspace that reaches the query of a running
    session while that query is empty and the filtered list is the whole
    candidate store leaves both as they are, but it is not a no-op: whatever
    the focus and the window were, the focus is reset to 0 and the window to
    [0, min(MaxHeight, len(candidates))). *)
Theorem backspace_on_empty_query_resets_view :
  (forall (p p0 : Select.Printer T) areaFails events frames0 k,
      Select.Show p areaFails events = Listening p0 frames0 ->
      Select.fuzzySearchString p0 = "" ->
      Select.fuzzySearchMatches p0 = Select.optionsStr p0 ->
      Code k = Backspace ->
      exists p1 frames1,
        Select.Show p areaFails (events ++ [Pressed k]) = Listening p1 frames1
        /\ Select.fuzzySearchString p1 = ""
        /\ Select.fuzzySearchMatches p1 = Select.optionsStr p0
        /\ Select.selectedOption p1 = 0
        /\ Select.displayedOptionsStart p1 = 0
        /\ Select.displayedOptionsEnd p1
           = Z.min (Select.MaxHeight p0) (len (Select.optionsStr p0)))
  /\ (forall (p p0 : Multiselect.Printer T) areaFails events frames0 k,
        Multiselect.Show p areaFails events = Listening p0 frames0 ->
        Multiselect.fuzzySearchString p0 = "" ->
        Multiselect.fuzzySearchMatches p0 = Multiselect.optionsStr p0 ->
        Code k = Backspace ->
        Multiselect.KeyConfirm p0 <> Backspace ->
        Multiselect.KeySelect p0 <> Backspace ->
        exists p1 frames1,
          Multiselect.Show p areaFails (events ++ [Pressed k])
          = Listening p1 frames1
          /\ Multiselect.fuzzySearchString p1 = ""
          /\ Multiselect.fuzzySearchMatches p1 = Multiselect.optionsStr p0
          /\ Multiselect.selectedOption p1 = 0
          /\ Multiselect.displayedOptionsStart p1 = 0
          /\ Multiselect.displayedOptionsEnd p1
             = Z.min (Multiselect.MaxHeight p0)
                 (len (Multiselect.optionsStr p0))
          /\ Multiselect.selectedOptions p1 = Multiselect.selectedOptions p0).
Proof.
  split.
  - intros p p0 areaFails events frames0 k HS Hq Hm Hk.
    pose proof (SelectFacts.select_Show_Inv _ _ _ _ _ HS) as Hi.
    destruct (SelectFacts.select_backspace_on_empty_query k p0 Hi Hq Hk Hm)
      as (p1 & fs & E & Hrest).
    exists p1, (frames0 ++ fs).
    rewrite (SelectFacts.select_Show_extend _ _ _ _ _ _ HS). simpl. rewrite E.
    split; [reflexivity|exact Hrest].
  - intros p p0 areaFails events frames0 k HS Hq Hm Hk Hc Hs.
    pose proof (MultiselectFacts.Show_Inv _ _ _ _ _ HS) as Hi.
    destruct (MultiselectFacts.backspace_on_empty_query k p0 Hi Hq Hk Hc Hs Hm)
      as (p1 & fs & E & Hrest).
    exists p1, (frames0 ++ fs).
    rewrite (MultiselectFacts.Show_extend _ _ _ _ _ _ HS). simpl. rewrite E.
    split; [reflexivity|exact Hrest].
Qed.

End BothEngines.

(** * The engines on concrete inputs *)

Import Reference.

(** C1 (evaluated at the failing input).  Single-select over alpha, beta,
    gamma: after typing "g" the filtered list is [gamma] with the focus on
    it, and the finished menu shows gamma; yet on Enter [Show] returns
    [Options[selectedOption]], which is alpha. *)
Theorem select_confirm_returns_store_index :
  match Select.Show
          (Select.WithOptions ["alpha"; "beta"; "gamma"]
             Select.NewGenericInteractiveSelect)
          false [rune "g"; press Enter] with
  | Returned canceled v p frames =>
      canceled = false
      /\ Select.fuzzySearchMatches p = ["gamma"]
      /\ index (Select.fuzzySearchMatches p) (Select.selectedOption p) = Ok "gamma"
      /\ last frames (Finished "" []) = Finished "g" ["gamma"]
      /\ v = "alpha"
  | _ => False
  end.
Proof. vm_compute. repeat split. Qed.

(** C2 (evaluated at the failing input).  Five candidates, height 3: after
    the rune "g" is fully processed the filtered list is [gamma] but the
    window is still [0, 3), so its end lies beyond the filtered list, in both
    engines. *)
Theorem rune_leaves_window_past_filtered_list :
  match Select.Show
          (Select.WithMaxHeight 3
             (Select.WithOptions greek Select.NewGenericInteractiveSelect))
          false [rune "g"] with
  | Listening p _ =>
      Select.fuzzySearchMatches p = ["gamma"]
      /\ Select.displayedOptionsStart p = 0
      /\ Select.displayedOptionsEnd p = 3
      /\ ~ Select.WindowInv p
  | _ => False
  end
  /\ match Multiselect.Show
             (Multiselect.WithMaxHeight 3
                (Multiselect.WithOptions greek
                   (Multiselect.NewGenericInteractiveMultiselect greek)))
             false [rune "g"] with
     | Listening p _ =>
         Multiselect.fuzzySearchMatches p = ["gamma"]
         /\ Multiselect.displayedOptionsStart p = 0
         /\ Multiselect.displayedOptionsEnd p = 3
         /\ ~ Multiselect.WindowInv p
     | _ => False
     end.
Proof.
  split; vm_compute; repeat split; intros (_ & _ & _ & Hend & _);
    apply Hend; reflexivity.
Qed.

(** C3 (evaluated at the failing inputs).  Five candidates that all contain
    a space, height 3, focus moved down three times so that the window is
    [1, 4): a space keeps all five candidates and resets the focus to 0 but
    leaves the window at [1, 4), in both engines.  And on the five Greek
    letters a rune "g" sets the end of the window to 3, the height clamped to
    the previous filtered list, not to the new one of length 1. *)
Theorem query_change_does_not_reset_window :
  match Multiselect.Show
          (Multiselect.WithMaxHeight 3
             (Multiselect.WithOptions ["a 1"; "b 2"; "c 3"; "d 4"; "e 5"]
                (Multiselect.NewGenericInteractiveMultiselect [])))
          false [press Down; press Down; press Down; press Space] with
  | Listening p _ =>
      Multiselect.fuzzySearchString p = " "
      /\ Multiselect.fuzzySearchMatches p = ["a 1"; "b 2"; "c 3"; "d 4"; "e 5"]
      /\ Multiselect.selectedOption p = 0
      /\ Multiselect.displayedOptionsStart p = 1
      /\ Multiselect.displayedOptionsEnd p = 4
  | _ => False
  end
  /\ match Select.Show
             (Select.WithMaxHeight 3
                (Select.WithOptions ["a 1"; "b 2"; "c 3"; "d 4"; "e 5"]
                   Select.NewGenericInteractiveSelect))
             false [press Down; press Down; press Down; press Space] with
     | Listening p _ =>
         Select.fuzzySearchString p = " "
         /\ Select.fuzzySearchMatches p = ["a 1"; "b 2"; "c 3"; "d 4"; "e 5"]
         /\ Select.selectedOption p = 0
         /\ Select.displayedOptionsStart p = 1
         /\ Select.displayedOptionsEnd p = 4
     | _ => False
     end
  /\ match Multiselect.Show
             (Multiselect.WithMaxHeight 3
                (Multiselect.WithOptions greek
                   (Multiselect.NewGenericInteractiveMultiselect greek)))
             false [rune "g"] with
     | Listening p _ =>
         Multiselect.displayedOptionsEnd p = 3
         /\ Z.min (Multiselect.MaxHeight p)
              (len (Multiselect.fuzzySearchMatches p)) = 1
     | _ => False
     end.
Proof. vm_compute. repeat split. Qed.

(** C4 (evaluated at the failing input).  With filtering disabled, a space
    makes the single-select query " " and empties its filtered list, while
    the multiselect engine ignores it. *)
Theorem select_space_edits_query_without_filter :
  match Select.Show
          (Select.WithFilter false
             (Select.WithOptions greek Select.NewGenericInteractiveSelect))
          false [press Space] with
  | Listening p _ =>
      Select.Filter p = false
      /\ Select.fuzzySearchString p = " "
      /\ Select.fuzzySearchMatches p = []
      /\ Select.optionsStr p = greek
  | _ => False
  end
  /\ match Multiselect.Show
             (Multiselect.WithFilter false
                (Multiselect.WithOptions greek
                   (Multiselect.NewGenericInteractiveMultiselect greek)))
             false [press Space] with
     | Listening p _ =>
         Multiselect.fuzzySearchString p = ""
         /\ Multiselect.fuzzySearchMatches p = greek
     | _ => False
     end.
Proof. vm_compute. repeat split. Qed.

(** C7 (counterexample to the claim as stated).  A multiselect printer
    built by the constructor alone has five options and an empty candidate
    store: [Show] returns no error, renders twice and listens for keys.
    And with filtering on, space bound to the confirm key and a non-empty
    list of options: with a height of -1 [Show] panics on its first slice
    expression, and with a chosen index left over from a longer list it
    panics in its first render; in neither case does it return an error. *)
Lemma configuration_checks_not_as_claimed :
  Multiselect.optionsStr (Multiselect.NewGenericInteractiveMultiselect greek)
  = []
  /\ (exists p0 f0 f1,
        Multiselect.Show (Multiselect.NewGenericInteractiveMultiselect greek)
          false [] = Listening p0 [f0; f1])
  /\ Multiselect.Filter
       (Multiselect.WithMaxHeight (-1)
          (Multiselect.WithKeyConfirm Space
             (Multiselect.WithOptions greek
                (Multiselect.NewGenericInteractiveMultiselect greek)))) = true
  /\ Multiselect.KeyConfirm
       (Multiselect.WithMaxHeight (-1)
          (Multiselect.WithKeyConfirm Space
             (Multiselect.WithOptions greek
                (Multiselect.NewGenericInteractiveMultiselect greek)))) = Space
  /\ Multiselect.Show
       (Multiselect.WithMaxHeight (-1)
          (Multiselect.WithKeyConfirm Space
             (Multiselect.WithOptions greek
                (Multiselect.NewGenericInteractiveMultiselect greek))))
       false [] = Panicked
  /\ Multiselect.Show
       (Multiselect.WithKeyConfirm Space
          (Multiselect.WithOptions ["alpha"; "beta"]
             (Multiselect.setSelectedOptions [4]
                (Multiselect.NewGenericInteractiveMultiselect greek))))
       false [] = Panicked.
Proof.
  split; [reflexivity|]. split; [do 3 eexists; vm_compute; reflexivity|].
  repeat split.
Qed.

(** C9 (counterexample to the claim as stated).  A height of -1 is not
    replaced by the default: [Show] uses it and panics on the first slice
    expression, in both engines, where the default height gives a running
    session. *)
Lemma negative_height_is_not_replaced :
  (Select.MaxHeight
     (Select.WithMaxHeight (-1)
        (Select.WithOptions greek Select.NewGenericInteractiveSelect)) <= 0
   /\ Select.Show
        (Select.WithMaxHeight (-1)
           (Select.WithOptions greek Select.NewGenericInteractiveSelect))
        false [] = Panicked
   /\ Select.Show
        (Select.WithMaxHeight DefaultSelectMaxHeight
           (Select.WithOptions greek Select.NewGenericInteractiveSelect))
        false [] <> Panicked)
  /\ (Multiselect.MaxHeight
        (Multiselect.WithMaxHeight (-1)
           (Multiselect.WithOptions greek
              (Multiselect.NewGenericInteractiveMultiselect greek))) <= 0
      /\ Multiselect.Show
           (Multiselect.WithMaxHeight (-1)
              (Multiselect.WithOptions greek
                 (Multiselect.NewGenericInteractiveMultiselect greek)))
           false [] = Panicked
      /\ Multiselect.Show
           (Multiselect.WithMaxHeight DefaultMultiselectMaxHeight
              (Multiselect.WithOptions greek
                 (Multiselect.NewGenericInteractiveMultiselect greek)))
           false [] <> Panicked).
Proof.
  repeat split; try reflexivity; try (simpl; lia); vm_compute; discriminate.
Qed.

(** C5 at a concrete session: gamma is chosen while the filter "g" is
    active, the filter is then cleared with a backspace, and gamma is still
    reported as chosen. *)
Lemma selection_survives_query_changes_witness :
  exists p2 frames2,
    Multiselect.Show
      (Multiselect.WithOptions greek
         (Multiselect.NewGenericInteractiveMultiselect greek))
      false [rune "g"; press Enter; press Backspace]
    = Listening p2 frames2
    /\ Multiselect.fuzzySearchString p2 = ""
    /\ Multiselect.selectedOptions p2 = [2]
    /\ Multiselect.isSelected p2 "gamma" = Ok true.
Proof.
  eassert (HS : Multiselect.Show
                  (Multiselect.WithOptions greek
                     (Multiselect.NewGenericInteractiveMultiselect greek))
                  false [rune "g"] = Listening _ _)
    by (vm_compute; reflexivity).
  destruct (MultiselectFacts.selection_survives_query_changes _ _ _ _ _
              [mkKey Backspace ""] HS) as [_ B].
  { repeat constructor. }
  destruct (B (mkKey Enter "") "gamma") as (p2 & frames2 & E & Hs & Hsel).
  - reflexivity.
  - discriminate.
  - reflexivity.
  - simpl. auto.
  - reflexivity.
  - exists p2, frames2. split; [exact E|].
    split; [|split; [exact Hs|exact Hsel]].
    vm_compute in E. injection E as <- _. reflexivity.
Defined.

(** C6 at concrete sessions: gamma is chosen before alpha and the confirmed
    result is gamma, alpha; and toggling gamma then alpha from an empty
    selection yields the Options with those texts in that order. *)
Lemma confirmed_result_in_selection_order_witness :
  (exists p0 frames,
      Multiselect.Show
        (Multiselect.WithOptions greek
           (Multiselect.NewGenericInteractiveMultiselect greek))
        false
        ([press Down; press Down; press Enter; press Up; press Up; press Enter]
           ++ [press Tab])
      = Returned false ["gamma"; "alpha"] p0 frames)
  /\ (exists p0 frames0 p1 result,
        Multiselect.Show
          (Multiselect.WithOptions greek
             (Multiselect.NewGenericInteractiveMultiselect greek))
          false [] = Listening p0 frames0
        /\ Multiselect.toggleEach ["gamma"; "alpha"] p0 = Ok p1
        /\ Multiselect.getSelectedOptions p1 = Ok result
        /\ map String_of result = ["gamma"; "alpha"]).
Proof.
  split.
  - eassert (HS : Multiselect.Show
                    (Multiselect.WithOptions greek
                       (Multiselect.NewGenericInteractiveMultiselect greek))
                    false
                    [press Down; press Down; press Enter; press Up; press Up;
                     press Enter] = Listening _ _)
      by (vm_compute; reflexivity).
    destruct (MultiselectFacts.confirmed_result_in_selection_order _ _ _ _ _
                (mkKey Tab "") HS) as [A _].
    + reflexivity.
    + discriminate.
    + reflexivity.
    + destruct A as (result & frames & E & HF).
      eexists. exists frames. unfold press in *. rewrite E.
      vm_compute in HF.
      repeat match goal with
             | HF : Forall2 _ (_ :: _) _ |- _ =>
                 inversion HF; subst; clear HF
             | HF : Forall2 _ [] _ |- _ => inversion HF; subst; clear HF
             | E : Ok _ = Ok _ |- _ => injection E as <-
             end.
      reflexivity.
  - eassert (HS : Multiselect.Show
                    (Multiselect.WithOptions greek
                       (Multiselect.NewGenericInteractiveMultiselect greek))
                    false [] = Listening _ _)
      by (vm_compute; reflexivity).
    destruct (MultiselectFacts.confirmed_result_in_selection_order _ _ _ _ _
                (mkKey Tab "") HS) as [_ B].
    + reflexivity.
    + discriminate.
    + reflexivity.
    + destruct (B ["gamma"; "alpha"]) as (p1 & result & E & _ & Hr & Hm).
      * reflexivity.
      * repeat constructor; simpl; intuition discriminate.
      * simpl. intuition.
      * do 2 eexists. exists p1, result. split; [exact HS|].
        split; [exact E|]. split; [exact Hr|exact Hm].
Defined.

(** C7 at concrete printers: no options in either engine, where the error
    that is returned in turn tells that [Options] is empty, and space bound
    to the confirm key of a multiselect printer with filtering on. *)
Lemma configuration_errors_end_Show_before_loop_witness :
  Select.Show (@Select.NewGenericInteractiveSelect string) false [press Enter]
  = Failed NoOptionsProvided []
  /\ Multiselect.Show
       (Multiselect.NewGenericInteractiveMultiselect (@nil string))
       false [press Tab]
     = Failed NoOptionsProvided []
  /\ Select.Options (@Select.NewGenericInteractiveSelect string) = []
  /\ Multiselect.Options
       (Multiselect.NewGenericInteractiveMultiselect (@nil string)) = []
  /\ exists frames,
       Multiselect.Show
         (Multiselect.WithKeyConfirm Space
            (Multiselect.WithOptions greek
               (Multiselect.NewGenericInteractiveMultiselect greek)))
         false [press Space]
       = Failed SpaceKeyWithFilter frames
       /\ (List.length frames <= 1)%nat.
Proof.
  destruct (@configuration_errors_end_Show_before_loop string _ _)
    as (A & B & N1 & N2 & C).
  split; [apply A; reflexivity|]. split; [apply B; reflexivity|].
  split; [apply (N1 _ false [press Enter] []); apply A; reflexivity|].
  split; [apply (N2 _ false [press Tab] []); apply B; reflexivity|].
  destruct (C (Multiselect.WithKeyConfirm Space
                 (Multiselect.WithOptions greek
                    (Multiselect.NewGenericInteractiveMultiselect greek)))
              false [press Space]) as [_ D].
  - reflexivity.
  - reflexivity.
  - apply D.
    + discriminate.
    + simpl. lia.
    + constructor.
Defined.

(** C8 at concrete sessions: no candidate contains a "z", and Enter on the
    empty filtered list changes nothing in either engine. *)
Lemma empty_filtered_list_keys_are_noops_witness :
  (exists p0 frames0,
      Select.Show
        (Select.WithOptions greek Select.NewGenericInteractiveSelect)
        false [rune "z"] = Listening p0 frames0
      /\ Select.fuzzySearchMatches p0 = []
      /\ Select.Show
           (Select.WithOptions greek Select.NewGenericInteractiveSelect)
           false ([rune "z"] ++ [press Enter]) = Listening p0 frames0)
  /\ (exists p0 frames0 frames1,
        Multiselect.Show
          (Multiselect.WithOptions greek
             (Multiselect.NewGenericInteractiveMultiselect greek))
          false [rune "z"] = Listening p0 frames0
        /\ Multiselect.fuzzySearchMatches p0 = []
        /\ Multiselect.Show
             (Multiselect.WithOptions greek
                (Multiselect.NewGenericInteractiveMultiselect greek))
             false ([rune "z"] ++ [press Enter]) = Listening p0 frames1).
Proof.
  destruct (@empty_filtered_list_keys_are_noops string _ _) as (A & B).
  split.
  - eassert (HS : Select.Show
                    (Select.WithOptions greek Select.NewGenericInteractiveSelect)
                    false [rune "z"] = Listening _ _)
      by (vm_compute; reflexivity).
    do 2 eexists. split; [exact HS|]. split; [reflexivity|].
    apply (A _ _ _ _ _ (mkKey Enter "") HS); reflexivity.
  - eassert (HS : Multiselect.Show
                    (Multiselect.WithOptions greek
                       (Multiselect.NewGenericInteractiveMultiselect greek))
                    false [rune "z"] = Listening _ _)
      by (vm_compute; reflexivity).
    destruct (B _ _ _ _ _ (mkKey Enter "") HS) as [frames1 E];
      [reflexivity|reflexivity|].
    do 2 eexists. exists frames1. split; [exact HS|]. split; [reflexivity|].
    exact E.
Defined.

(** C10 at concrete sessions: the focus is on the fourth candidate and the
    window is [1, 4) when a backspace arrives on the empty query; afterwards
    the focus is 0 and the window [0, 3), the query and the filtered list
    being what they were. *)
Lemma backspace_on_empty_query_resets_view_witness :
  (exists p0 frames0 p1 frames1,
      Select.Show
        (Select.WithMaxHeight 3
           (Select.WithOptions greek Select.NewGenericInteractiveSelect))
        false [press Down; press Down; press Down] = Listening p0 frames0
      /\ Select.selectedOption p0 = 3
      /\ Select.displayedOptionsStart p0 = 1
      /\ Select.displayedOptionsEnd p0 = 4
      /\ Select.Show
           (Select.WithMaxHeight 3
              (Select.WithOptions greek Select.NewGenericInteractiveSelect))
           false ([press Down; press Down; press Down] ++ [press Backspace])
         = Listening p1 frames1
      /\ Select.fuzzySearchString p1 = ""
      /\ Select.fuzzySearchMatches p1 = greek
      /\ Select.selectedOption p1 = 0
      /\ Select.displayedOptionsStart p1 = 0
      /\ Select.displayedOptionsEnd p1 = 3)
  /\ (exists p0 frames0 p1 frames1,
        Multiselect.Show
          (Multiselect.WithMaxHeight 3
             (Multiselect.WithOptions greek
                (Multiselect.NewGenericInteractiveMultiselect greek)))
          false [press Down; press Down; press Down] = Listening p0 frames0
        /\ Multiselect.selectedOption p0 = 3
        /\ Multiselect.displayedOptionsStart p0 = 1
        /\ Multiselect.displayedOptionsEnd p0 = 4
        /\ Multiselect.Show
             (Multiselect.WithMaxHeight 3
                (Multiselect.WithOptions greek
                   (Multiselect.NewGenericInteractiveMultiselect greek)))
             false ([press Down; press Down; press Down] ++ [press Backspace])
           = Listening p1 frames1
        /\ Multiselect.fuzzySearchString p1 = ""
        /\ Multiselect.fuzzySearchMatches p1 = greek
        /\ Multiselect.selectedOption p1 = 0
        /\ Multiselect.displayedOptionsStart p1 = 0
        /\ Multiselect.displayedOptionsEnd p1 = 3).
Proof.
  destruct (@backspace_on_empty_query_resets_view string _ _) as (A & B).
  split.
  - eassert (HS : Select.Show
                    (Select.WithMaxHeight 3
                       (Select.WithOptions greek
                          Select.NewGenericInteractiveSelect))
                    false [press Down; press Down; press Down] = Listening _ _)
      by (vm_compute; reflexivity).
    destruct (A _ _ _ _ _ (mkKey Backspace "") HS)
      as (p1 & frames1 & E & Hq & Hm & Hs & Hb & He);
      [reflexivity|reflexivity|reflexivity|].
    do 2 eexists. exists p1, frames1.
    split; [exact HS|]. repeat (split; [reflexivity|]).
    split; [exact E|]. auto 10.
  - eassert (HS : Multiselect.Show
                    (Multiselect.WithMaxHeight 3
                       (Multiselect.WithOptions greek
                          (Multiselect.NewGenericInteractiveMultiselect greek)))
                    false [press Down; press Down; press Down] = Listening _ _)
      by (vm_compute; reflexivity).
    destruct (B _ _ _ _ _ (mkKey Backspace "") HS)
      as (p1 & frames1 & E & Hq & Hm & Hs & Hb & He & _);
      [reflexivity|reflexivity|reflexivity|discriminate|discriminate|].
    do 2 eexists. exists p1, frames1.
    split; [exact HS|]. repeat (split; [reflexivity|]).
    split; [exact E|]. auto 10.
Defined.

(** * Facts about strings *)

Lemma list_ascii_of_string_append (a b : string) :
  list_ascii_of_string (String.append a b)
  = list_ascii_of_string a ++ list_ascii_of_string b.
Proof. induction a as [|c a IH]; simpl; [reflexivity|]. rewrite IH. reflexivity. Qed.

Lemma dropContinuation_app (conts rest : list ascii) (lead : ascii) :
  forallb isContinuation conts = true -> isContinuation lead = false ->
  dropContinuation (rev conts ++ lead :: rest) = lead :: rest.
Proof.
  intros Hc Hl.
  assert (Hr : forallb isContinuation (rev conts) = true).
  { apply forallb_forall. intros x Hx. apply in_rev in Hx.
    eapply forallb_forall in Hc; eauto. }
  clear Hc. induction (rev conts) as [|c l IH]; simpl in *.
  - rewrite Hl. reflexivity.
  - apply andb_prop in Hr as [Hc Hr]. rewrite Hc. auto.
Qed.

Lemma dropLastRune_append (query r : string) :
  isSingleRune r = true -> dropLastRune (String.append query r) = query.
Proof.
  unfold isSingleRune, dropLastRune. destruct r as [|lead rest]; [discriminate|].
  intros Hr. apply andb_prop in Hr as [Hl Hc].
  apply Bool.negb_true_iff in Hl.
  rewrite list_ascii_of_string_append. simpl.
  rewrite rev_app_distr. simpl. rewrite <- app_assoc. simpl.
  rewrite dropContinuation_app by assumption. simpl.
  rewrite rev_involutive. apply string_of_list_ascii_of_string.
Qed.

Lemma append_single_rune_nonempty (query r : string) :
  isSingleRune r = true -> 0 < Z.of_nat (String.length (String.append query r)).
Proof.
  destruct r as [|lead rest]; [discriminate|]. intros _.
  induction query as [|c q IH]; simpl; lia.
Qed.

Lemma visible_nil {A : Type} (lo hi : Z) : visible lo hi (@nil A) = [].
Proof. unfold visible. rewrite skipn_nil, firstn_nil. reflexivity. Qed.

Lemma visible_cons {A : Type} (lo hi : Z) (a : A) (l : list A) :
  visible lo hi (a :: l)
  = if (lo <=? 0) && (0 <? hi)
    then a :: visible (lo - 1) (hi - 1) l
    else visible (lo - 1) (hi - 1) l.
Proof.
  unfold visible.
  destruct (Z.leb_spec lo 0) as [Hlo|Hlo]; simpl.
  - replace (Z.to_nat lo) with 0%nat by lia.
    replace (Z.to_nat (lo - 1)) with 0%nat by lia.
    rewrite !Nat.sub_0_r. simpl.
    destruct (Z.ltb_spec 0 hi) as [Hhi|Hhi].
    + replace (Z.to_nat hi) with (S (Z.to_nat (hi - 1))) by lia. reflexivity.
    + replace (Z.to_nat hi) with 0%nat by lia.
      replace (Z.to_nat (hi - 1)) with 0%nat by lia. reflexivity.
  - replace (Z.to_nat lo) with (S (Z.to_nat (lo - 1))) by lia. simpl.
    f_equal. lia.
Qed.

(** A property every handled key preserves holds when the loop stops. *)
Lemma Listen_Stopped_inv {P : Type}
    (h : Key -> P -> res (Signal * P * list Frame)) (I : P -> Prop) :
  (forall k p sig p' fs, h k p = Ok (sig, p', fs) -> I p -> I p') ->
  forall events p frames canceled p' frames',
    Listen h events p frames = Stopped canceled p' frames' -> I p -> I p'.
Proof.
  intros Hstep events.
  induction events as [|e events IH]; intros p frames c p' frames'; simpl.
  - discriminate.
  - destruct e as [k|]; [|discriminate].
    destruct (h k p) as [[[sig q] fs]|] eqn:E; [|discriminate].
    destruct sig.
    + intros HL Hp. eapply IH; eauto.
    + intros [= _ <- _] Hp. eauto.
    + intros [= _ <- _] Hp. eauto.
Qed.

(** * Further properties of the multiselect engine *)

Module MultiselectMore.
Import Multiselect MultiselectFacts.

Section More.
Context {T : Type} `{Stringer T} `{Collaborators}.

Lemma setSelectedOptions_same (p : Printer T) :
  setSelectedOptions (selectedOptions p) p = p.
Proof. destruct p; reflexivity. Qed.

Lemma findFrom_absent (opts : list string) (text : string) :
  ~ In text opts -> forall j, findFrom j opts text = -1.
Proof.
  induction opts as [|o opts IH]; intros Hn j; simpl; [reflexivity|].
  destruct (String.eqb_spec o text) as [->|_].
  - exfalso. apply Hn. left. reflexivity.
  - apply IH. intros Hin. apply Hn. right. exact Hin.
Qed.

Lemma findFrom_first (opts : list string) (text : string) :
  forall j k,
    0 <= k < findFrom j opts text - j ->
    nth_error opts (Z.to_nat k) <> Some text.
Proof.
  induction opts as [|o opts IH]; intros j k Hk; simpl in *.
  - destruct (Z.to_nat k); discriminate.
  - destruct (String.eqb_spec o text) as [->|Hne]; [lia|].
    destruct (Z.to_nat k) as [|n] eqn:E; simpl.
    + congruence.
    + replace n with (Z.to_nat (k - 1)) by lia.
      apply (IH (j + 1)). lia.
Qed.

(** X1.  [findOptionByText] answers [-1] exactly for a text that no
    candidate carries; for a text some candidate carries it answers the
    first index that holds it, so among candidates of equal text the first
    one wins. *)
Theorem findOptionByText_first_match (p : Printer T) (text : string) :
  (~ In text (optionsStr p) -> findOptionByText p text = -1)
  /\ (In text (optionsStr p) ->
      0 <= findOptionByText p text < len (optionsStr p)
      /\ index (optionsStr p) (findOptionByText p text) = Ok text
      /\ forall j, 0 <= j < findOptionByText p text ->
                   index (optionsStr p) j <> Ok text).
Proof.
  split.
  - intros Hn. apply findFrom_absent. exact Hn.
  - intros Hin. pose proof (findOptionByText_index p text Hin) as Hi.
    split; [eapply index_ok; eauto|]. split; [exact Hi|].
    intros j Hj E. apply index_ok in E as [_ E].
    apply (findFrom_first (optionsStr p) text 0 j); [|exact E].
    unfold findOptionByText in Hj. lia.
Qed.

Lemma isSelectedIn_true (opts : list string) (sel : list Z) (text : string) :
  isSelectedIn opts sel text = Ok true ->
  exists i, In i sel /\ index opts i = Ok text.
Proof.
  induction sel as [|j sel IH]; simpl; intros E; [discriminate|].
  destruct (index opts j) as [a|] eqn:Ei; simpl in E; [|discriminate].
  destruct (String.eqb_spec a text) as [->|_].
  - exists j. split; [left; reflexivity|assumption].
  - destruct (IH E) as (i & Hi & Hx). exists i. split; [right|]; assumption.
Qed.

Lemma isSelectedIn_false (opts : list string) (sel : list Z) (text : string) :
  isSelectedIn opts sel text = Ok false ->
  forall i, In i sel -> index opts i <> Ok text.
Proof.
  induction sel as [|j sel IH]; simpl; intros E i Hi; [contradiction|].
  destruct (index opts j) as [a|] eqn:Ei; simpl in E; [|discriminate].
  destruct (String.eqb_spec a text) as [->|Hne]; [discriminate|].
  destruct Hi as [<-|Hi]; [congruence|]. apply IH; assumption.
Qed.

(** X2.  With chosen indices that point into the candidate store,
    [isSelected] never panics, and it answers true exactly for the texts
    that some chosen index holds: membership is by display text. *)
Theorem isSelected_by_display_text (p : Printer T) (text : string) :
  validSel p ->
  exists b,
    isSelected p text = Ok b
    /\ (b = true <->
        exists i, In i (selectedOptions p)
                  /\ index (optionsStr p) i = Ok text).
Proof.
  intros Hv.
  destruct (isSelectedIn_valid (optionsStr p) (selectedOptions p) text Hv)
    as [b Hb].
  exists b. split; [exact Hb|]. destruct b.
  - split; [intros _|reflexivity]. apply isSelectedIn_true. exact Hb.
  - split; [discriminate|]. intros (i & Hi & Hx). exfalso.
    eapply isSelectedIn_false; eauto.
Qed.

Lemma removeFirst_split (opts : list string) (sel : list Z) (text : string) :
  isSelectedIn opts sel text = Ok true ->
  exists before i after,
    sel = before ++ i :: after
    /\ index opts i = Ok text
    /\ (forall j, In j before -> index opts j <> Ok text)
    /\ removeFirst opts sel text = Ok (before ++ after).
Proof.
  induction sel as [|j sel IH]; simpl; intros E; [discriminate|].
  destruct (index opts j) as [a|] eqn:Ei; simpl in *; [|discriminate].
  destruct (String.eqb_spec a text) as [->|Hne].
  - exists [], j, sel. split; [reflexivity|]. split; [exact Ei|].
    split; [intros ? []|reflexivity].
  - destruct (IH E) as (before & i & after & -> & Hi & Hb & Hr).
    exists (j :: before), i, after. rewrite Hr. simpl.
    split; [reflexivity|]. split; [exact Hi|]. split; [|reflexivity].
    intros k [<-|Hk]; [congruence|auto].
Qed.

(** X3.  [selectOption] on a text that is chosen removes the first chosen
    index that holds the text and keeps every other chosen index, in the
    order they had. *)
Theorem selectOption_removes_first_match (p : Printer T) (text : string) :
  isSelected p text = Ok true ->
  exists before i after,
    selectedOptions p = before ++ i :: after
    /\ index (optionsStr p) i = Ok text
    /\ (forall j, In j before -> index (optionsStr p) j <> Ok text)
    /\ selectOption text p = Ok (setSelectedOptions (before ++ after) p).
Proof.
  intros E. unfold selectOption. rewrite E. simpl.
  destruct (removeFirst_split _ _ _ E) as (before & i & after & Hs & Hi & Hb & Hr).
  exists before, i, after. rewrite Hr. simpl. auto.
Qed.

Lemma collect_map {A B : Type} (f : A -> B) (from : list A) (sel : list Z) :
  collect (map f from) sel
  = match collect from sel with
    | Ok r => Ok (map f r)
    | Panic => Panic
    end.
Proof.
  induction sel as [|i sel IH]; simpl; [reflexivity|].
  unfold index. destruct (i <? 0); [reflexivity|].
  rewrite nth_error_map.
  destruct (nth_error from (Z.to_nat i)); simpl; [|reflexivity].
  rewrite IH. destruct (collect from sel); reflexivity.
Qed.

(** X4.  On a printer whose candidate store was built by [WithOptions], the
    texts of the "you have selected" line are the display texts of the
    Options [getSelectedOptions] returns, one for one and in the same order,
    and the one panics exactly when the other does. *)
Theorem summary_texts_are_the_selected_options (p : Printer T) :
  optionsStr p = map String_of (Options p) ->
  getSelectedOptionsStr p
  = match getSelectedOptions p with
    | Ok selected => Ok (map String_of selected)
    | Panic => Panic
    end.
Proof.
  intros E. unfold getSelectedOptionsStr, getSelectedOptions. rewrite E.
  apply collect_map.
Qed.

Lemma select_exact (k : Key) (p : Printer T) (text : string) :
  Inv p ->
  Code k = KeySelect p -> Code k <> KeyConfirm p ->
  index (fuzzySearchMatches p) (selectedOption p) = Ok text ->
  In text (optionsStr p) ->
  isSelected p text = Ok false ->
  exists f,
    handleKey k p
    = Ok (Continue,
          setSelectedOptions
            (selectedOptions p ++ [findOptionByText p text]) p, [f]).
Proof.
  intros (Hh & Hv & Hm) Hk Hc Hi Hin Hs. unfold handleKey. cbv zeta.
  destruct (KeyCode_eqb (Code k) (KeyConfirm p)) eqn:C1;
    [apply KeyCode_eqb_eq in C1; contradiction|].
  rewrite Hk, KeyCode_eqb_refl.
  pose proof (index_ok _ _ _ Hi) as [Hr _].
  destruct (Z.ltb_spec 0 (len (fuzzySearchMatches p))); [|lia].
  rewrite Hi. simpl. unfold selectOption. rewrite Hs. simpl.
  pose proof (findOptionByText_index p text Hin) as Hf.
  match goal with |- context [renderSelectMenu ?q] =>
    assert (Hq : validSel q)
  end.
  { unfold validSel. simpl. apply Forall_app. split; [exact Hv|].
    constructor; [|constructor]. eapply index_ok; eauto. }
  match goal with |- context [renderSelectMenu ?q] =>
    destruct (renderSelectMenu_valid q Hq) as [f ->];
    change (computeMatches q) with (computeMatches p);
    rewrite <- Hm;
    change (fuzzySearchMatches p) with (fuzzySearchMatches q);
    rewrite (setFuzzySearchMatches_same q)
  end.
  simpl. eauto.
Qed.

Lemma removeFirst_snoc (opts : list string) (sel : list Z) (i : Z)
    (text : string) :
  isSelectedIn opts sel text = Ok false ->
  index opts i = Ok text ->
  removeFirst opts (sel ++ [i]) text = Ok sel.
Proof.
  intros Hs Hi. induction sel as [|j sel IH]; simpl in *.
  - rewrite Hi. simpl. rewrite String.eqb_refl. reflexivity.
  - destruct (index opts j) as [s|]; [|discriminate]. simpl in *.
    destruct (String.eqb s text); [discriminate|].
    rewrite (IH Hs). reflexivity.
Qed.

Lemma deselect_exact (k : Key) (p : Printer T) (text : string)
    (rest : list Z) :
  Inv p ->
  Code k = KeySelect p -> Code k <> KeyConfirm p ->
  index (fuzzySearchMatches p) (selectedOption p) = Ok text ->
  isSelected p text = Ok true ->
  removeFirst (optionsStr p) (selectedOptions p) text = Ok rest ->
  exists f,
    handleKey k p = Ok (Continue, setSelectedOptions rest p, [f]).
Proof.
  intros (Hh & Hv & Hm) Hk Hc Hi Ht Hr. unfold handleKey. cbv zeta.
  destruct (KeyCode_eqb (Code k) (KeyConfirm p)) eqn:C1;
    [apply KeyCode_eqb_eq in C1; contradiction|].
  rewrite Hk, KeyCode_eqb_refl.
  pose proof (index_ok _ _ _ Hi) as [Hrange _].
  destruct (Z.ltb_spec 0 (len (fuzzySearchMatches p))); [|lia].
  rewrite Hi. simpl. unfold selectOption. rewrite Ht. simpl. rewrite Hr. simpl.
  match goal with |- context [renderSelectMenu ?q] =>
    assert (Hq : validSel q)
  end.
  { destruct (removeFirst_split _ _ _ Ht)
      as (before & i & after & Hs & _ & _ & Hr').
    rewrite Hr in Hr'. injection Hr' as ->.
    unfold validSel in *. simpl. rewrite Hs in Hv.
    apply Forall_app in Hv as [Hv1 Hv2]. inversion Hv2; subst.
    apply Forall_app. split; assumption. }
  match goal with |- context [renderSelectMenu ?q] =>
    destruct (renderSelectMenu_valid q Hq) as [f ->];
    change (computeMatches q) with (computeMatches p);
    rewrite <- Hm;
    change (fuzzySearchMatches p) with (fuzzySearchMatches q);
    rewrite (setFuzzySearchMatches_same q)
  end.
  simpl. eauto.
Qed.

(** X5.  In a running session the select key is its own inverse on an entry
    that is not chosen: pressed twice on the focused entry (a candidate), it
    leaves the printer exactly as it was, the selection set included. *)
Theorem select_twice_restores_state (p p0 : Printer T) (areaFails : bool)
    (events : list Event) (frames0 : list Frame) (k : Key) (text : string) :
  Show p areaFails events = Listening p0 frames0 ->
  Code k = KeySelect p0 -> Code k <> KeyConfirm p0 ->
  index (fuzzySearchMatches p0) (selectedOption p0) = Ok text ->
  In text (optionsStr p0) ->
  isSelected p0 text = Ok false ->
  exists frames2,
    Show p areaFails (events ++ [Pressed k; Pressed k]) = Listening p0 frames2.
Proof.
  intros HS Hk Hc Hi Hin Hs. pose proof (Show_Inv _ _ _ _ _ HS) as Hinv.
  destruct (select_exact k p0 text Hinv Hk Hc Hi Hin Hs) as [f1 E1].
  pose proof (handleKey_Inv _ _ _ _ _ E1 Hinv) as Hinv1.
  pose proof (findOptionByText_index p0 text Hin) as Hf.
  destruct (deselect_exact k _ text (selectedOptions p0) Hinv1) as [f2 E2];
    try assumption.
  - unfold isSelected. simpl. apply isSelectedIn_snoc; assumption.
  - simpl. apply removeFirst_snoc; assumption.
  - rewrite (Show_extend _ _ _ _ _ _ HS). simpl. rewrite E1, E2.
    exists ((frames0 ++ [f1]) ++ [f2]). f_equal.
    destruct p0; reflexivity.
Qed.

Lemma collect_seq {A : Type} (l : list A) :
  forall pre : list A,
    collect (pre ++ l)
      (map Z.of_nat (seq (List.length pre) (List.length l))) = Ok l.
Proof.
  induction l as [|a l IH]; intros pre; simpl; [reflexivity|].
  unfold index. destruct (Z.ltb_spec (Z.of_nat (List.length pre)) 0); [lia|].
  rewrite Nat2Z.id, nth_error_app2, Nat.sub_diag by lia. simpl.
  specialize (IH (pre ++ [a])).
  rewrite <- app_assoc, length_app in IH. simpl in IH.
  rewrite Nat.add_1_r in IH. rewrite IH. reflexivity.
Qed.

Lemma collect_allIndices {A : Type} (l : list A) :
  collect l (allIndices (List.length l)) = Ok l.
Proof. apply (collect_seq l []). Qed.

Lemma allIndices_valid (n : nat) (bound : Z) :
  Z.of_nat n <= bound -> Forall (fun i => 0 <= i < bound) (allIndices n).
Proof.
  intros Hb. unfold allIndices. apply Forall_forall. intros i Hi.
  apply in_map_iff in Hi as (m & <- & Hm). apply in_seq in Hm. lia.
Qed.

Lemma rebind (k : Key) (p : Printer T) (c : KeyCode) :
  Code k = c -> KeyConfirm p <> c -> KeySelect p <> c ->
  KeyCode_eqb (Code k) (KeyConfirm p) = false
  /\ KeyCode_eqb (Code k) (KeySelect p) = false.
Proof.
  intros -> Hc Hs. split.
  - destruct (KeyCode_eqb c (KeyConfirm p)) eqn:E; [|reflexivity].
    apply KeyCode_eqb_eq in E. congruence.
  - destruct (KeyCode_eqb c (KeySelect p)) eqn:E; [|reflexivity].
    apply KeyCode_eqb_eq in E. congruence.
Qed.

Lemma render_same (p q : Printer T) :
  Inv p -> validSel q ->
  fuzzySearchString q = fuzzySearchString p ->
  optionsStr q = optionsStr p -> Options q = Options p ->
  fuzzySearchMatches q = fuzzySearchMatches p ->
  exists f, renderSelectMenu q = Ok (q, f).
Proof.
  intros (_ & _ & Hm) Hv Hq Hs Ho Hf.
  destruct (renderSelectMenu_valid q Hv) as [f ->]. exists f.
  assert (E : computeMatches q = fuzzySearchMatches q).
  { rewrite Hf, Hm. unfold computeMatches. rewrite Hq, Hs, Ho. reflexivity. }
  rewrite E, setFuzzySearchMatches_same. reflexivity.
Qed.

Lemma right_exact (k : Key) (p : Printer T) :
  Inv p -> EnableSelectAll p = true ->
  Code k = Right -> KeyConfirm p <> Right -> KeySelect p <> Right ->
  len (Options p) <= len (optionsStr p) ->
  exists f,
    handleKey k p
    = Ok (Continue,
          setSelectedOptions (allIndices (List.length (Options p))) p, [f]).
Proof.
  intros Hi He Hk Hc Hs Hl. unfold handleKey. cbv zeta.
  destruct (rebind k p Right Hk Hc Hs) as [-> ->]. rewrite Hk, He.
  match goal with |- context [renderSelectMenu ?q] =>
    destruct (render_same p q Hi) as [f ->]; try reflexivity
  end.
  - apply allIndices_valid. exact Hl.
  - simpl. eauto.
Qed.

Lemma left_exact (k : Key) (p : Printer T) :
  Inv p -> EnableClearAll p = true ->
  Code k = Left -> KeyConfirm p <> Left -> KeySelect p <> Left ->
  exists f, handleKey k p = Ok (Continue, setSelectedOptions [] p, [f]).
Proof.
  intros Hi He Hk Hc Hs. unfold handleKey. cbv zeta.
  destruct (rebind k p Left Hk Hc Hs) as [-> ->]. rewrite Hk, He.
  match goal with |- context [renderSelectMenu ?q] =>
    destruct (render_same p q Hi) as [f ->]; try reflexivity
  end.
  - constructor.
  - simpl. eauto.
Qed.

(** X6.  In a running session whose filtered list is not empty, the
    select-all key followed by the confirm key makes [Show] return every
    Option, in the order of the option list, whatever the query has filtered
    out and whatever was chosen before. *)
Theorem select_all_then_confirm_returns_every_option (p p0 : Printer T)
    (areaFails : bool) (events : list Event) (frames0 : list Frame)
    (right confirm : Key) :
  Show p areaFails events = Listening p0 frames0 ->
  EnableSelectAll p0 = true ->
  Code right = Right -> KeyConfirm p0 <> Right -> KeySelect p0 <> Right ->
  Code confirm = KeyConfirm p0 ->
  fuzzySearchMatches p0 <> [] ->
  len (Options p0) <= len (optionsStr p0) ->
  exists frames,
    Show p areaFails (events ++ [Pressed right; Pressed confirm])
    = Returned false (Options p0)
        (setSelectedOptions (allIndices (List.length (Options p0))) p0)
        frames.
Proof.
  intros HS He Hk Hc Hs Hconf Hne Hl.
  pose proof (Show_Inv _ _ _ _ _ HS) as Hinv.
  destruct (right_exact right p0 Hinv He Hk Hc Hs Hl) as [f1 E1].
  rewrite (Show_extend _ _ _ _ _ _ HS). simpl. rewrite E1.
  match goal with |- context [handleKey confirm ?q] =>
    rewrite (confirm_step confirm q (Options p0))
  end; try assumption.
  - unfold getSelectedOptions. simpl. rewrite collect_allIndices. eauto.
  - unfold getSelectedOptions. simpl. apply collect_allIndices.
Qed.

(** X7.  In a running session, select-all followed by clear-all leaves the
    selection set empty, and clear-all followed by select-all leaves it
    holding every index of the option list in order; neither touches
    anything else of the printer.  When select-all is disabled the right
    arrow changes nothing at all. *)
Theorem select_all_and_clear_all_compose (p p0 : Printer T)
    (areaFails : bool) (events : list Event) (frames0 : list Frame)
    (right left : Key) :
  Show p areaFails events = Listening p0 frames0 ->
  Code right = Right -> KeyConfirm p0 <> Right -> KeySelect p0 <> Right ->
  Code left = Left -> KeyConfirm p0 <> Left -> KeySelect p0 <> Left ->
  (EnableSelectAll p0 = true -> EnableClearAll p0 = true ->
   len (Options p0) <= len (optionsStr p0) ->
   (exists frames,
       Show p areaFails (events ++ [Pressed right; Pressed left])
       = Listening (setSelectedOptions [] p0) frames)
   /\ (exists frames,
         Show p areaFails (events ++ [Pressed left; Pressed right])
         = Listening
             (setSelectedOptions (allIndices (List.length (Options p0))) p0)
             frames))
  /\ (EnableSelectAll p0 = false ->
      Show p areaFails (events ++ [Pressed right]) = Listening p0 frames0).
Proof.
  intros HS Hr Hrc Hrs Hl Hlc Hls.
  pose proof (Show_Inv _ _ _ _ _ HS) as Hinv. split.
  - intros Hea Hec Hlen. split.
    + destruct (right_exact right p0 Hinv Hea Hr Hrc Hrs Hlen) as [f1 E1].
      pose proof (handleKey_Inv _ _ _ _ _ E1 Hinv) as Hinv1.
      destruct (left_exact left _ Hinv1 Hec Hl Hlc Hls) as [f2 E2].
      rewrite (Show_extend _ _ _ _ _ _ HS). simpl. rewrite E1, E2. eauto.
    + destruct (left_exact left p0 Hinv Hec Hl Hlc Hls) as [f1 E1].
      pose proof (handleKey_Inv _ _ _ _ _ E1 Hinv) as Hinv1.
      destruct (right_exact right _ Hinv1 Hea Hr Hrc Hrs Hlen) as [f2 E2].
      rewrite (Show_extend _ _ _ _ _ _ HS). simpl. rewrite E1, E2. eauto.
  - intros Hd. rewrite (Show_extend _ _ _ _ _ _ HS). simpl.
    unfold handleKey. cbv zeta.
    destruct (rebind right p0 Right Hr Hrc Hrs) as [-> ->]. rewrite Hr, Hd.
    rewrite app_nil_r. reflexivity.
Qed.

Lemma nav_exact (k : Key) (p : Printer T) :
  Inv p -> WindowInv p -> navKey p k = true ->
  exists p' f,
    handleKey k p = Ok (Continue, p', [f])
    /\ fuzzySearchMatches p' = fuzzySearchMatches p
    /\ fuzzySearchString p' = fuzzySearchString p
    /\ selectedOptions p' = selectedOptions p
    /\ sameConfig p p'
    /\ (let n := len (fuzzySearchMatches p) in
        let focus := selectedOption p in
        let start := displayedOptionsStart p in
        let stop := displayedOptionsEnd p in
        match Code k with
        | Down | CtrlN =>
            selectedOption p' = focusDown n focus
            /\ displayedOptionsStart p'
               = (if focus <? n - 1
                  then if stop <=? focus + 1 then start + 1 else start
                  else 0)
            /\ displayedOptionsEnd p'
               = (if focus <? n - 1
                  then if stop <=? focus + 1 then stop + 1 else stop
                  else Z.min (MaxHeight p) n)
        | _ =>
            selectedOption p' = focusUp n focus
            /\ displayedOptionsStart p'
               = (if 0 <? focus
                  then if focus - 1 <? start then start - 1 else start
                  else n - Z.min (MaxHeight p) n)
            /\ displayedOptionsEnd p'
               = (if 0 <? focus
                  then if focus - 1 <? start then stop - 1 else stop
                  else n)
        end).
Proof.
  intros (Hh & Hv & Hm) (W1 & W2 & W3 & W4 & W5) Hk.
  unfold navKey in Hk. unfold handleKey. cbv zeta.
  destruct (KeyCode_eqb (Code k) (KeyConfirm p)); [destruct (Code k); discriminate|].
  destruct (KeyCode_eqb (Code k) (KeySelect p)); [destruct (Code k); discriminate|].
  pose proof (len_le_capOf (fuzzySearchMatches p)) as Hcap.
  destruct (Code k); try discriminate; clear Hk.
  all: repeat (zcases; simpl in *; try lia;
               repeat (rewrite checkSlice_ok by lia; simpl)).
  all: match goal with |- context [renderSelectMenu ?q] =>
         destruct (renderSelectMenu_valid q Hv) as [f Hf]; rewrite Hf
       end; simpl.
  all: do 2 eexists; split; [reflexivity|].
  all: simpl; change (computeMatches _) with (computeMatches p);
       rewrite <- Hm.
  all: unfold focusDown, focusUp.
  all: repeat split; zcases; try lia.
Qed.

(** X8.  While the window contains the focus and lies inside the filtered
    list, a navigation key never panics and keeps the loop running; it leaves
    the query, the filtered list and the selection set alone, and it keeps
    the window around the focus, inside the filtered list and of the same
    number of rows.  Down moves the focus one entry on and wraps from the
    last entry to the first; up moves it one entry back and wraps from the
    first to the last. *)
Theorem navigation_moves_focus_and_keeps_window (k : Key) (p : Printer T) :
  Inv p -> WindowInv p -> fullWindow p -> navKey p k = true ->
  exists p' f,
    handleKey k p = Ok (Continue, p', [f])
    /\ fuzzySearchMatches p' = fuzzySearchMatches p
    /\ fuzzySearchString p' = fuzzySearchString p
    /\ selectedOptions p' = selectedOptions p
    /\ WindowInv p' /\ fullWindow p'
    /\ selectedOption p'
       = match Code k with
         | Down | CtrlN =>
             focusDown (len (fuzzySearchMatches p)) (selectedOption p)
         | _ => focusUp (len (fuzzySearchMatches p)) (selectedOption p)
         end.
Proof.
  intros Hi Hw Hfull Hk.
  destruct (nav_exact k p Hi Hw Hk)
    as (p' & f & E & Hm & Hq & Hs & Hc & Hmove).
  exists p', f. split; [exact E|]. split; [exact Hm|]. split; [exact Hq|].
  split; [exact Hs|].
  destruct Hc as (_ & Hmax & _).
  destruct Hw as (W1 & W2 & W3 & W4 & W5).
  unfold WindowInv, fullWindow in *. rewrite Hm, Hmax.
  unfold navKey in Hk. cbv zeta in Hmove. unfold focusDown, focusUp in *.
  destruct (Code k); try discriminate;
    destruct Hmove as (-> & -> & ->);
    repeat split; zcases; lia.
Qed.

Lemma navKey_sameConfig (p q : Printer T) (k : Key) :
  sameConfig p q -> navKey q k = navKey p k.
Proof.
  intros (_ & _ & _ & _ & Hs & Hc & _). unfold navKey. rewrite Hs, Hc.
  reflexivity.
Qed.

(** Any run of navigation keys from a state whose window is in order. *)
Lemma navKeys_run (ks : list Key) :
  forall (p : Printer T) (frames : list Frame),
    Inv p -> WindowInv p -> fullWindow p ->
    Forall (fun k => navKey p k = true) ks ->
    exists p' frames',
      Listen handleKey (map Pressed ks) p frames = Pending p' frames'
      /\ WindowInv p' /\ fullWindow p'
      /\ fuzzySearchMatches p' = fuzzySearchMatches p
      /\ fuzzySearchString p' = fuzzySearchString p
      /\ selectedOptions p' = selectedOptions p.
Proof.
  induction ks as [|k ks IH]; intros p frames Hi Hw Hf Hks; simpl.
  - exists p, frames. split; [reflexivity|]. split; [exact Hw|].
    split; [exact Hf|]. repeat split.
  - inversion Hks as [|? ? Hk Hrest]; subst.
    destruct (nav_exact k p Hi Hw Hk)
      as (p1 & f & E & Hm & Hq & Hs & Hc & Hmove).
    rewrite E.
    assert (Hw1 : WindowInv p1 /\ fullWindow p1).
    { destruct Hc as (_ & Hmax & _).
      destruct Hw as (W1 & W2 & W3 & W4 & W5).
      unfold WindowInv, fullWindow in *. rewrite Hm, Hmax.
      unfold navKey in Hk. cbv zeta in Hmove.
      unfold focusDown, focusUp in *.
      destruct (Code k); try discriminate;
        destruct Hmove as (-> & -> & ->);
        repeat split; zcases; lia. }
    destruct Hw1 as [Hw1 Hf1].
    destruct (IH p1 (frames ++ [f])) as (p2 & fr2 & HL & Hw2 & Hf2 & Hm2 & Hq2 & Hs2);
      try assumption.
    + eapply handleKey_Inv; eauto.
    + eapply Forall_impl; [|exact Hrest].
      intros a Ha. rewrite (navKey_sameConfig p p1 a Hc). exact Ha.
    + exists p2, fr2. split; [exact HL|]. split; [exact Hw2|].
      split; [exact Hf2|]. repeat split; congruence.
Qed.

(** How [Show] enters the loop on a printer whose focus is 0 and whose
    filtered list is the whole candidate store. *)
Lemma Show_start (p : Printer T) :
  Options p <> [] -> optionsStr p <> [] -> validSel p ->
  0 < startHeight p -> selectedOption p = 0 ->
  computeMatches p = optionsStr p ->
  Filter p && (KeyCode_eqb (KeyConfirm p) Space
               || KeyCode_eqb (KeySelect p) Space) = false ->
  exists ps frames,
    Show p false [] = Listening ps frames
    /\ Inv ps /\ WindowInv ps /\ fullWindow ps
    /\ fuzzySearchMatches ps = optionsStr p
    /\ fuzzySearchString ps = fuzzySearchString p
    /\ selectedOptions ps = selectedOptions p
    /\ sameConfig (setMaxHeight (startHeight p) p) ps.
Proof.
  intros Hne Hso Hv Hh Hsel Hcm Hkeys. unfold Show. cbv zeta.
  match goal with |- context [len (Options ?q) =? 0] => set (pn := q) end.
  assert (Hpn : pn = setMaxHeight (startHeight p)
                       (setFuzzySearchMatches (optionsStr p) p)).
  { unfold pn, startHeight. simpl.
    destruct (MaxHeight p =? 0) eqn:E; [reflexivity|].
    destruct p; reflexivity. }
  clearbody pn. subst pn. simpl.
  destruct (Z.eqb_spec (len (Options p)) 0) as [E|_];
    [apply len_nil_iff in E; contradiction|].
  assert (Hlen : 0 < len (optionsStr p)).
  { pose proof (len_nonneg (optionsStr p)).
    assert (len (optionsStr p) <> 0) by (rewrite len_nil_iff; exact Hso).
    lia. }
  rewrite checkSlice_ok by bounds.
  match goal with |- context [renderSelectMenu ?q] =>
    destruct (renderSelectMenu_valid q Hv) as [f0 Hr0]; rewrite Hr0
  end.
  simpl. rewrite Hkeys.
  match goal with |- context [renderSelectMenu ?q] =>
    destruct (renderSelectMenu_valid q Hv) as [f1 Hr1]; rewrite Hr1
  end.
  simpl. do 2 eexists. split; [reflexivity|].
  change (computeMatches _) with (computeMatches p). rewrite Hcm.
  unfold Inv, WindowInv, fullWindow, validSel. simpl.
  change (computeMatches _) with (computeMatches p). rewrite Hcm, Hsel.
  repeat split; try assumption; zcases; lia.
Qed.

(** X9.  On a printer with a non-empty candidate store, the focus at 0 and
    a positive height, whose filtered list starts as the whole store, any
    sequence of navigation keys keeps [Show] listening without a panic, with
    the focus inside the window, the window inside the filtered list and
    min(height, len) rows high; the filtered list stays the candidate store
    and the selection set is not touched. *)
Theorem navigation_session_keeps_window (p : Printer T) (ks : list Key) :
  Options p <> [] -> optionsStr p <> [] -> validSel p ->
  0 < startHeight p -> selectedOption p = 0 ->
  computeMatches p = optionsStr p ->
  Filter p && (KeyCode_eqb (KeyConfirm p) Space
               || KeyCode_eqb (KeySelect p) Space) = false ->
  Forall (fun k => navKey p k = true) ks ->
  exists p0 frames,
    Show p false (map Pressed ks) = Listening p0 frames
    /\ WindowInv p0
    /\ displayedOptionsEnd p0 - displayedOptionsStart p0
       = Z.min (startHeight p) (len (optionsStr p))
    /\ fuzzySearchMatches p0 = optionsStr p
    /\ selectedOptions p0 = selectedOptions p.
Proof.
  intros Hne Hso Hv Hh Hsel Hcm Hkeys Hks.
  destruct (Show_start p Hne Hso Hv Hh Hsel Hcm Hkeys)
    as (ps & frs & HS & Hi & Hw & Hf & Hm & Hq & Hs & Hc).
  destruct (navKeys_run ks ps frs Hi Hw Hf)
    as (p0 & fr0 & HL & Hw0 & Hf0 & Hm0 & Hq0 & Hs0).
  { eapply Forall_impl; [|exact Hks]. intros a Ha.
    rewrite (navKey_sameConfig _ ps a Hc). exact Ha. }
  exists p0, fr0. rewrite (Show_resume _ _ _ _ (map Pressed ks) HS), HL.
  split; [reflexivity|]. split; [exact Hw0|].
  assert (Hmax : MaxHeight p0 = startHeight p).
  { pose proof (Listen_Pending_inv handleKey (sameConfig ps)) as HI.
    destruct (HI (fun k q sig q' fs E Hq' =>
                    sameConfig_trans _ _ _ Hq'
                      (handleKey_sameConfig _ _ _ _ _ E))
                 _ _ _ _ _ HL (sameConfig_refl ps)) as (_ & -> & _).
    destruct Hc as (_ & -> & _). reflexivity. }
  unfold fullWindow in Hf0. rewrite Hf0, Hmax, Hm0, Hm.
  repeat split; congruence.
Qed.

(** X10.  In a running session whose window is in order, down followed by
    up, and up followed by down, bring the focus back to where it was,
    wrap-around included. *)
Theorem down_then_up_restores_focus (p p0 : Printer T) (areaFails : bool)
    (events : list Event) (frames0 : list Frame) (down up : Key) :
  Show p areaFails events = Listening p0 frames0 ->
  WindowInv p0 ->
  navKey p0 down = true -> navKey p0 up = true ->
  (Code down = Down \/ Code down = CtrlN) ->
  (Code up = Up \/ Code up = CtrlP) ->
  (exists p2 frames2,
      Show p areaFails (events ++ [Pressed down; Pressed up])
      = Listening p2 frames2
      /\ selectedOption p2 = selectedOption p0)
  /\ (exists p2 frames2,
        Show p areaFails (events ++ [Pressed up; Pressed down])
        = Listening p2 frames2
        /\ selectedOption p2 = selectedOption p0).
Proof.
  intros HS Hw Hkd Hku Hd Hu.
  pose proof (Show_Inv _ _ _ _ _ HS) as Hi.
  assert (Hstep : forall k1 k2,
             navKey p0 k1 = true -> navKey p0 k2 = true ->
             exists p1 p2 f1 f2,
               handleKey k1 p0 = Ok (Continue, p1, [f1])
               /\ handleKey k2 p1 = Ok (Continue, p2, [f2])
               /\ fuzzySearchMatches p1 = fuzzySearchMatches p0
               /\ selectedOption p1
                  = match Code k1 with
                    | Down | CtrlN =>
                        focusDown (len (fuzzySearchMatches p0))
                          (selectedOption p0)
                    | _ => focusUp (len (fuzzySearchMatches p0))
                             (selectedOption p0)
                    end
               /\ selectedOption p2
                  = match Code k2 with
                    | Down | CtrlN =>
                        focusDown (len (fuzzySearchMatches p1))
                          (selectedOption p1)
                    | _ => focusUp (len (fuzzySearchMatches p1))
                             (selectedOption p1)
                    end).
  { intros k1 k2 H1 H2.
    destruct (nav_exact k1 p0 Hi Hw H1)
      as (p1 & f1 & E1 & Hm1 & _ & _ & Hc1 & Hmove1).
    destruct (nav_keeps_window k1 p0 Hi Hw H1) as (p1' & fs' & E1' & Hw1 & _).
    rewrite E1 in E1'. injection E1' as <- _.
    pose proof (handleKey_Inv _ _ _ _ _ E1 Hi) as Hi1.
    rewrite <- (navKey_sameConfig p0 p1 k2 Hc1) in H2.
    destruct (nav_exact k2 p1 Hi1 Hw1 H2)
      as (p2 & f2 & E2 & _ & _ & _ & _ & Hmove2).
    exists p1, p2, f1, f2. split; [exact E1|]. split; [exact E2|].
    split; [exact Hm1|]. cbv zeta in Hmove1, Hmove2.
    unfold navKey in H1, H2.
    split.
    - destruct (Code k1); try discriminate; apply Hmove1.
    - destruct (Code k2); try discriminate; apply Hmove2. }
  destruct Hw as (W1 & W2 & W3 & W4 & W5).
  split.
  - destruct (Hstep down up Hkd Hku)
      as (p1 & p2 & f1 & f2 & E1 & E2 & Hm & H1 & H2).
    exists p2. eexists. rewrite (Show_extend _ _ _ _ _ _ HS). simpl.
    rewrite E1, E2. split; [reflexivity|].
    rewrite H2, H1, Hm. unfold focusDown, focusUp.
    destruct Hd as [-> | ->], Hu as [-> | ->];
      destruct (Z.ltb_spec (selectedOption p0)
                  (len (fuzzySearchMatches p0) - 1)); zcases; lia.
  - destruct (Hstep up down Hku Hkd)
      as (p1 & p2 & f1 & f2 & E1 & E2 & Hm & H1 & H2).
    exists p2. eexists. rewrite (Show_extend _ _ _ _ _ _ HS). simpl.
    rewrite E1, E2. split; [reflexivity|].
    rewrite H2, H1, Hm. unfold focusDown, focusUp.
    destruct Hd as [-> | ->], Hu as [-> | ->];
      destruct (Z.ltb_spec 0 (selectedOption p0)); zcases; lia.
Qed.

Lemma backspace_exact (k : Key) (p : Printer T) :
  Inv p ->
  Code k = Backspace -> KeyConfirm p <> Backspace -> KeySelect p <> Backspace ->
  exists p' f,
    handleKey k p = Ok (Continue, p', [f])
    /\ fuzzySearchString p'
       = (if 0 <? Z.of_nat (String.length (fuzzySearchString p))
          then dropLastRune (fuzzySearchString p) else fuzzySearchString p)
    /\ fuzzySearchMatches p'
       = computeMatches (setFuzzySearchString (fuzzySearchString p') p)
    /\ selectedOption p' = 0
    /\ displayedOptionsStart p' = 0
    /\ displayedOptionsEnd p'
       = Z.min (MaxHeight p) (len (fuzzySearchMatches p'))
    /\ selectedOptions p' = selectedOptions p.
Proof.
  intros (Hh & Hv & Hm) Hk Hc Hs. unfold handleKey. cbv zeta.
  destruct (rebind k p Backspace Hk Hc Hs) as [-> ->]. rewrite Hk.
  match goal with |- context [bind (renderSelectMenu ?q)] =>
    remember q as q0 eqn:Eq
  end.
  assert (Hq : validSel q0 /\ MaxHeight q0 = MaxHeight p
               /\ selectedOptions q0 = selectedOptions p
               /\ computeMatches q0
                  = computeMatches
                      (setFuzzySearchString
                         (if 0 <? Z.of_nat (String.length (fuzzySearchString p))
                          then dropLastRune (fuzzySearchString p)
                          else fuzzySearchString p) p)
               /\ fuzzySearchString q0
                  = (if 0 <? Z.of_nat (String.length (fuzzySearchString p))
                     then dropLastRune (fuzzySearchString p)
                     else fuzzySearchString p)).
  { rewrite Eq.
    repeat match goal with
           | |- context [if ?b then _ else _] => destruct b
           end; repeat split; exact Hv. }
  clear Eq. destruct Hq as (Hq & Hmax & Hsel & Hcm & Hqs).
  destruct (renderSelectMenu_valid q0 Hq) as [f0 Hf]. rewrite Hf. simpl.
  rewrite checkSlice_ok by (rewrite ?Hmax; bounds). simpl.
  match goal with |- context [renderSelectMenu ?q'] =>
    destruct (renderSelectMenu_valid q' Hq) as [f1 Hf1]; rewrite Hf1
  end.
  simpl. do 2 eexists. split; [reflexivity|]. simpl.
  change (computeMatches (setSelectedOption _ _)) with (computeMatches q0).
  change (computeMatches (setDisplayed _ _ _)) with (computeMatches q0).
  rewrite Hqs, Hmax, Hcm.
  repeat split; try assumption.
  destruct (Z.gtb_spec
              (len (computeMatches
                      (setFuzzySearchString
                         (if 0 <? Z.of_nat (String.length (fuzzySearchString p))
                          then dropLastRune (fuzzySearchString p)
                          else fuzzySearchString p) p)))
              (MaxHeight p)); lia.
Qed.

(** X11.  Whatever the query, a backspace that reaches it removes its last
    rune (or leaves an empty query empty), filters the candidates again and
    only then resets the view: afterwards the filtered list is the one of the
    new query, the focus is 0 and the window is
    [0, min(MaxHeight, len(filtered list))); the selection set is kept. *)
Theorem backspace_refilters_then_resets_view (p p0 : Printer T)
    (areaFails : bool) (events : list Event) (frames0 : list Frame) (k : Key) :
  Show p areaFails events = Listening p0 frames0 ->
  Code k = Backspace ->
  KeyConfirm p0 <> Backspace -> KeySelect p0 <> Backspace ->
  exists p1 frames1,
    Show p areaFails (events ++ [Pressed k]) = Listening p1 frames1
    /\ fuzzySearchString p1
       = (if 0 <? Z.of_nat (String.length (fuzzySearchString p0))
          then dropLastRune (fuzzySearchString p0) else fuzzySearchString p0)
    /\ fuzzySearchMatches p1
       = computeMatches (setFuzzySearchString (fuzzySearchString p1) p0)
    /\ selectedOption p1 = 0
    /\ displayedOptionsStart p1 = 0
    /\ displayedOptionsEnd p1
       = Z.min (MaxHeight p0) (len (fuzzySearchMatches p1))
    /\ selectedOptions p1 = selectedOptions p0.
Proof.
  intros HS Hk Hc Hs. pose proof (Show_Inv _ _ _ _ _ HS) as Hi.
  destruct (backspace_exact k p0 Hi Hk Hc Hs) as (p1 & f & E & Hrest).
  exists p1, (frames0 ++ [f]).
  rewrite (Show_extend _ _ _ _ _ _ HS). simpl. rewrite E.
  split; [reflexivity|exact Hrest].
Qed.

Lemma rune_exact (k : Key) (p : Printer T) :
  Inv p -> Filter p = true ->
  Code k = RuneKey -> KeyConfirm p <> RuneKey -> KeySelect p <> RuneKey ->
  exists p' f,
    handleKey k p = Ok (Continue, p', [f])
    /\ fuzzySearchString p'
       = String.append (fuzzySearchString p) (keyString k)
    /\ selectedOptions p' = selectedOptions p
    /\ sameConfig p p'.
Proof.
  intros (Hh & Hv & Hm) Hf Hk Hc Hs. unfold handleKey. cbv zeta.
  destruct (rebind k p RuneKey Hk Hc Hs) as [-> ->]. rewrite Hk, Hf.
  rewrite checkSlice_ok by bounds. simpl.
  match goal with |- context [renderSelectMenu ?q] =>
    destruct (renderSelectMenu_valid q Hv) as [f ->]
  end.
  simpl. do 2 eexists. split; [reflexivity|]. repeat split.
Qed.

(** X12.  Typing one character and deleting it again is a round trip for
    the filter: in a running session with filtering on, a rune key that
    carries a single (possibly multi-byte) character followed by a backspace
    leaves the query and the filtered list as they were, and the selection
    set untouched; only the focus and the window are reset. *)
Theorem rune_then_backspace_restores_filter (p p0 : Printer T)
    (areaFails : bool) (events : list Event) (frames0 : list Frame)
    (rune backspace : Key) :
  Show p areaFails events = Listening p0 frames0 ->
  Filter p0 = true ->
  Code rune = RuneKey -> isSingleRune (keyString rune) = true ->
  KeyConfirm p0 <> RuneKey -> KeySelect p0 <> RuneKey ->
  Code backspace = Backspace ->
  KeyConfirm p0 <> Backspace -> KeySelect p0 <> Backspace ->
  exists p2 frames2,
    Show p areaFails (events ++ [Pressed rune; Pressed backspace])
    = Listening p2 frames2
    /\ fuzzySearchString p2 = fuzzySearchString p0
    /\ fuzzySearchMatches p2 = fuzzySearchMatches p0
    /\ selectedOptions p2 = selectedOptions p0
    /\ selectedOption p2 = 0
    /\ displayedOptionsStart p2 = 0
    /\ displayedOptionsEnd p2
       = Z.min (MaxHeight p0) (len (fuzzySearchMatches p0)).
Proof.
  intros HS Hf Hr Hone Hrc Hrs Hb Hbc Hbs.
  pose proof (Show_Inv _ _ _ _ _ HS) as Hi.
  destruct (rune_exact rune p0 Hi Hf Hr Hrc Hrs)
    as (p1 & f1 & E1 & Hq1 & Hs1 & Hc1).
  pose proof (handleKey_Inv _ _ _ _ _ E1 Hi) as Hi1.
  pose proof Hc1 as (Ho & Hmax & _ & Hstr & Hks & Hkc & _).
  destruct (backspace_exact backspace p1 Hi1 Hb) as
    (p2 & f2 & E2 & Hq2 & Hm2 & Hsel & Hstart & Hend & Hs2);
    [congruence|congruence|].
  rewrite Hq1 in Hq2.
  destruct (Z.ltb_spec 0
              (Z.of_nat (String.length
                           (String.append (fuzzySearchString p0)
                              (keyString rune)))))
    as [_|Hbad];
    [|pose proof (append_single_rune_nonempty (fuzzySearchString p0) _ Hone);
      lia].
  rewrite dropLastRune_append in Hq2 by exact Hone.
  assert (Hm : fuzzySearchMatches p2 = fuzzySearchMatches p0).
  { rewrite Hm2, Hq2. destruct Hi as (_ & _ & ->).
    unfold computeMatches. simpl. rewrite Ho, Hstr. reflexivity. }
  exists p2, ((frames0 ++ [f1]) ++ [f2]).
  rewrite (Show_extend _ _ _ _ _ _ HS). simpl. rewrite E1, E2.
  split; [reflexivity|]. split; [exact Hq2|]. split; [exact Hm|].
  split; [congruence|]. split; [exact Hsel|]. split; [exact Hstart|].
  rewrite Hend, Hm, Hmax. reflexivity.
Qed.

Lemma renderRows_labels (p : Printer T) (matches : list string) :
  forall (i : Z) (rows : list Row),
    renderRows p i matches = Ok rows ->
    map label rows
    = drawn (visible (displayedOptionsStart p - i)
               (displayedOptionsEnd p - i) matches)
    /\ Forall (fun r => exists b, checked r = Some b
                                  /\ isSelected p (label r) = Ok b) rows.
Proof.
  induction matches as [|m rest IH]; intros i rows E; simpl in E.
  - injection E as <-. rewrite visible_nil. split; [reflexivity|constructor].
  - rewrite visible_cons.
    replace (displayedOptionsStart p - i <=? 0)
      with (displayedOptionsStart p <=? i)
      by (destruct (Z.leb_spec (displayedOptionsStart p) i),
                   (Z.leb_spec (displayedOptionsStart p - i) 0);
          reflexivity || lia).
    replace (0 <? displayedOptionsEnd p - i)
      with (i <? displayedOptionsEnd p)
      by (destruct (Z.ltb_spec i (displayedOptionsEnd p)),
                   (Z.ltb_spec 0 (displayedOptionsEnd p - i));
          reflexivity || lia).
    replace (displayedOptionsStart p - i - 1)
      with (displayedOptionsStart p - (i + 1)) by lia.
    replace (displayedOptionsEnd p - i - 1)
      with (displayedOptionsEnd p - (i + 1)) by lia.
    destruct ((displayedOptionsStart p <=? i) && (i <? displayedOptionsEnd p)).
    + unfold drawn. simpl. fold (drawn (visible (displayedOptionsStart p - (i + 1))
                                          (displayedOptionsEnd p - (i + 1)) rest)).
      destruct (String.eqb m "") eqn:Em; simpl.
      * apply IH. exact E.
      * destruct (isSelected p m) as [b|] eqn:Es; [|discriminate]. simpl in E.
        destruct (renderRows p (i + 1) rest) as [rs|] eqn:Er; [|discriminate].
        simpl in E. injection E as <-. destruct (IH _ _ Er) as [Hl Hc].
        simpl. split; [f_equal; exact Hl|].
        constructor; [exists b; auto|exact Hc].
    + simpl in E. apply IH. exact E.
Qed.

(** X13.  What a render draws: the rows of the menu are, in order, the
    non-empty texts of filtered[start:end] (the window clipped to the
    filtered list), each with the checkmark [isSelected] gives its text; an
    entry whose display text is empty is never drawn.  The "you have
    selected" line is present exactly when the selection set is not empty,
    and the header carries the query. *)
Theorem render_draws_the_window (p p' : Printer T) (f : Frame) :
  renderSelectMenu p = Ok (p', f) ->
  exists rows summary,
    f = Menu (Some (fuzzySearchString p)) rows summary
    /\ map label rows
       = drawn (visible (displayedOptionsStart p) (displayedOptionsEnd p)
                  (computeMatches p))
    /\ Forall (fun r => exists b, checked r = Some b
                                  /\ isSelected p (label r) = Ok b) rows
    /\ (selectedOptions p = [] -> summary = None)
    /\ (selectedOptions p <> [] ->
        exists texts, summary = Some texts
                      /\ getSelectedOptionsStr p = Ok texts).
Proof.
  unfold renderSelectMenu. cbv zeta. intros E.
  destruct (renderRows _ 0 _) as [rows|] eqn:Er; [|discriminate]. simpl in E.
  apply renderRows_labels in Er as [Hl Hc]. simpl in Hl.
  rewrite !Z.sub_0_r in Hl.
  destruct (Z.ltb_spec 0 (len (selectedOptions p))) as [Hpos|Hz].
  - simpl in E.
    destruct (getSelectedOptionsStr _) as [texts|] eqn:Et; [|discriminate].
    simpl in E. injection E as <- <-.
    exists rows, (Some texts). split; [reflexivity|]. split; [exact Hl|].
    split; [exact Hc|]. split.
    + intros En. rewrite En in Hpos. unfold len in Hpos. simpl in Hpos. lia.
    + intros _. exists texts. split; reflexivity.
  - simpl in E. injection E as <- <-.
    exists rows, None. split; [reflexivity|]. split; [exact Hl|].
    split; [exact Hc|]. split; [reflexivity|].
    intros Hne. exfalso. apply Hne. apply len_nil_iff.
    pose proof (len_nonneg (selectedOptions p)). lia.
Qed.

(** X14.  When the up key slides the window it moves it by exactly one row:
    the branch that clamps a negative start back to [0, maxHeight) is never
    taken, because the focus that has just been decremented is not negative
    and lies below the start. *)
Theorem up_slide_never_clamps (k : Key) (p p' : Printer T) (sig : Signal)
    (fs : list Frame) :
  handleKey k p = Ok (sig, p', fs) ->
  navKey p k = true -> (Code k = Up \/ Code k = CtrlP) ->
  fuzzySearchMatches p <> [] ->
  0 < selectedOption p -> selectedOption p - 1 < displayedOptionsStart p ->
  selectedOption p' = selectedOption p - 1
  /\ displayedOptionsStart p' = displayedOptionsStart p - 1
  /\ displayedOptionsEnd p' = displayedOptionsEnd p - 1
  /\ 0 <= displayedOptionsStart p'.
Proof.
  unfold handleKey, navKey. intros E Hk Hc Hne Hpos Hlow. cbv zeta in E.
  assert (Hl : len (fuzzySearchMatches p) <> 0) by (rewrite len_nil_iff; exact Hne).
  destruct (KeyCode_eqb (Code k) (KeyConfirm p));
    [destruct (Code k); discriminate|].
  destruct (KeyCode_eqb (Code k) (KeySelect p));
    [destruct (Code k); discriminate|].
  destruct (Z.eqb_spec (len (fuzzySearchMatches p)) 0) as [|_]; [contradiction|].
  destruct (Z.ltb_spec 0 (selectedOption p)) as [_|]; [|lia].
  simpl in E.
  destruct (Z.ltb_spec (selectedOption p - 1) (displayedOptionsStart p))
    as [_|]; [|lia].
  simpl in E.
  destruct (Z.ltb_spec (displayedOptionsStart p - 1) 0) as [|_]; [lia|].
  destruct Hc as [Hc|Hc]; rewrite Hc in E; unbind;
    match goal with
    | R : renderSelectMenu ?q = Ok _ |- _ =>
        apply renderSelectMenu_inv in R as [-> _]
    end; simpl; repeat split; lia.
Qed.

(** X15.  A window left stale by the space key can make the up key panic:
    in a running session whose focus is positive and below the start of the
    window, the up key slides the window and slices the filtered list with
    the new bounds; when the new end exceeds the capacity of the filtered
    list, [Show] panics. *)
Theorem up_on_stale_window_panics (p p0 : Printer T) (areaFails : bool)
    (events more : list Event) (frames0 : list Frame) (k : Key) :
  Show p areaFails events = Listening p0 frames0 ->
  navKey p0 k = true -> (Code k = Up \/ Code k = CtrlP) ->
  fuzzySearchMatches p0 <> [] ->
  0 < selectedOption p0 ->
  selectedOption p0 - 1 < displayedOptionsStart p0 ->
  capOf (fuzzySearchMatches p0) < displayedOptionsEnd p0 - 1 ->
  Show p areaFails (events ++ Pressed k :: more) = Panicked.
Proof.
  intros HS Hk Hc Hne Hpos Hlow Hcap.
  rewrite (Show_extend _ _ _ _ _ _ HS). simpl.
  assert (E : handleKey k p0 = Panic); [|rewrite E; reflexivity].
  unfold handleKey, navKey in *. cbv zeta.
  assert (Hl : len (fuzzySearchMatches p0) <> 0) by (rewrite len_nil_iff; exact Hne).
  destruct (KeyCode_eqb (Code k) (KeyConfirm p0));
    [destruct (Code k); discriminate|].
  destruct (KeyCode_eqb (Code k) (KeySelect p0));
    [destruct (Code k); discriminate|].
  destruct (Z.eqb_spec (len (fuzzySearchMatches p0)) 0) as [|_]; [contradiction|].
  destruct (Z.ltb_spec 0 (selectedOption p0)) as [_|]; [|lia].
  simpl.
  destruct (Z.ltb_spec (selectedOption p0 - 1) (displayedOptionsStart p0))
    as [_|]; [|lia].
  simpl.
  destruct (Z.ltb_spec (displayedOptionsStart p0 - 1) 0) as [|_]; [lia|].
  simpl. unfold checkSlice.
  destruct (Z.leb_spec (displayedOptionsEnd p0 - 1) (capOf (fuzzySearchMatches p0)));
    [lia|].
  rewrite !Bool.andb_false_r. destruct Hc as [-> | ->]; reflexivity.
Qed.

Lemma Stop_needs_matches (k : Key) (p p' : Printer T) (fs : list Frame) :
  handleKey k p = Ok (Stop, p', fs) ->
  fuzzySearchMatches p <> [] /\ Code k = KeyConfirm p /\ p' = p.
Proof.
  unfold handleKey. intros E. cbv zeta in E.
  destruct (KeyCode_eqb (Code k) (KeyConfirm p)) eqn:C.
  - apply KeyCode_eqb_eq in C.
    destruct (Z.eqb_spec (len (fuzzySearchMatches p)) 0); [discriminate|].
    unbind. split; [|auto]. intros Hn. rewrite Hn in *. auto.
  - destruct (KeyCode_eqb (Code k) (KeySelect p)); [unbind|].
    destruct (Code k); unbind.
Qed.

(** X16.  [NewGenericInteractiveMultiselect(options)] stores the options
    but not their display texts; and a printer whose candidate store is
    empty can never be confirmed: whatever keys arrive, [Show] does not
    return a confirmed result (the ranking of an empty candidate list being
    empty, the filtered list stays empty and the confirm key stays a
    no-op). *)
Theorem empty_candidate_store_never_confirms (p : Printer T) :
  (forall options : list T,
      optionsStr (NewGenericInteractiveMultiselect options) = [])
  /\ (optionsStr p = [] ->
      (forall query, RankFindFold query [] = []) -> sortRanks [] = [] ->
      forall areaFails events v p' frames,
        Show p areaFails events <> Returned false v p' frames).
Proof.
  split; [reflexivity|].
  intros Hs Hrank Hsort areaFails events v p' frames.
  set (J := fun q : Printer T => fuzzySearchMatches q = [] /\ optionsStr q = []).
  assert (Hcm : forall q : Printer T, optionsStr q = [] -> computeMatches q = []).
  { intros q Hq. unfold computeMatches. rewrite Hq, Hrank. simpl.
    destruct (negb _); [rewrite Hsort|]; reflexivity. }
  assert (Hstep : forall k q sig q' fs,
             handleKey k q = Ok (sig, q', fs) -> J q -> J q').
  { intros k q sig q' fs E [Hm Ho].
    apply handleKey_shape in E as [->|(q0 & -> & _ & Hc)]; [split; assumption|].
    destruct Hc as (_ & _ & _ & Hstr & _). rewrite Ho in Hstr.
    split; simpl; auto. }
  assert (HL : forall evs q fr q' fr',
             J q -> Listen handleKey evs q fr <> Stopped false q' fr').
  { induction evs as [|e evs IH]; intros q fr q' fr' HJ; simpl; [discriminate|].
    destruct e as [k|]; [|discriminate].
    destruct (handleKey k q) as [[[sig q1] fs]|] eqn:E; [|discriminate].
    destruct sig.
    - apply IH. eapply Hstep; eauto.
    - apply Stop_needs_matches in E as [Hne _]. destruct HJ. contradiction.
    - discriminate. }
  unfold Show. cbv zeta.
  match goal with |- context [len (Options ?q) =? 0] => set (pn := q) end.
  assert (Hpn : optionsStr pn = []).
  { unfold pn. destruct (MaxHeight _ =? 0); simpl; exact Hs. }
  destruct (len (Options pn) =? 0); [discriminate|].
  destruct (checkSlice _ _ _); [|discriminate].
  destruct (renderSelectMenu _) as [[p1 f0]|] eqn:R0; [|discriminate].
  destruct areaFails; [discriminate|].
  destruct (Filter p1 && _); [discriminate|].
  destruct (renderSelectMenu p1) as [[p2 f1]|] eqn:R1; [|discriminate].
  apply renderSelectMenu_inv in R0 as [-> _].
  apply renderSelectMenu_inv in R1 as [-> _].
  match goal with |- context [Listen handleKey events ?q ?fr] =>
    pose proof (HL events q fr) as HL';
    destruct (Listen handleKey events q fr) as [c q' fr'|fr'| |q' fr'] eqn:EL
  end; try discriminate.
  destruct (getSelectedOptions q'); [|discriminate].
  intros [= -> _ _ _]. eapply HL'; [|reflexivity].
  split; simpl; auto.
Qed.

(** X17.  The interrupt key stops the loop at once: nothing more is
    rendered, the events that follow are never read, and the return
    statement of [Show] yields the Options chosen so far together with a nil
    error, [cancel()] having been called. *)
Theorem interrupt_returns_current_selection (p p0 : Printer T)
    (areaFails : bool) (events more : list Event) (frames0 : list Frame)
    (k : Key) :
  Show p areaFails events = Listening p0 frames0 ->
  Code k = CtrlC -> KeyConfirm p0 <> CtrlC -> KeySelect p0 <> CtrlC ->
  len (optionsStr p0) <= len (Options p0) ->
  exists chosen,
    Show p areaFails (events ++ Pressed k :: more)
    = Returned true chosen p0 frames0
    /\ Forall2 (fun i o => index (Options p0) i = Ok o)
         (selectedOptions p0) chosen.
Proof.
  intros HS Hk Hc Hs Hl. pose proof (Show_Inv _ _ _ _ _ HS) as (_ & Hv & _).
  destruct (collect_valid (Options p0) (selectedOptions p0)) as [r Hr].
  { eapply Forall_impl; [|exact Hv]. simpl. intros; lia. }
  exists r. rewrite (Show_extend _ _ _ _ _ _ HS). simpl.
  unfold handleKey. cbv zeta.
  destruct (rebind k p0 CtrlC Hk Hc Hs) as [-> ->]. rewrite Hk.
  rewrite app_nil_r. unfold getSelectedOptions. rewrite Hr.
  split; [reflexivity|]. apply collect_Forall2. exact Hr.
Qed.

Lemma Show_start_config (p ps : Printer T) (areaFails : bool)
    (frames : list Frame) :
  Show p areaFails [] = Listening ps frames ->
  sameConfig (setMaxHeight (startHeight p) p) ps.
Proof.
  unfold Show. cbv zeta.
  match goal with |- context [len (Options ?q) =? 0] => set (pn := q) end.
  assert (Hpn : sameConfig (setMaxHeight (startHeight p) p) pn).
  { unfold pn, startHeight. simpl. destruct (MaxHeight p =? 0) eqn:E;
      repeat split. }
  clearbody pn.
  destruct (len (Options pn) =? 0); [discriminate|].
  destruct (checkSlice _ _ _); [|discriminate].
  destruct (renderSelectMenu _) as [[p1 f0]|] eqn:R0; [|discriminate].
  destruct areaFails; [discriminate|].
  destruct (Filter p1 && _); [discriminate|].
  destruct (renderSelectMenu p1) as [[p2 f1]|] eqn:R1; [|discriminate].
  apply renderSelectMenu_inv in R0 as [-> _].
  apply renderSelectMenu_inv in R1 as [-> _].
  simpl. intros [= <- _]. exact Hpn.
Qed.

Lemma Show_returned (p p0 : Printer T) (areaFails canceled : bool)
    (events : list Event) (chosen : list T) (frames0 : list Frame) :
  Show p areaFails events = Returned canceled chosen p0 frames0 ->
  exists ps frames,
    Show p areaFails [] = Listening ps frames
    /\ Listen handleKey events ps frames = Stopped canceled p0 frames0
    /\ getSelectedOptions p0 = Ok chosen.
Proof.
  unfold Show. cbv zeta.
  destruct (len (Options _) =? 0); [discriminate|].
  destruct (checkSlice _ _ _); [|discriminate].
  destruct (renderSelectMenu _) as [[p1 f0]|]; [|discriminate].
  destruct areaFails; [discriminate|].
  destruct (Filter p1 && _); [discriminate|].
  destruct (renderSelectMenu p1) as [[p2 f1]|]; [|discriminate].
  intros E. exists p2, [f0; f1]. split; [reflexivity|].
  destruct (Listen handleKey events p2 [f0; f1]) as [c q fr|fr| |q fr];
    try discriminate.
  destruct (getSelectedOptions q) as [r|] eqn:Er; [|discriminate].
  injection E as -> -> -> ->. split; [reflexivity|exact Er].
Qed.

(** X18.  A session never reconfigures the printer: whenever [Show] is
    listening, or has returned, the options, the candidate store, the filter
    switch, the key bindings and the select-all and clear-all switches are
    those it was called with, and the height is the one it started from (the
    default in place of 0).  Besides, the filtered list the printer holds is
    always the ranking of the candidate store for the query it holds, and
    every chosen index points into the candidate store. *)
Theorem session_keeps_configuration (p p0 : Printer T) (areaFails : bool)
    (events : list Event) :
  (exists frames, Show p areaFails events = Listening p0 frames)
  \/ (exists canceled chosen frames,
         Show p areaFails events = Returned canceled chosen p0 frames) ->
  sameConfig (setMaxHeight (startHeight p) p) p0
  /\ fuzzySearchMatches p0 = computeMatches p0
  /\ validSel p0.
Proof.
  set (I := fun q : Printer T =>
              sameConfig (setMaxHeight (startHeight p) p) q /\ Inv q).
  assert (Hstep : forall k q sig q' fs,
             handleKey k q = Ok (sig, q', fs) -> I q -> I q').
  { intros k q sig q' fs E [Hc Hi]. split.
    - eapply sameConfig_trans; [exact Hc|].
      eapply handleKey_sameConfig; eauto.
    - eapply handleKey_Inv; eauto. }
  assert (Hstart : forall ps frs,
             Show p areaFails [] = Listening ps frs -> I ps).
  { intros ps frs HS. split; [eapply Show_start_config; eauto|].
    eapply Show_Inv; eauto. }
  assert (Hall : I p0 -> sameConfig (setMaxHeight (startHeight p) p) p0
                         /\ fuzzySearchMatches p0 = computeMatches p0
                         /\ validSel p0).
  { intros [Hc (_ & Hv & Hm)]. auto. }
  intros [[frames HS]|(c & v & frames & HS)]; apply Hall.
  - destruct (Show_session _ _ _ _ _ HS) as (ps & frs & Hs0 & _ & HL).
    eapply (Listen_Pending_inv handleKey I); eauto.
  - destruct (Show_returned _ _ _ _ _ _ _ HS) as (ps & frs & Hs0 & HL & _).
    eapply (Listen_Stopped_inv handleKey I); eauto.
Qed.

(** The checks [Show] has passed when it is listening. *)
Lemma Show_start_checks (p ps : Printer T) (areaFails : bool)
    (frames : list Frame) :
  Show p areaFails [] = Listening ps frames ->
  Options p <> []
  /\ Filter p && (KeyCode_eqb (KeyConfirm p) Space
                  || KeyCode_eqb (KeySelect p) Space) = false.
Proof.
  unfold Show. cbv zeta.
  match goal with |- context [len (Options ?q) =? 0] => set (pn := q) end.
  assert (Hpn : Options pn = Options p /\ Filter pn = Filter p
                /\ KeyConfirm pn = KeyConfirm p /\ KeySelect pn = KeySelect p).
  { unfold pn. destruct (MaxHeight _ =? 0); repeat split. }
  clearbody pn. destruct Hpn as (Ho & Hf & Hkc & Hks).
  destruct (Z.eqb_spec (len (Options pn)) 0) as [|Hne]; [discriminate|].
  destruct (checkSlice _ _ _); [|discriminate].
  destruct (renderSelectMenu _) as [[p1 f0]|] eqn:R0; [|discriminate].
  destruct areaFails; [discriminate|].
  apply renderSelectMenu_inv in R0 as [-> _]. simpl.
  destruct (Filter pn && _) eqn:C; [discriminate|].
  intros _. split.
  - rewrite <- Ho. intros E. apply Hne. rewrite E. reflexivity.
  - rewrite <- Hf, <- Hkc, <- Hks. exact C.
Qed.

(** How [Show] enters the loop, whatever focus and query the printer
    holds. *)
Lemma Show_enter (p : Printer T) :
  Options p <> [] -> validSel p -> 0 <= startHeight p ->
  Filter p && (KeyCode_eqb (KeyConfirm p) Space
               || KeyCode_eqb (KeySelect p) Space) = false ->
  exists f0 f1,
    Show p false []
    = Listening
        (setFuzzySearchMatches (computeMatches p)
           (setDisplayed 0 (Z.min (startHeight p) (len (optionsStr p)))
              (setMaxHeight (startHeight p) p)))
        [f0; f1].
Proof.
  intros Hne Hv Hh Hkeys. unfold Show. cbv zeta.
  match goal with |- context [len (Options ?q) =? 0] => set (pn := q) end.
  assert (Hpn : pn = setMaxHeight (startHeight p)
                       (setFuzzySearchMatches (optionsStr p) p)).
  { unfold pn, startHeight. simpl.
    destruct (MaxHeight p =? 0) eqn:E; [reflexivity|].
    destruct p; reflexivity. }
  clearbody pn. subst pn. simpl.
  destruct (Z.eqb_spec (len (Options p)) 0) as [E|_];
    [apply len_nil_iff in E; contradiction|].
  assert (Hmin : (if startHeight p >? len (optionsStr p)
                  then len (optionsStr p) else startHeight p)
                 = Z.min (startHeight p) (len (optionsStr p)))
    by (destruct (Z.gtb_spec (startHeight p) (len (optionsStr p))); lia).
  rewrite Hmin. pose proof (len_nonneg (optionsStr p)).
  rewrite checkSlice_ok by lia.
  match goal with |- context [renderSelectMenu ?q] =>
    destruct (renderSelectMenu_valid q Hv) as [f0 Hr0]; rewrite Hr0
  end.
  simpl. rewrite Hkeys.
  match goal with |- context [renderSelectMenu ?q] =>
    destruct (renderSelectMenu_valid q Hv) as [f1 Hr1]; rewrite Hr1
  end.
  simpl. exists f0, f1. reflexivity.
Qed.

(** X19.  [Show] never clears what a session leaves in the printer: called
    again on the printer a first call has returned with, it starts listening
    with the selection set, the query, the filtered list and the focus of the
    first call, and only the window is reset, to
    [0, min(MaxHeight, number of candidates)), which is measured against the
    candidate store and not against the filtered list.  The confirm key
    pressed at once returns what the first call returned. *)
Theorem second_Show_resumes_the_first (p p1 : Printer T)
    (areaFails canceled : bool) (events more : list Event) (chosen : list T)
    (frames : list Frame) (confirm : Key) :
  Show p areaFails events = Returned canceled chosen p1 frames ->
  exists ps f0 f1,
    Show p1 false [] = Listening ps [f0; f1]
    /\ selectedOptions ps = selectedOptions p1
    /\ fuzzySearchString ps = fuzzySearchString p1
    /\ fuzzySearchMatches ps = fuzzySearchMatches p1
    /\ selectedOption ps = selectedOption p1
    /\ displayedOptionsStart ps = 0
    /\ displayedOptionsEnd ps = Z.min (MaxHeight p1) (len (optionsStr p1))
    /\ (Code confirm = KeyConfirm p1 -> fuzzySearchMatches p1 <> [] ->
        exists frames',
          Show p1 false (Pressed confirm :: more)
          = Returned false chosen ps frames').
Proof.
  intros HS.
  destruct (Show_returned _ _ _ _ _ _ _ HS) as (ps0 & frs & Hs0 & HL & Hch).
  destruct (Show_start_checks _ _ _ _ Hs0) as [Hne Hkeys].
  set (I := fun q : Printer T =>
              sameConfig (setMaxHeight (startHeight p) p) q /\ Inv q).
  assert (HI : I p1).
  { eapply (Listen_Stopped_inv handleKey I); [|exact HL|].
    - intros k q sig q' fs E [Hc Hi]. split.
      + eapply sameConfig_trans; [exact Hc|].
        eapply handleKey_sameConfig; eauto.
      + eapply handleKey_Inv; eauto.
    - split; [eapply Show_start_config; eauto|eapply Show_Inv; eauto]. }
  destruct HI as [(Ho & HM & Hf & Hos & Hks & Hkc & _) (Hh & Hv & Hm)].
  simpl in Ho, HM, Hf, Hos, Hks, Hkc.
  assert (Hsh : startHeight p1 = MaxHeight p1).
  { unfold startHeight. destruct (Z.eqb_spec (MaxHeight p1) 0) as [E|_];
      [|reflexivity].
    rewrite E in HM. unfold startHeight in HM.
    destruct (Z.eqb_spec (MaxHeight p) 0); congruence. }
  destruct (Show_enter p1) as (f0 & f1 & E).
  { rewrite Ho. exact Hne. }
  { exact Hv. }
  { rewrite Hsh. exact Hh. }
  { rewrite Hf, Hkc, Hks. exact Hkeys. }
  rewrite Hsh in E.
  do 3 eexists. split; [exact E|]. simpl.
  split; [reflexivity|]. split; [reflexivity|]. split; [symmetry; exact Hm|].
  split; [reflexivity|]. split; [reflexivity|]. split; [reflexivity|].
  intros Hk Hmne.
  rewrite (Show_resume _ _ _ _ (Pressed confirm :: more) E). simpl.
  rewrite (confirm_step confirm _ chosen);
    [|exact Hk|simpl; rewrite <- Hm; exact Hmne|exact Hch].
  change (getSelectedOptions _) with (getSelectedOptions p1).
  rewrite Hch. eauto.
Qed.

End More.
End MultiselectMore.

(** * Further properties of the single-select engine *)

Module SelectMore.
Import Select SelectFacts.

Section More.
Context {T : Type} `{Stringer T} `{Collaborators}.

Lemma select_renderRows_labels (p : Printer T) (matches : list string) :
  forall i : Z,
    map label (renderRows p i matches)
    = drawn (visible (displayedOptionsStart p - i)
               (displayedOptionsEnd p - i) matches)
    /\ Forall (fun r => checked r = None) (renderRows p i matches).
Proof.
  induction matches as [|m rest IH]; intros i; simpl.
  - rewrite visible_nil. split; [reflexivity|constructor].
  - rewrite visible_cons.
    replace (displayedOptionsStart p - i <=? 0)
      with (displayedOptionsStart p <=? i)
      by (destruct (Z.leb_spec (displayedOptionsStart p) i),
                   (Z.leb_spec (displayedOptionsStart p - i) 0);
          reflexivity || lia).
    replace (0 <? displayedOptionsEnd p - i)
      with (i <? displayedOptionsEnd p)
      by (destruct (Z.ltb_spec i (displayedOptionsEnd p)),
                   (Z.ltb_spec 0 (displayedOptionsEnd p - i));
          reflexivity || lia).
    replace (displayedOptionsStart p - i - 1)
      with (displayedOptionsStart p - (i + 1)) by lia.
    replace (displayedOptionsEnd p - i - 1)
      with (displayedOptionsEnd p - (i + 1)) by lia.
    destruct (IH (i + 1)) as [Hl Hc].
    destruct ((displayedOptionsStart p <=? i) && (i <? displayedOptionsEnd p)).
    + unfold drawn. simpl.
      fold (drawn (visible (displayedOptionsStart p - (i + 1))
                     (displayedOptionsEnd p - (i + 1)) rest)).
      destruct (String.eqb m "") eqn:Em; simpl.
      * split; assumption.
      * split; [f_equal; exact Hl|]. constructor; [reflexivity|exact Hc].
    + simpl. split; assumption.
Qed.

(** X20.  What a single-select render draws and records: the rows of the
    menu are, in order, the non-empty texts of filtered[start:end] (the
    window clipped to the filtered list) and carry no checkmark; the header
    carries the query only when filtering is on; and the text kept for the
    final menu is the focused entry of the new filtered list, or the old text
    when that list is empty.  The render panics exactly when the filtered
    list is not empty and the focus lies outside it. *)
Theorem select_render_draws_the_window (p : Printer T) :
  (focusOk (computeMatches p) p ->
   exists p' rows,
     renderSelectMenu p
     = Ok (p', Menu (if Filter p then Some (fuzzySearchString p) else None)
                 rows None)
     /\ map label rows
        = drawn (visible (displayedOptionsStart p) (displayedOptionsEnd p)
                   (computeMatches p))
     /\ fuzzySearchMatches p' = computeMatches p
     /\ resultOk p'
     /\ (computeMatches p = [] -> result p' = result p))
  /\ (~ focusOk (computeMatches p) p -> renderSelectMenu p = Panic).
Proof.
  split.
  - intros Hf. unfold renderSelectMenu. cbv zeta. simpl.
    destruct (Z.eqb_spec (len (computeMatches p)) 0) as [E|E]; simpl.
    + apply len_nil_iff in E. do 2 eexists. split; [reflexivity|].
      split; [|split; [reflexivity|split; [|reflexivity]]].
      * pose proof (select_renderRows_labels
                      (setFuzzySearchMatches (computeMatches p) p)
                      (computeMatches p) 0) as [Hl _].
        simpl in Hl. rewrite !Z.sub_0_r in Hl. exact Hl.
      * intros Hne. simpl in Hne. contradiction.
    + assert (Hne : computeMatches p <> [])
        by (intros E'; apply E; rewrite E'; reflexivity).
      destruct (index_valid (computeMatches p) (selectedOption p) (Hf Hne))
        as [r Hr].
      rewrite Hr. simpl. do 2 eexists. split; [reflexivity|].
      split; [|split; [reflexivity|split; [|contradiction]]].
      * pose proof (select_renderRows_labels
                      (setResult r (setFuzzySearchMatches (computeMatches p) p))
                      (computeMatches p) 0) as [Hl _].
        simpl in Hl. rewrite !Z.sub_0_r in Hl. exact Hl.
      * intros _. simpl. exact Hr.
  - intros Hn. destruct (renderSelectMenu p) as [[p' f]|] eqn:E; [|reflexivity].
    exfalso. apply Hn.
    apply select_renderSelectMenu_inv in E as (r & _ & Hf). exact Hf.
Qed.

Lemma select_render_resultOk (p p' : Printer T) (f : Frame) :
  renderSelectMenu p = Ok (p', f) -> resultOk p'.
Proof.
  unfold renderSelectMenu. intros E. cbv zeta in E. unbind.
  - intros _. simpl. assumption.
  - intros Hne. simpl in *. apply Bool.negb_false_iff in C.
    apply Z.eqb_eq in C. apply len_nil_iff in C. contradiction.
Qed.

Lemma select_handleKey_resultOk (k : Key) (p p' : Printer T) (sig : Signal)
    (fs : list Frame) :
  handleKey k p = Ok (sig, p', fs) -> resultOk p -> resultOk p'.
Proof.
  unfold handleKey. intros E Hp. cbv zeta in E.
  destruct (Code k); unbind; auto.
  all: match goal with
       | R : renderSelectMenu ?q = Ok (?q', _) |- resultOk ?q' =>
           exact (select_render_resultOk _ _ _ R)
       end.
Qed.

Lemma select_Show_resultOk (p p0 : Printer T) (areaFails : bool)
    (events : list Event) (frames0 : list Frame) :
  Show p areaFails events = Listening p0 frames0 -> resultOk p0.
Proof.
  intros HS. destruct (select_Show_session _ _ _ _ _ HS)
    as (ps & frs & Hs0 & _ & HL).
  eapply (Listen_Pending_inv handleKey resultOk); eauto.
  - intros. eapply select_handleKey_resultOk; eauto.
  - revert Hs0. unfold Show. cbv zeta.
    destruct (len (Options _) =? 0); [discriminate|].
    destruct (checkSlice _ _ _); [|discriminate].
    match goal with |- context [if negb ?b then ?x else ?y] =>
      destruct (if negb b then x else y) as [pd|]; [|discriminate]
    end.
    destruct (renderSelectMenu pd) as [[p1 f0]|]; [|discriminate].
    destruct areaFails; [discriminate|].
    destruct (renderSelectMenu p1) as [[p2 f1]|] eqn:R1; [|discriminate].
    simpl. intros [= <- _]. eapply select_render_resultOk; eauto.
Qed.

(** X21.  In a running single-select session, Enter on a non-empty filtered
    list always ends [Show] with a value and never with a panic, provided the
    filtered list is no longer than the option list: the final menu shows the
    focused entry of the filtered list, nothing that follows is read, and the
    value returned is the Option at the focus index. *)
Theorem select_enter_ends_the_session (p p0 : Printer T) (areaFails : bool)
    (events more : list Event) (frames0 : list Frame) (k : Key) :
  Show p areaFails events = Listening p0 frames0 ->
  Code k = Enter -> fuzzySearchMatches p0 <> [] ->
  len (fuzzySearchMatches p0) <= len (Options p0) ->
  exists v shown,
    Show p areaFails (events ++ Pressed k :: more)
    = Returned false v p0
        (frames0 ++ [Finished (fuzzySearchString p0) [shown]])
    /\ index (fuzzySearchMatches p0) (selectedOption p0) = Ok shown
    /\ index (Options p0) (selectedOption p0) = Ok v.
Proof.
  intros HS Hk Hne Hl.
  pose proof (select_Show_Inv _ _ _ _ _ HS) as (_ & _ & Hf).
  pose proof (select_Show_resultOk _ _ _ _ _ HS Hne) as Hr.
  destruct (index_valid (Options p0) (selectedOption p0)) as [v Hv].
  { specialize (Hf Hne). lia. }
  exists v, (result p0). rewrite (select_Show_extend _ _ _ _ _ _ HS). simpl.
  unfold handleKey. cbv zeta. rewrite Hk.
  destruct (Z.eqb_spec (len (fuzzySearchMatches p0)) 0) as [E|_];
    [apply len_nil_iff in E; contradiction|].
  rewrite Hv. unfold renderFinishedMenu. auto.
Qed.

(** X22.  The interrupt key stops the single-select loop at once: nothing
    more is rendered, the events that follow are never read, and the return
    statement of [Show] yields the Option at the focus index together with a
    nil error, [cancel()] having been called; with a focus outside the option
    list the return statement panics instead. *)
Theorem select_interrupt_returns_option_at_focus (p p0 : Printer T)
    (areaFails : bool) (events more : list Event) (frames0 : list Frame)
    (k : Key) :
  Show p areaFails events = Listening p0 frames0 ->
  Code k = CtrlC ->
  Show p areaFails (events ++ Pressed k :: more)
  = match index (Options p0) (selectedOption p0) with
    | Ok v => Returned true v p0 frames0
    | Panic => Panicked
    end.
Proof.
  intros HS Hk. rewrite (select_Show_extend _ _ _ _ _ _ HS). simpl.
  unfold handleKey. cbv zeta. rewrite Hk. rewrite app_nil_r. reflexivity.
Qed.

Lemma firstIndex_Some (opts : list string) (text : string) :
  forall i0 i,
    firstIndex i0 opts text = Some i ->
    i0 <= i < i0 + len opts
    /\ nth_error opts (Z.to_nat (i - i0)) = Some text
    /\ forall j, i0 <= j < i -> nth_error opts (Z.to_nat (j - i0)) <> Some text.
Proof.
  unfold len. induction opts as [|o opts IH]; intros i0 i E; simpl in E;
    [discriminate|].
  destruct (String.eqb_spec o text) as [->|Hne].
  - injection E as <-. rewrite Z.sub_diag. simpl.
    split; [lia|]. split; [reflexivity|]. intros j Hj. lia.
  - destruct (IH _ _ E) as (Hr & Hn & Hfirst). simpl List.length.
    split; [lia|]. split.
    + replace (Z.to_nat (i - i0)) with (S (Z.to_nat (i - (i0 + 1)))) by lia.
      exact Hn.
    + intros j Hj. destruct (Z.eq_dec j i0) as [->|Hd].
      * rewrite Z.sub_diag. simpl. congruence.
      * replace (Z.to_nat (j - i0)) with (S (Z.to_nat (j - (i0 + 1)))) by lia.
        apply Hfirst. lia.
Qed.

Lemma firstIndex_In (opts : list string) (text : string) :
  In text opts -> forall i0, exists i, firstIndex i0 opts text = Some i.
Proof.
  induction opts as [|o opts IH]; intros Hin i0; [contradiction|]. simpl.
  destruct (String.eqb_spec o text) as [->|Hne]; [eauto|].
  destruct Hin as [|Hin]; [contradiction|]. apply IH. exact Hin.
Qed.

Lemma placeDefault_spec (maxHeight : Z) (opts : list string) :
  forall (i0 : Z) (p : Printer T),
    placeDefault maxHeight i0 opts p
    = match firstIndex i0 opts (defaultOptionStr p) with
      | None => Ok p
      | Some i =>
          let q := setSelectedOption i p in
          let q :=
            if (0 <? i) && (len (Options q) >? maxHeight)
            then setDisplayed
                   (Z.min (i - 1 + maxHeight) (len (Options q)) - maxHeight)
                   (Z.min (i - 1 + maxHeight) (len (Options q))) q
            else setDisplayed 0 maxHeight q in
          _ <- checkSlice (displayedOptionsStart q) (displayedOptionsEnd q)
                 (len (optionsStr q)) ;;
          Ok q
      end.
Proof.
  induction opts as [|o opts IH]; intros i0 p; simpl; [reflexivity|].
  destruct (String.eqb o (defaultOptionStr p)); [reflexivity|]. apply IH.
Qed.

Lemma min_as_clamp (a b : Z) : (if a >? b then b else a) = Z.min a b.
Proof. destruct (Z.gtb_spec a b); lia. Qed.

(** How [Show] enters the loop on a printer with a default option that is
    among the candidates. *)
Lemma Show_start_default (p : Printer T) (d : T) (i : Z) :
  Options p <> [] ->
  optionsStr p = map String_of (Options p) ->
  firstIndex 0 (optionsStr p) (String_of d) = Some i ->
  String_of d <> "" ->
  0 < startHeight p ->
  computeMatches p = optionsStr p ->
  exists ps f0 f1,
    Show (WithDefaultOption d p) false [] = Listening ps [f0; f1]
    /\ Inv ps /\ resultOk ps
    /\ selectedOption ps = i
    /\ fuzzySearchMatches ps = optionsStr p
    /\ Options ps = Options p
    /\ MaxHeight ps = startHeight p
    /\ fuzzySearchString ps = fuzzySearchString p
    /\ (let n := len (optionsStr p) in
        let h := Z.min (startHeight p) n in
        displayedOptionsEnd ps
        = (if (0 <? i) && (n >? h) then Z.min (i - 1 + h) n else h)
        /\ displayedOptionsStart ps = displayedOptionsEnd ps - h).
Proof.
  intros Hne Hstr Hfirst Hd Hh Hcm.
  assert (Hlen : len (Options p) = len (optionsStr p))
    by (rewrite Hstr; unfold len; rewrite length_map; reflexivity).
  destruct (firstIndex_Some _ _ _ _ Hfirst) as (Hi & _ & _).
  unfold Show. cbv zeta.
  match goal with |- context [len (Options ?q) =? 0] => set (pn := q) end.
  assert (Hpn : pn = setMaxHeight (startHeight p)
                       (setFuzzySearchMatches (optionsStr p)
                          (WithDefaultOption d p))).
  { unfold pn, startHeight, WithDefaultOption. simpl.
    destruct (MaxHeight p =? 0) eqn:E; [reflexivity|].
    destruct p; reflexivity. }
  clearbody pn. subst pn. simpl.
  destruct (Z.eqb_spec (len (Options p)) 0) as [E|_];
    [apply len_nil_iff in E; contradiction|].
  rewrite min_as_clamp.
  set (n := len (optionsStr p)) in *. set (h := Z.min (startHeight p) n).
  assert (Hn : 0 < n) by lia.
  assert (Hhb : 0 < h <= n) by (unfold h; lia).
  rewrite checkSlice_ok by lia.
  destruct (String.eqb_spec (String_of d) "") as [|_]; [contradiction|]. simpl.
  rewrite placeDefault_spec. simpl. rewrite Hfirst. cbv zeta. simpl.
  rewrite Hlen. fold n.
  assert (Hbr : (0 <? i) && (n >? h) = true -> 0 < i /\ h < n).
  { intros C. apply andb_prop in C as [C1 C2]. apply Z.ltb_lt in C1.
    apply Z.gtb_lt in C2. auto. }
  destruct ((0 <? i) && (n >? h)) eqn:C; simpl;
    [destruct (Hbr eq_refl)|];
    (rewrite checkSlice_ok by lia); simpl.
  all: match goal with |- context [renderSelectMenu ?q] =>
         destruct (select_renderSelectMenu_valid q) as (r0 & g0 & Hr0);
           [change (computeMatches q) with (computeMatches p); rewrite Hcm;
            intros _; simpl; fold n; lia
           |rewrite Hr0; simpl]
       end.
  all: match goal with |- context [renderSelectMenu ?q] =>
         destruct (select_renderSelectMenu_valid q) as (r1 & g1 & Hr1);
           [change (computeMatches q) with (computeMatches p); rewrite Hcm;
            intros _; simpl; fold n; lia
           |rewrite Hr1; simpl]
       end.
  all: do 3 eexists; split; [reflexivity|].
  all: pose proof (select_render_resultOk _ _ _ Hr1) as Hres.
  all: split;
    [unfold Inv, focusOk; simpl;
     change (computeMatches _) with (computeMatches p); rewrite Hcm;
     split; [lia|]; split; [reflexivity|]; intros _; fold n; lia|].
  all: split; [exact Hres|]; simpl;
    change (computeMatches _) with (computeMatches p); rewrite Hcm;
    repeat split; lia.
Qed.

(** X23.  A default option whose text is among the candidates is what an
    immediate Enter returns: on a printer built by [WithOptions] whose
    filtered list is the candidate store, [Show] focuses the first candidate
    that carries the default's text, the final menu shows that text, and the
    value returned is the Option at that index, whose text is the default's
    (it need not be the default value itself when two Options share a
    text). *)
Theorem default_option_is_focused_and_returned (p : Printer T) (d : T)
    (k : Key) (more : list Event) :
  Options p <> [] ->
  optionsStr p = map String_of (Options p) ->
  In (String_of d) (optionsStr p) ->
  String_of d <> "" ->
  0 < startHeight p ->
  computeMatches p = optionsStr p ->
  Code k = Enter ->
  exists v i ps f0 f1,
    Show (WithDefaultOption d p) false (Pressed k :: more)
    = Returned false v ps
        [f0; f1; Finished (fuzzySearchString p) [String_of d]]
    /\ selectedOption ps = i
    /\ index (Options p) i = Ok v
    /\ String_of v = String_of d
    /\ forall j o, 0 <= j < i -> index (Options p) j = Ok o ->
                   String_of o <> String_of d.
Proof.
  intros Hne Hstr Hin Hd Hh Hcm Hk.
  destruct (firstIndex_In _ _ Hin 0) as [i Hfirst].
  destruct (Show_start_default p d i Hne Hstr Hfirst Hd Hh Hcm)
    as (ps & f0 & f1 & HS & HI & Hres & Hsel & Hm & Ho & _ & Hq & _).
  destruct (firstIndex_Some _ _ _ _ Hfirst) as (Hi & Hnth & Hbefore).
  rewrite Z.sub_0_r in Hnth.
  assert (Hlen : len (Options p) = len (optionsStr p))
    by (rewrite Hstr; unfold len; rewrite length_map; reflexivity).
  assert (Hmne : fuzzySearchMatches ps <> []).
  { rewrite Hm. intros E. rewrite E in Hin. contradiction. }
  destruct (index_valid (Options p) i) as [v Hv]; [lia|].
  assert (Htext : forall j o, index (Options p) j = Ok o ->
                    nth_error (optionsStr p) (Z.to_nat j) = Some (String_of o)).
  { intros j o Hj. apply index_ok in Hj as [_ Hj].
    rewrite Hstr, nth_error_map, Hj. reflexivity. }
  assert (Hshown : result ps = String_of d).
  { specialize (Hres Hmne). rewrite Hm, Hsel in Hres.
    apply index_ok in Hres as [_ Hres]. congruence. }
  exists v, i, ps, f0, f1.
  change (Pressed k :: more) with ([] ++ Pressed k :: more).
  rewrite (select_Show_extend _ _ _ _ _ _ HS). simpl.
  unfold handleKey. cbv zeta. rewrite Hk.
  destruct (Z.eqb_spec (len (fuzzySearchMatches ps)) 0) as [E|_];
    [apply len_nil_iff in E; contradiction|].
  rewrite Ho, Hsel, Hv. unfold renderFinishedMenu. rewrite Hshown, Hq. simpl.
  split; [reflexivity|]. split; [reflexivity|]. split; [reflexivity|].
  split.
  - pose proof (Htext _ _ Hv). congruence.
  - intros j o Hj Hjo Heq. apply (Hbefore j); [lia|].
    rewrite Z.sub_0_r. rewrite (Htext _ _ Hjo), Heq. reflexivity.
Qed.

(** X24.  Where [Show] puts the window for a default option found at index
    [i]: the window always has min(height, number of candidates) rows and
    lies inside the candidate list; it contains the focus when the default is
    the first candidate or the height is at least 2; with a height of 1 and
    the default further down, the window is the single row before the focus,
    so the focused row is not the one drawn. *)
Theorem default_option_window (p : Printer T) (d : T) (i : Z) :
  Options p <> [] ->
  optionsStr p = map String_of (Options p) ->
  firstIndex 0 (optionsStr p) (String_of d) = Some i ->
  String_of d <> "" ->
  0 < startHeight p ->
  computeMatches p = optionsStr p ->
  exists ps frames,
    Show (WithDefaultOption d p) false [] = Listening ps frames
    /\ selectedOption ps = i
    /\ fullWindow ps
    /\ 0 <= displayedOptionsStart ps
    /\ displayedOptionsEnd ps <= len (fuzzySearchMatches ps)
    /\ (i = 0 \/ 2 <= startHeight p -> WindowInv ps)
    /\ (0 < i -> startHeight p = 1 ->
        displayedOptionsStart ps = i - 1 /\ displayedOptionsEnd ps = i).
Proof.
  intros Hne Hstr Hfirst Hd Hh Hcm.
  destruct (Show_start_default p d i Hne Hstr Hfirst Hd Hh Hcm)
    as (ps & f0 & f1 & HS & HI & Hres & Hsel & Hm & Ho & HM & Hq & Hw).
  destruct (firstIndex_Some _ _ _ _ Hfirst) as (Hi & _ & _).
  cbv zeta in Hw. destruct Hw as [He Hs].
  exists ps, [f0; f1]. split; [exact HS|]. split; [exact Hsel|].
  unfold fullWindow, WindowInv. rewrite Hm, HM, Hsel, Hs, He.
  set (n := len (optionsStr p)) in *. set (h := Z.min (startHeight p) n).
  assert (Hhb : 0 < h <= n) by (unfold h; lia).
  assert (Hbr : (0 <? i) && (n >? h) = true -> 0 < i /\ h < n).
  { intros C. apply andb_prop in C as [C1 C2]. apply Z.ltb_lt in C1.
    apply Z.gtb_lt in C2. auto. }
  assert (Hbf : (0 <? i) && (n >? h) = false -> i = 0 \/ n = h).
  { intros C. apply Bool.andb_false_iff in C as [C|C].
    - apply Z.ltb_ge in C. lia.
    - destruct (Z.gtb_spec n h); [discriminate|]. lia. }
  destruct ((0 <? i) && (n >? h)) eqn:C;
    [destruct (Hbr eq_refl)|destruct (Hbf eq_refl)].
  all: repeat split; try (unfold h in *; lia).
Qed.

Lemma index_past_end {A : Type} (s : list A) (i : Z) :
  len s <= i -> index s i = Panic.
Proof.
  unfold index, len. intros Hi. destruct (i <? 0); [reflexivity|].
  destruct (nth_error s (Z.to_nat i)) eqn:E; [|reflexivity].
  assert (Z.to_nat i < List.length s)%nat by (apply nth_error_Some; congruence).
  lia.
Qed.

(** X25.  The query outlives a call of [Show], and the default option is
    placed by its index in the candidate store: when [Show] is called on a
    printer that still holds a query whose filtered list is not empty and
    does not reach the index of the default option, the first render indexes
    the filtered list out of range and [Show] panics before any key is
    read. *)
Theorem default_option_past_stale_filter_panics (p : Printer T) (i : Z)
    (areaFails : bool) (events : list Event) :
  Options p <> [] ->
  len (Options p) = len (optionsStr p) ->
  0 < startHeight p ->
  defaultOptionStr p <> "" ->
  firstIndex 0 (optionsStr p) (defaultOptionStr p) = Some i ->
  computeMatches p <> [] ->
  len (computeMatches p) <= i ->
  Show p areaFails events = Panicked.
Proof.
  intros Hne Hlen Hh Hd Hfirst Hcne Hci.
  destruct (firstIndex_Some _ _ _ _ Hfirst) as (Hi & _ & _).
  unfold Show. cbv zeta.
  match goal with |- context [len (Options ?q) =? 0] => set (pn := q) end.
  assert (Hpn : pn = setMaxHeight (startHeight p)
                       (setFuzzySearchMatches (optionsStr p) p)).
  { unfold pn, startHeight. simpl.
    destruct (MaxHeight p =? 0) eqn:E; [reflexivity|].
    destruct p; reflexivity. }
  clearbody pn. subst pn. simpl.
  destruct (Z.eqb_spec (len (Options p)) 0) as [E|_];
    [apply len_nil_iff in E; contradiction|].
  rewrite min_as_clamp.
  set (n := len (optionsStr p)) in *. set (h := Z.min (startHeight p) n).
  assert (Hn : 0 < n) by lia.
  assert (Hhb : 0 < h <= n) by (unfold h; lia).
  rewrite checkSlice_ok by lia.
  destruct (String.eqb_spec (defaultOptionStr p) "") as [|_]; [contradiction|].
  simpl. rewrite placeDefault_spec. simpl. rewrite Hfirst. cbv zeta. simpl.
  rewrite Hlen. fold n.
  assert (Hbr : (0 <? i) && (n >? h) = true -> 0 < i /\ h < n).
  { intros C. apply andb_prop in C as [C1 C2]. apply Z.ltb_lt in C1.
    apply Z.gtb_lt in C2. auto. }
  destruct ((0 <? i) && (n >? h)) eqn:C; simpl;
    [destruct (Hbr eq_refl)|];
    (rewrite checkSlice_ok by lia); simpl.
  all: match goal with |- context [renderSelectMenu ?q] =>
         assert (R : renderSelectMenu q = Panic);
           [unfold renderSelectMenu; cbv zeta; simpl;
            change (computeMatches q) with (computeMatches p);
            destruct (Z.eqb_spec (len (computeMatches p)) 0) as [E|_];
            [apply len_nil_iff in E; contradiction|]; simpl;
            rewrite index_past_end by exact Hci; reflexivity
           |rewrite R; reflexivity]
       end.
Qed.

End More.
End SelectMore.

(** * Failures of the terminal *)

Section Failures.
Context {T : Type} `{Stringer T} `{Collaborators}.

(** X26.  When the area cannot be started, [Show] returns the "could not
    start area" error in both engines: no key event is read, nothing is
    displayed, and in the multiselect engine this error comes before the one
    about a space key bound while filtering.  (The menu has been rendered
    once by then, so the chosen indices, respectively the focus, must be in
    range and the height must not be negative.) *)
Theorem area_failure_ends_Show_before_any_key :
  (forall (p : Multiselect.Printer T) (events : list Event),
      Multiselect.Options p <> [] -> 0 <= Multiselect.startHeight p ->
      Multiselect.validSel p ->
      Multiselect.Show p true events = Failed CouldNotStartArea [])
  /\ (forall (p : Select.Printer T) (events : list Event),
         Select.Options p <> [] -> 0 <= Select.startHeight p ->
         Select.defaultOptionStr p = "" ->
         Select.focusOk (Select.computeMatches p) p ->
         Select.Show p true events = Failed CouldNotStartArea []).
Proof.
  split.
  - intros p events Hne Hh Hv. unfold Multiselect.Show. cbv zeta.
    match goal with |- context [len (Multiselect.Options ?q) =? 0] =>
      set (pn := q)
    end.
    assert (Hpn : pn = Multiselect.setMaxHeight (Multiselect.startHeight p)
                         (Multiselect.setFuzzySearchMatches
                            (Multiselect.optionsStr p) p)).
    { unfold pn, Multiselect.startHeight. simpl.
      destruct (Multiselect.MaxHeight p =? 0) eqn:E; [reflexivity|].
      destruct p; reflexivity. }
    clearbody pn. subst pn. simpl.
    destruct (Z.eqb_spec (len (Multiselect.Options p)) 0) as [E|_];
      [apply len_nil_iff in E; contradiction|].
    pose proof (len_nonneg (Multiselect.optionsStr p)).
    rewrite checkSlice_ok
      by (try destruct (Z.gtb_spec (Multiselect.startHeight p)
                          (len (Multiselect.optionsStr p))); lia).
    match goal with |- context [Multiselect.renderSelectMenu ?q] =>
      destruct (MultiselectFacts.renderSelectMenu_valid q Hv) as [f0 Hr0];
        rewrite Hr0
    end.
    reflexivity.
  - intros p events Hne Hh Hd Hf. unfold Select.Show. cbv zeta.
    match goal with |- context [len (Select.Options ?q) =? 0] =>
      set (pn := q)
    end.
    assert (Hpn : pn = Select.setMaxHeight (Select.startHeight p)
                         (Select.setFuzzySearchMatches
                            (Select.optionsStr p) p)).
    { unfold pn, Select.startHeight. simpl.
      destruct (Select.MaxHeight p =? 0) eqn:E; [reflexivity|].
      destruct p; reflexivity. }
    clearbody pn. subst pn. simpl.
    destruct (Z.eqb_spec (len (Select.Options p)) 0) as [E|_];
      [apply len_nil_iff in E; contradiction|].
    pose proof (len_nonneg (Select.optionsStr p)).
    rewrite checkSlice_ok
      by (try destruct (Z.gtb_spec (Select.startHeight p)
                          (len (Select.optionsStr p))); lia).
    rewrite Hd. simpl.
    match goal with |- context [Select.renderSelectMenu ?q] =>
      destruct (SelectFacts.select_renderSelectMenu_valid q Hf)
        as (r0 & f0 & Hr0); rewrite Hr0
    end.
    reflexivity.
Qed.

(** X27.  When the key-event source fails in a running session, [Show]
    returns the "failed to start keyboard listener" error in both engines:
    whatever had been chosen or focused is not returned, and the events that
    follow are never read. *)
Theorem listener_failure_discards_the_session :
  (forall (p p0 : Multiselect.Printer T) (areaFails : bool)
          (events more : list Event) (frames0 : list Frame),
      Multiselect.Show p areaFails events = Listening p0 frames0 ->
      Multiselect.Show p areaFails (events ++ SourceFailure :: more)
      = Failed KeyboardListenerFailed frames0)
  /\ (forall (p p0 : Select.Printer T) (areaFails : bool)
             (events more : list Event) (frames0 : list Frame),
         Select.Show p areaFails events = Listening p0 frames0 ->
         Select.Show p areaFails (events ++ SourceFailure :: more)
         = Failed KeyboardListenerFailed frames0).
Proof.
  split; intros p p0 areaFails events more frames0 HS.
  - rewrite (MultiselectFacts.Show_extend _ _ _ _ _ _ HS). reflexivity.
  - rewrite (SelectFacts.select_Show_extend _ _ _ _ _ _ HS). reflexivity.
Qed.

End Failures.

(** * The further properties at concrete sessions *)

(** X2 at a concrete session: gamma has been chosen, and [isSelected] says
    so. *)
Lemma isSelected_by_display_text_witness :
  exists p0 frames0 b,
    Multiselect.Show greekMultiselect false
      [press Down; press Down; press Enter] = Listening p0 frames0
    /\ Multiselect.selectedOptions p0 = [2]
    /\ Multiselect.isSelected p0 "gamma" = Ok b
    /\ (b = true <->
        exists i, In i (Multiselect.selectedOptions p0)
                  /\ index (Multiselect.optionsStr p0) i = Ok "gamma").
Proof.
  eassert (HS : Multiselect.Show greekMultiselect false
                  [press Down; press Down; press Enter] = Listening _ _)
    by (vm_compute; reflexivity).
  lazymatch type of HS with
  | _ = Listening ?q _ =>
      destruct (MultiselectMore.isSelected_by_display_text q "gamma")
        as (b & Hb & Hiff)
  end.
  - unfold Multiselect.validSel, len. simpl. constructor; [lia|constructor].
  - do 2 eexists. exists b. split; [exact HS|]. split; [reflexivity|].
    split; [exact Hb|exact Hiff].
Defined.

(** X3 at a concrete session: beta and gamma are chosen, and toggling gamma
    removes its index and keeps beta's. *)
Lemma selectOption_removes_first_match_witness :
  exists p0 frames0 before i after,
    Multiselect.Show greekMultiselect false
      [press Down; press Enter; press Down; press Enter] = Listening p0 frames0
    /\ Multiselect.selectedOptions p0 = before ++ i :: after
    /\ index (Multiselect.optionsStr p0) i = Ok "gamma"
    /\ Multiselect.selectOption "gamma" p0
       = Ok (Multiselect.setSelectedOptions (before ++ after) p0).
Proof.
  eassert (HS : Multiselect.Show greekMultiselect false
                  [press Down; press Enter; press Down; press Enter]
                = Listening _ _)
    by (vm_compute; reflexivity).
  lazymatch type of HS with
  | _ = Listening ?q _ =>
      destruct (MultiselectMore.selectOption_removes_first_match q "gamma")
        as (before & i & after & Hs & Hi & _ & Ht)
  end.
  - reflexivity.
  - do 2 eexists. exists before, i, after. split; [exact HS|].
    split; [exact Hs|]. split; [exact Hi|exact Ht].
Defined.

(** X4 at a concrete printer: gamma and alpha chosen, in that order. *)
Lemma summary_texts_are_the_selected_options_witness :
  Multiselect.getSelectedOptionsStr
    (Multiselect.setSelectedOptions [2; 0] greekMultiselect)
  = match Multiselect.getSelectedOptions
            (Multiselect.setSelectedOptions [2; 0] greekMultiselect) with
    | Ok selected => Ok (map String_of selected)
    | Panic => Panic
    end.
Proof.
  apply MultiselectMore.summary_texts_are_the_selected_options. reflexivity.
Defined.

(** X5 at a concrete session: with the focus on beta, the select key pressed
    twice leaves the printer as it was. *)
Lemma select_twice_restores_state_witness :
  exists p0 frames0 frames2,
    Multiselect.Show greekMultiselect false [press Down] = Listening p0 frames0
    /\ Multiselect.Show greekMultiselect false
         ([press Down] ++ [press Enter; press Enter]) = Listening p0 frames2.
Proof.
  eassert (HS : Multiselect.Show greekMultiselect false [press Down]
                = Listening _ _)
    by (vm_compute; reflexivity).
  destruct (MultiselectMore.select_twice_restores_state _ _ _ _ _
              (mkKey Enter "") "beta" HS) as [frames2 E].
  - reflexivity.
  - discriminate.
  - reflexivity.
  - simpl. auto.
  - reflexivity.
  - do 2 eexists. exists frames2. split; [exact HS|exact E].
Defined.

(** X6 at a concrete session: the filter "g" hides all but gamma, and
    select-all followed by confirm still returns the five options. *)
Lemma select_all_then_confirm_returns_every_option_witness :
  exists p1 frames,
    Multiselect.Show greekMultiselect false
      ([rune "g"] ++ [press Right; press Tab])
    = Returned false greek p1 frames.
Proof.
  eassert (HS : Multiselect.Show greekMultiselect false [rune "g"]
                = Listening _ _)
    by (vm_compute; reflexivity).
  destruct (MultiselectMore.select_all_then_confirm_returns_every_option
              _ _ _ _ _ (mkKey Right "") (mkKey Tab "") HS) as [frames E].
  - reflexivity.
  - reflexivity.
  - discriminate.
  - discriminate.
  - reflexivity.
  - discriminate.
  - unfold len. simpl. lia.
  - do 2 eexists. exact E.
Defined.

(** X7 at a concrete session: select-all then clear-all empties the
    selection. *)
Lemma select_all_and_clear_all_compose_witness :
  exists p0 frames0 frames,
    Multiselect.Show greekMultiselect false [] = Listening p0 frames0
    /\ Multiselect.Show greekMultiselect false
         ([] ++ [press Right; press Left])
       = Listening (Multiselect.setSelectedOptions [] p0) frames.
Proof.
  eassert (HS : Multiselect.Show greekMultiselect false [] = Listening _ _)
    by (vm_compute; reflexivity).
  destruct (MultiselectMore.select_all_and_clear_all_compose _ _ _ _ _
              (mkKey Right "") (mkKey Left "") HS) as [A _].
  - reflexivity.
  - discriminate.
  - discriminate.
  - reflexivity.
  - discriminate.
  - discriminate.
  - destruct A as [[frames E] _].
    + reflexivity.
    + reflexivity.
    + unfold len. simpl. lia.
    + do 2 eexists. exists frames. split; [exact HS|exact E].
Defined.

(** X8 at a concrete session: up on the first of five entries wraps to the
    last one, and the window follows. *)
Lemma navigation_moves_focus_and_keeps_window_witness :
  exists p0 frames0 p' f,
    Multiselect.Show greekMultiselect false [] = Listening p0 frames0
    /\ Multiselect.handleKey (mkKey Up "") p0 = Ok (Continue, p', [f])
    /\ Multiselect.selectedOption p' = 4
    /\ Multiselect.WindowInv p'.
Proof.
  eassert (HS : Multiselect.Show greekMultiselect false [] = Listening _ _)
    by (vm_compute; reflexivity).
  lazymatch type of HS with
  | _ = Listening ?q _ =>
      destruct (MultiselectMore.navigation_moves_focus_and_keeps_window
                  (mkKey Up "") q)
        as (p' & f & E & _ & _ & _ & HW & _ & Hsel)
  end.
  - exact (MultiselectFacts.Show_Inv _ _ _ _ _ HS).
  - unfold Multiselect.WindowInv, len. simpl. lia.
  - reflexivity.
  - reflexivity.
  - do 2 eexists. exists p', f. split; [exact HS|]. split; [exact E|].
    split; [exact Hsel|exact HW].
Defined.

(** X9 at a concrete printer: five candidates, height 3, and a walk down
    past the window and up again. *)
Lemma navigation_session_keeps_window_witness :
  exists p0 frames,
    Multiselect.Show (Multiselect.WithMaxHeight 3 greekMultiselect) false
      (map Pressed [mkKey Down ""; mkKey Down ""; mkKey Down ""; mkKey CtrlN "";
                    mkKey Down ""; mkKey Up ""; mkKey CtrlP ""])
    = Listening p0 frames
    /\ Multiselect.WindowInv p0
    /\ Multiselect.displayedOptionsEnd p0 - Multiselect.displayedOptionsStart p0
       = 3
    /\ Multiselect.fuzzySearchMatches p0 = greek
    /\ Multiselect.selectedOptions p0 = [].
Proof.
  apply (MultiselectMore.navigation_session_keeps_window
           (Multiselect.WithMaxHeight 3 greekMultiselect)).
  - discriminate.
  - discriminate.
  - constructor.
  - reflexivity.
  - reflexivity.
  - reflexivity.
  - reflexivity.
  - repeat constructor.
Defined.

(** X10 at a concrete session: on the last of five entries, down wraps to
    the first and up wraps back. *)
Lemma down_then_up_restores_focus_witness :
  exists p0 frames0 p2 frames2,
    Multiselect.Show (Multiselect.WithMaxHeight 3 greekMultiselect) false
      [press Down; press Down; press Down; press Down] = Listening p0 frames0
    /\ Multiselect.selectedOption p0 = 4
    /\ Multiselect.Show (Multiselect.WithMaxHeight 3 greekMultiselect) false
         ([press Down; press Down; press Down; press Down]
            ++ [press Down; press Up])
       = Listening p2 frames2
    /\ Multiselect.selectedOption p2 = 4.
Proof.
  eassert (HS : Multiselect.Show (Multiselect.WithMaxHeight 3 greekMultiselect)
                  false [press Down; press Down; press Down; press Down]
                = Listening _ _)
    by (vm_compute; reflexivity).
  destruct (MultiselectMore.down_then_up_restores_focus _ _ _ _ _
              (mkKey Down "") (mkKey Up "") HS) as [(p2 & frames2 & E & Hf) _].
  - unfold Multiselect.WindowInv, len. simpl. lia.
  - reflexivity.
  - reflexivity.
  - left. reflexivity.
  - left. reflexivity.
  - do 2 eexists. exists p2, frames2. split; [exact HS|].
    split; [reflexivity|]. split; [exact E|exact Hf].
Defined.

(** X11 at a concrete session: the query "ga" keeps gamma only; a backspace
    makes it "g" and the filtered list the one of "g". *)
Lemma backspace_refilters_then_resets_view_witness :
  exists p0 frames0 p1 frames1,
    Multiselect.Show greekMultiselect false [rune "g"; rune "a"]
    = Listening p0 frames0
    /\ Multiselect.Show greekMultiselect false
         ([rune "g"; rune "a"] ++ [press Backspace]) = Listening p1 frames1
    /\ Multiselect.fuzzySearchString p1 = "g"
    /\ Multiselect.selectedOption p1 = 0
    /\ Multiselect.displayedOptionsStart p1 = 0
    /\ Multiselect.displayedOptionsEnd p1
       = Z.min 5 (len (Multiselect.fuzzySearchMatches p1)).
Proof.
  eassert (HS : Multiselect.Show greekMultiselect false [rune "g"; rune "a"]
                = Listening _ _)
    by (vm_compute; reflexivity).
  destruct (MultiselectMore.backspace_refilters_then_resets_view _ _ _ _ _
              (mkKey Backspace "") HS)
    as (p1 & frames1 & E & Hq & _ & Hf & Hs & He & _).
  - reflexivity.
  - discriminate.
  - discriminate.
  - do 2 eexists. exists p1, frames1. split; [exact HS|]. split; [exact E|].
    split; [exact Hq|]. split; [exact Hf|]. split; [exact Hs|exact He].
Defined.

(** X12 at a concrete session: with the query "a", typing "l" and deleting
    it again gives the query and the filtered list of "a" back. *)
Lemma rune_then_backspace_restores_filter_witness :
  exists p0 frames0 p2 frames2,
    Multiselect.Show greekMultiselect false [rune "a"] = Listening p0 frames0
    /\ Multiselect.Show greekMultiselect false
         ([rune "a"] ++ [rune "l"; press Backspace]) = Listening p2 frames2
    /\ Multiselect.fuzzySearchString p2 = "a"
    /\ Multiselect.fuzzySearchMatches p2 = Multiselect.fuzzySearchMatches p0.
Proof.
  eassert (HS : Multiselect.Show greekMultiselect false [rune "a"]
                = Listening _ _)
    by (vm_compute; reflexivity).
  destruct (MultiselectMore.rune_then_backspace_restores_filter _ _ _ _ _
              (mkKey RuneKey "l") (mkKey Backspace "") HS)
    as (p2 & frames2 & E & Hq & Hm & _).
  - reflexivity.
  - reflexivity.
  - reflexivity.
  - discriminate.
  - discriminate.
  - reflexivity.
  - discriminate.
  - discriminate.
  - do 2 eexists. exists p2, frames2. split; [exact HS|]. split; [exact E|].
    split; [exact Hq|exact Hm].
Defined.

(** X13 at a concrete printer: with the window [1, 4) over the five
    candidates the rows are beta, gamma and delta. *)
Lemma render_draws_the_window_witness :
  exists p' f rows summary,
    Multiselect.renderSelectMenu (Multiselect.setDisplayed 1 4 greekMultiselect)
    = Ok (p', f)
    /\ f = Menu (Some "") rows summary
    /\ map label rows = ["beta"; "gamma"; "delta"]
    /\ summary = None.
Proof.
  eassert (HR : Multiselect.renderSelectMenu
                  (Multiselect.setDisplayed 1 4 greekMultiselect) = Ok (_, _))
    by (vm_compute; reflexivity).
  destruct (MultiselectMore.render_draws_the_window _ _ _ HR)
    as (rows & summary & Hf & Hl & _ & Hn & _).
  do 2 eexists. exists rows, summary. split; [exact HR|].
  split; [exact Hf|]. split; [exact Hl|]. apply Hn. reflexivity.
Defined.

(** X14 at a concrete session: the focus is on the first row of the window
    [1, 4), and up slides the window to [0, 3). *)
Lemma up_slide_never_clamps_witness :
  exists p0 frames0 sig p' fs,
    Multiselect.Show (Multiselect.WithMaxHeight 3 greekMultiselect) false
      [press Down; press Down; press Down; press Up; press Up]
    = Listening p0 frames0
    /\ Multiselect.selectedOption p0 = 1
    /\ Multiselect.displayedOptionsStart p0 = 1
    /\ Multiselect.handleKey (mkKey Up "") p0 = Ok (sig, p', fs)
    /\ Multiselect.selectedOption p' = 0
    /\ Multiselect.displayedOptionsStart p' = 0
    /\ Multiselect.displayedOptionsEnd p' = 3.
Proof.
  eassert (HS : Multiselect.Show (Multiselect.WithMaxHeight 3 greekMultiselect)
                  false [press Down; press Down; press Down; press Up; press Up]
                = Listening _ _)
    by (vm_compute; reflexivity).
  lazymatch type of HS with
  | _ = Listening ?q _ =>
      eassert (HK : Multiselect.handleKey (mkKey Up "") q = Ok (_, _, _))
        by (vm_compute; reflexivity)
  end.
  destruct (MultiselectMore.up_slide_never_clamps _ _ _ _ _ HK)
    as (Hf & Hs & He & _).
  - reflexivity.
  - left. reflexivity.
  - discriminate.
  - reflexivity.
  - reflexivity.
  - do 5 eexists. split; [exact HS|]. split; [reflexivity|].
    split; [reflexivity|]. split; [exact HK|].
    split; [exact Hf|]. split; [exact Hs|exact He].
Defined.

(** X15 at a concrete session: five candidates of which two contain a
    space, height 3.  Four downs bring the window to [2, 5); the space key
    filters down to two entries and leaves the window; down moves the focus
    to 1; up then slices the two-entry list with [1:4] and [Show] panics. *)
Lemma up_on_stale_window_panics_witness :
  exists p0 frames0,
    Multiselect.Show
      (Multiselect.WithMaxHeight 3
         (Multiselect.WithOptions spaced
            (Multiselect.NewGenericInteractiveMultiselect spaced)))
      false
      [press Down; press Down; press Down; press Down; press Space; press Down]
    = Listening p0 frames0
    /\ Multiselect.fuzzySearchMatches p0 = ["a b c"; "d e f"]
    /\ Multiselect.displayedOptionsStart p0 = 2
    /\ Multiselect.displayedOptionsEnd p0 = 5
    /\ Multiselect.Show
         (Multiselect.WithMaxHeight 3
            (Multiselect.WithOptions spaced
               (Multiselect.NewGenericInteractiveMultiselect spaced)))
         false
         ([press Down; press Down; press Down; press Down; press Space;
           press Down] ++ press Up :: [press Down])
       = Panicked.
Proof.
  eassert (HS : Multiselect.Show
                  (Multiselect.WithMaxHeight 3
                     (Multiselect.WithOptions spaced
                        (Multiselect.NewGenericInteractiveMultiselect spaced)))
                  false
                  [press Down; press Down; press Down; press Down; press Space;
                   press Down] = Listening _ _)
    by (vm_compute; reflexivity).
  do 2 eexists. split; [exact HS|]. do 3 (split; [reflexivity|]).
  apply (MultiselectMore.up_on_stale_window_panics _ _ _ _ [press Down] _
           (mkKey Up "") HS).
  - reflexivity.
  - left. reflexivity.
  - discriminate.
  - reflexivity.
  - reflexivity.
  - reflexivity.
Defined.

(** X16 at a concrete printer: the constructor alone leaves the candidate
    store empty, and the confirm key does not end [Show]. *)
Lemma empty_candidate_store_never_confirms_witness :
  Multiselect.optionsStr (Multiselect.NewGenericInteractiveMultiselect greek)
  = []
  /\ ~ exists v p' frames,
         Multiselect.Show (Multiselect.NewGenericInteractiveMultiselect greek)
           false [press Down; press Enter; press Tab]
         = Returned false v p' frames.
Proof.
  destruct (MultiselectMore.empty_candidate_store_never_confirms
              (Multiselect.NewGenericInteractiveMultiselect greek)) as [A B].
  split; [apply A|]. intros (v & p' & frames & E).
  apply (B eq_refl (fun _ => eq_refl) eq_refl _ _ _ _ _ E).
Defined.

(** X17 at a concrete session: beta is chosen when the interrupt arrives. *)
Lemma interrupt_returns_current_selection_witness :
  exists p0 frames0 chosen,
    Multiselect.Show greekMultiselect false [press Down; press Enter]
    = Listening p0 frames0
    /\ Multiselect.Show greekMultiselect false
         ([press Down; press Enter] ++ press CtrlC :: [press Tab])
       = Returned true chosen p0 frames0
    /\ Forall2 (fun i o => index (Multiselect.Options p0) i = Ok o)
         (Multiselect.selectedOptions p0) chosen.
Proof.
  eassert (HS : Multiselect.Show greekMultiselect false
                  [press Down; press Enter] = Listening _ _)
    by (vm_compute; reflexivity).
  destruct (MultiselectMore.interrupt_returns_current_selection _ _ _ _
              [press Tab] _ (mkKey CtrlC "") HS) as (chosen & E & HF).
  - reflexivity.
  - discriminate.
  - discriminate.
  - unfold len. simpl. lia.
  - do 2 eexists. exists chosen. split; [exact HS|]. split; [exact E|exact HF].
Defined.

(** X18 at a concrete session: after a rune and a select key the
    configuration is the one [Show] was called with. *)
Lemma session_keeps_configuration_witness :
  exists p0 frames0,
    Multiselect.Show greekMultiselect false [rune "g"; press Enter]
    = Listening p0 frames0
    /\ Multiselect.sameConfig
         (Multiselect.setMaxHeight (Multiselect.startHeight greekMultiselect)
            greekMultiselect) p0
    /\ Multiselect.fuzzySearchMatches p0 = Multiselect.computeMatches p0
    /\ Multiselect.validSel p0.
Proof.
  eassert (HS : Multiselect.Show greekMultiselect false
                  [rune "g"; press Enter] = Listening _ _)
    by (vm_compute; reflexivity).
  do 2 eexists. split; [exact HS|].
  eapply MultiselectMore.session_keeps_configuration.
  left. eexists. exact HS.
Defined.

(** X20 at a concrete printer: with the window [1, 4) over the five
    candidates the rows are beta, gamma and delta, and the text kept for the
    final menu is the focused candidate. *)
Lemma select_render_draws_the_window_witness :
  exists p' rows,
    Select.renderSelectMenu (Select.setDisplayed 1 4 greekSelect)
    = Ok (p', Menu (Some "") rows None)
    /\ map label rows = ["beta"; "gamma"; "delta"]
    /\ Select.resultOk p'.
Proof.
  destruct (SelectMore.select_render_draws_the_window
              (Select.setDisplayed 1 4 greekSelect)) as [A _].
  destruct A as (p' & rows & E & Hl & _ & Hr & _).
  - intros _. unfold len. simpl. lia.
  - exists p', rows. split; [exact E|]. split; [exact Hl|exact Hr].
Defined.

(** X21 at a concrete session: Enter with the focus on beta. *)
Lemma select_enter_ends_the_session_witness :
  exists p0 frames0 v shown,
    Select.Show greekSelect false [press Down] = Listening p0 frames0
    /\ Select.Show greekSelect false ([press Down] ++ press Enter :: [press Up])
       = Returned false v p0
           (frames0 ++ [Finished (Select.fuzzySearchString p0) [shown]])
    /\ index (Select.fuzzySearchMatches p0) (Select.selectedOption p0) = Ok shown
    /\ index (Select.Options p0) (Select.selectedOption p0) = Ok v.
Proof.
  eassert (HS : Select.Show greekSelect false [press Down] = Listening _ _)
    by (vm_compute; reflexivity).
  destruct (SelectMore.select_enter_ends_the_session _ _ _ _ [press Up] _
              (mkKey Enter "") HS) as (v & shown & E & Hs & Hv).
  - reflexivity.
  - discriminate.
  - unfold len. simpl. lia.
  - do 2 eexists. exists v, shown. split; [exact HS|]. split; [exact E|].
    split; [exact Hs|exact Hv].
Defined.

(** X22 at a concrete session: the interrupt with the focus on beta. *)
Lemma select_interrupt_returns_option_at_focus_witness :
  exists p0 frames0,
    Select.Show greekSelect false [press Down] = Listening p0 frames0
    /\ Select.Show greekSelect false
         ([press Down] ++ press CtrlC :: [press Enter])
       = Returned true "beta" p0 frames0.
Proof.
  eassert (HS : Select.Show greekSelect false [press Down] = Listening _ _)
    by (vm_compute; reflexivity).
  do 2 eexists. split; [exact HS|].
  exact (SelectMore.select_interrupt_returns_option_at_focus _ _ _ _
           [press Enter] _ (mkKey CtrlC "") HS eq_refl).
Defined.

(** X23 at a concrete printer: gamma as the default option, and Enter at
    once. *)
Lemma default_option_is_focused_and_returned_witness :
  exists v i ps f0 f1,
    Select.Show (Select.WithDefaultOption "gamma" greekSelect) false
      [press Enter]
    = Returned false v ps [f0; f1; Finished "" ["gamma"]]
    /\ Select.selectedOption ps = i
    /\ index greek i = Ok v
    /\ String_of v = "gamma".
Proof.
  destruct (SelectMore.default_option_is_focused_and_returned greekSelect
              "gamma" (mkKey Enter "") [])
    as (v & i & ps & f0 & f1 & E & Hs & Hv & Ht & _).
  - discriminate.
  - reflexivity.
  - simpl. auto.
  - discriminate.
  - reflexivity.
  - reflexivity.
  - reflexivity.
  - exists v, i, ps, f0, f1. split; [exact E|]. split; [exact Hs|].
    split; [exact Hv|exact Ht].
Defined.

(** X24 at a concrete printer: height 1 and gamma, the third candidate, as
    the default option: the focus is 2 and the window is [1, 2). *)
Lemma default_option_window_witness :
  exists ps frames,
    Select.Show
      (Select.WithDefaultOption "gamma" (Select.WithMaxHeight 1 greekSelect))
      false [] = Listening ps frames
    /\ Select.selectedOption ps = 2
    /\ Select.displayedOptionsStart ps = 1
    /\ Select.displayedOptionsEnd ps = 2.
Proof.
  destruct (SelectMore.default_option_window
              (Select.WithMaxHeight 1 greekSelect) "gamma" 2)
    as (ps & frames & E & Hs & _ & _ & _ & _ & Hw).
  - discriminate.
  - reflexivity.
  - reflexivity.
  - discriminate.
  - reflexivity.
  - reflexivity.
  - exists ps, frames. split; [exact E|]. split; [exact Hs|].
    apply Hw; reflexivity.
Defined.

(** X19 at a concrete session: gamma is chosen under the query "g" and
    confirmed; a second call starts with that query and that selection, and
    the confirm key returns gamma again. *)
Lemma second_Show_resumes_the_first_witness :
  exists p1 frames ps f0 f1 frames',
    Multiselect.Show greekMultiselect false [rune "g"; press Enter; press Tab]
    = Returned false ["gamma"] p1 frames
    /\ Multiselect.Show p1 false [] = Listening ps [f0; f1]
    /\ Multiselect.selectedOptions ps = [2]
    /\ Multiselect.fuzzySearchString ps = "g"
    /\ Multiselect.Show p1 false [press Tab]
       = Returned false ["gamma"] ps frames'.
Proof.
  eassert (HS : Multiselect.Show greekMultiselect false
                  [rune "g"; press Enter; press Tab]
                = Returned false ["gamma"] _ _)
    by (vm_compute; reflexivity).
  destruct (MultiselectMore.second_Show_resumes_the_first _ _ _ _ _ [] _ _
              (mkKey Tab "") HS)
    as (ps & f0 & f1 & E & Hsel & Hq & _ & _ & _ & _ & Hc).
  destruct Hc as [frames' Ec]; [reflexivity|discriminate|].
  do 2 eexists. exists ps, f0, f1, frames'. split; [exact HS|].
  split; [exact E|]. split; [exact Hsel|]. split; [exact Hq|exact Ec].
Defined.

(** X25 at a concrete session: epsilon, the fifth candidate, is the default
    option; the query "e" leaves three candidates; after Enter, a second call
    on the same printer panics. *)
Lemma default_option_past_stale_filter_panics_witness :
  exists v p1 frames,
    Select.Show (Select.WithDefaultOption "epsilon" greekSelect) false
      [rune "e"; press Enter] = Returned false v p1 frames
    /\ Select.fuzzySearchString p1 = "e"
    /\ Select.Show p1 false [] = Panicked.
Proof.
  eassert (HS : Select.Show (Select.WithDefaultOption "epsilon" greekSelect)
                  false [rune "e"; press Enter] = Returned false _ _ _)
    by (vm_compute; reflexivity).
  do 3 eexists. split; [exact HS|]. split; [reflexivity|].
  apply (SelectMore.default_option_past_stale_filter_panics _ 4).
  - discriminate.
  - reflexivity.
  - reflexivity.
  - discriminate.
  - reflexivity.
  - vm_compute. discriminate.
  - vm_compute. discriminate.
Defined.

(** X26 at concrete printers: the area fails for a multiselect printer whose
    confirm key is space, and for a single-select printer. *)
Lemma area_failure_ends_Show_before_any_key_witness :
  Multiselect.Show (Multiselect.WithKeyConfirm Space greekMultiselect) true
    [press Tab] = Failed CouldNotStartArea []
  /\ Select.Show greekSelect true [press Enter] = Failed CouldNotStartArea [].
Proof.
  destruct (@area_failure_ends_Show_before_any_key string _ _) as [A B].
  split.
  - apply A.
    + discriminate.
    + vm_compute. discriminate.
    + constructor.
  - apply B.
    + discriminate.
    + vm_compute. discriminate.
    + reflexivity.
    + intros _. unfold len. simpl. lia.
Defined.

(** X27 at concrete sessions: the key-event source fails after alpha has
    been chosen, respectively after the focus has moved to beta. *)
Lemma listener_failure_discards_the_session_witness :
  (exists p0 frames0,
      Multiselect.Show greekMultiselect false [press Enter]
      = Listening p0 frames0
      /\ Multiselect.selectedOptions p0 = [0]
      /\ Multiselect.Show greekMultiselect false
           ([press Enter] ++ SourceFailure :: [press Tab])
         = Failed KeyboardListenerFailed frames0)
  /\ (exists p0 frames0,
        Select.Show greekSelect false [press Down] = Listening p0 frames0
        /\ Select.selectedOption p0 = 1
        /\ Select.Show greekSelect false
             ([press Down] ++ SourceFailure :: [press Enter])
           = Failed KeyboardListenerFailed frames0).
Proof.
  destruct (@listener_failure_discards_the_session string _ _) as [A B].
  split.
  - eassert (HS : Multiselect.Show greekMultiselect false [press Enter]
                  = Listening _ _)
      by (vm_compute; reflexivity).
    do 2 eexists. split; [exact HS|]. split; [reflexivity|].
    exact (A _ _ _ _ [press Tab] _ HS).
  - eassert (HS : Select.Show greekSelect false [press Down] = Listening _ _)
      by (vm_compute; reflexivity).
    do 2 eexists. split; [exact HS|]. split; [reflexivity|].
    exact (B _ _ _ _ [press Enter] _ HS).
Defined.

(** X1 at a concrete printer: no candidate is called zeta, and gamma is
    found at its index. *)
Lemma findOptionByText_first_match_witness :
  Multiselect.findOptionByText greekMultiselect "zeta" = -1
  /\ index (Multiselect.optionsStr greekMultiselect)
       (Multiselect.findOptionByText greekMultiselect "gamma") = Ok "gamma".
Proof.
  split.
  - apply (MultiselectMore.findOptionByText_first_match greekMultiselect "zeta").
    simpl. intuition discriminate.
  - apply (MultiselectMore.findOptionByText_first_match greekMultiselect "gamma").
    simpl. auto.
Defined.
